(** * AIT CMMS: preventive-maintenance scheduling and completion engine

    A shallow embedding of the PM engine of [AIT_CMMS_REV3.py]:

    - [DateStandardizer.parse_date_flexible] (the date normaliser),
    - [validate_pm_completion], [process_normal_pm_completion],
      [process_cannot_find_pm], [process_run_to_failure_pm],
      [verify_pm_completion_saved] and [submit_pm_completion]
      (the completion transaction),
    - [is_pm_overdue], [is_pm_due], [generate_weekly_assignments] and
      [check_pm_scheduling_status_comprehensive] (the weekly scheduler),
    - [get_week_start], [calculate_pm_status], [verify_no_duplicates],
      [mark_asset_found] and [reactivate_asset] (the look-ups and the
      maintenance of the asset lists).

    Conventions of the embedding.

    - Python [str] values are Rocq [string]s, i.e. sequences of 8-bit
      characters; non-ASCII digits and spaces are outside the model.
    - A [datetime] obtained from [strptime] with a date-only format is a
      calendar date (its time of day is midnight); [datetime.now()] is a
      parameter [today], the current calendar date.  For a midnight [d],
      [(datetime.now() - d).days] is the difference of the two ordinals
      whatever the time of day, which is how it is computed here.
    - The SQLite database is a record of tables, each a list of rows in
      rowid order.  Columns that the modelled code never reads or writes
      (the timestamps, SAP numbers, drawing numbers ...) are left out.
    - A Python exception is an explicit failure value; every
      [try]/[except] of the source appears as a [match] on it. *)

From Stdlib Require Import ZArith QArith Lia Ascii String.
From stdpp Require Import base list strings gmap.

Local Open Scope string_scope.
Local Open Scope list_scope.
Local Open Scope Z_scope.

(** ** Python exceptions *)

Inductive exn :=
| ValueError | TypeError | OverflowError | ZeroDivisionError
| OperationalError     (* sqlite3: a statement failed *)
| Failure.             (* [raise Exception(...)] *)

(** The result of running a piece of Python: a value or a raised
    exception. *)
Inductive res (A : Type) :=
| Ok (a : A)
| Raise (e : exn).
Arguments Ok {A} a.
Arguments Raise {A} e.

#[global] Instance res_ret : MRet res := fun A a => Ok a.
#[global] Instance res_bind : MBind res := fun A B f m =>
  match m with
  | Ok a => f a
  | Raise e => Raise e
  end.

(** [try: body  except ValueError: handler] *)
Definition except_ValueError {A} (body handler : res A) : res A :=
  match body with
  | Raise ValueError => handler
  | r => r
  end.

(** [try: body  except Exception: handler] *)
Definition except_Exception {A} (body : res A) (handler : A) : A :=
  match body with
  | Ok a => a
  | Raise _ => handler
  end.

(** ** Python strings *)

Module Py.

Definition code (c : Ascii.ascii) : Z := Z.of_N (Ascii.N_of_ascii c).

(** [c.isdigit()] on an 8-bit character. *)
Definition is_digit (c : Ascii.ascii) : bool :=
  (48 <=? code c) && (code c <=? 57).

Definition digit_val (c : Ascii.ascii) : Z := code c - 48.

Definition in_range (lo hi : Z) (c : Ascii.ascii) : bool :=
  is_digit c && (lo <=? digit_val c) && (digit_val c <=? hi).

(** The characters [str.strip()] removes: tab, newline, vertical tab,
    form feed, carriage return, the four separators 0x1c-0x1f, space. *)
Definition is_space (c : Ascii.ascii) : bool :=
  ((9 <=? code c) && (code c <=? 13))
  || ((28 <=? code c) && (code c <=? 32)).

Fixpoint lstrip (s : list Ascii.ascii) : list Ascii.ascii :=
  match s with
  | c :: r => if is_space c then lstrip r else s
  | [] => []
  end.

Definition strip (s : string) : string :=
  String.string_of_list_ascii
    (rev (lstrip (rev (lstrip (String.list_ascii_of_string s))))).

(** [int(ds)] for a string of decimal digits. *)
Definition int_of_digits (ds : list Ascii.ascii) : Z :=
  fold_left (fun acc c => 10 * acc + digit_val c) ds 0.

Definition digit_char (n : Z) : Ascii.ascii :=
  Ascii.ascii_of_N (Z.to_N (48 + n mod 10)).

(** The [w] low decimal digits of [n], most significant first:
    the rendering of ["%0wd"] for [0 <= n < 10^w]. *)
Fixpoint zero_pad (w : nat) (n : Z) : list Ascii.ascii :=
  match w with
  | O => []
  | S w' => zero_pad w' (n / 10) ++ [digit_char n]
  end.

(** [re.findall(r'\d+', s)]: the maximal runs of digits, left to right.
    [cur] is the run being read, most recent digit first. *)
Fixpoint digit_runs (s cur : list Ascii.ascii) : list (list Ascii.ascii) :=
  match s with
  | [] => match cur with [] => [] | _ => [rev cur] end
  | c :: r =>
      if is_digit c then digit_runs r (c :: cur)
      else match cur with
           | [] => digit_runs r []
           | _ => rev cur :: digit_runs r []
           end
  end.

Definition findall_digits (s : string) : list (list Ascii.ascii) :=
  digit_runs (String.list_ascii_of_string s) [].

(** Truth value of a [str]: non-empty. *)
Definition truthy (s : string) : bool :=
  match s with "" => false | _ => true end.

(** Truth value of a nullable TEXT column read from the database:
    [None] and the empty string are false. *)
Definition truthy_opt (o : option string) : bool :=
  match o with Some s => truthy s | None => false end.

End Py.

(** ** Python [datetime]: calendar dates *)

Module PyDate.

Record date := mkdate { year : Z; month : Z; day : Z }.

Definition MINYEAR : Z := 1.
Definition MAXYEAR : Z := 9999.
(** [date.max.toordinal()] *)
Definition MAXORDINAL : Z := 3652059.

Definition is_leap (y : Z) : bool :=
  (y mod 4 =? 0) && (negb (y mod 100 =? 0) || (y mod 400 =? 0)).

Definition days_in_month (y m : Z) : Z :=
  if m =? 2 then (if is_leap y then 29 else 28)
  else if (m =? 4) || (m =? 6) || (m =? 9) || (m =? 11) then 30
  else 31.

Definition days_before_year (y : Z) : Z :=
  let y := y - 1 in y * 365 + y / 4 - y / 100 + y / 400.

(** [_DAYS_BEFORE_MONTH] *)
Definition DAYS_BEFORE_MONTH (m : Z) : Z :=
  nth (Z.to_nat m) [0; 0; 31; 59; 90; 120; 151; 181; 212; 243; 273; 304; 334] 0.

Definition days_before_month (y m : Z) : Z :=
  DAYS_BEFORE_MONTH m + (if (2 <? m) && is_leap y then 1 else 0).

Definition ymd2ord (y m d : Z) : Z :=
  days_before_year y + days_before_month y m + d.

Definition toordinal (d : date) : Z := ymd2ord (year d) (month d) (day d).

(** [_ord2ymd]; [divmod] is floor division, as [Z.div] and [Z.modulo]
    are for a positive divisor. *)
Definition ord2ymd (n : Z) : date :=
  let n := n - 1 in
  let n400 := n / 146097 in
  let n := n mod 146097 in
  let y := n400 * 400 + 1 in
  let n100 := n / 36524 in
  let n := n mod 36524 in
  let n4 := n / 1461 in
  let n := n mod 1461 in
  let n1 := n / 365 in
  let n := n mod 365 in
  let y := y + n100 * 100 + n4 * 4 + n1 in
  if (n1 =? 4) || (n100 =? 4) then mkdate (y - 1) 12 31
  else
    let leapyear := (n1 =? 3) && (negb (n4 =? 24) || (n100 =? 3)) in
    let m := Z.shiftr (n + 50) 5 in
    let preceding :=
      DAYS_BEFORE_MONTH m + (if (2 <? m) && leapyear then 1 else 0) in
    if n <? preceding then
      let m' := m - 1 in
      let dim :=
        (if m' =? 2 then 28
         else if (m' =? 4) || (m' =? 6) || (m' =? 9) || (m' =? 11) then 30
         else 31)
        + (if (m' =? 2) && leapyear then 1 else 0) in
      mkdate y m' (n - (preceding - dim) + 1)
    else mkdate y m (n - preceding + 1).

(** The [datetime(y, m, d)] constructor, which raises [ValueError] on
    an impossible date. *)
Definition make_date (y m d : Z) : res date :=
  if (MINYEAR <=? y) && (y <=? MAXYEAR) && (1 <=? m) && (m <=? 12)
     && (1 <=? d) && (d <=? days_in_month y m)
  then Ok (mkdate y m d) else Raise ValueError.

(** [d + timedelta(days=n)], which raises [OverflowError] outside
    years 1..9999. *)
Definition add_days (d : date) (n : Z) : res date :=
  let o := toordinal d + n in
  if (1 <=? o) && (o <=? MAXORDINAL) then Ok (ord2ymd o)
  else Raise OverflowError.

(** [(a - b).days] *)
Definition days_between (a b : date) : Z := toordinal a - toordinal b.

(** [d.weekday()]: Monday is 0. *)
Definition weekday (d : date) : Z := (toordinal d + 6) mod 7.

(** [d.replace(year=y)] *)
Definition replace_year (d : date) (y : Z) : res date :=
  make_date y (month d) (day d).

(** [d.strftime('%Y-%m-%d')].  The C library renders years below 1000
    differently across platforms; the zero-padded form is used. *)
Definition strftime_ymd (d : date) : string :=
  String.string_of_list_ascii
    (Py.zero_pad 4 (year d) ++ ["-"%char]
     ++ Py.zero_pad 2 (month d) ++ ["-"%char] ++ Py.zero_pad 2 (day d)).

(** *** [datetime.strptime]

    [_strptime] turns the format into a regular expression, matches it
    at the start of the data and then refuses unconverted data.  The
    directives of the formats the program uses are modelled; any other
    directive character is a bad directive ([ValueError]), which is
    what [_strptime] answers for ['%#m'] and ['%-m']. *)

Inductive directive :=
| D_m | D_d | D_y | D_Y
| D_lit (c : Ascii.ascii).

Fixpoint compile_format (f : list Ascii.ascii) : option (list directive) :=
  match f with
  | [] => Some []
  | "%"%char :: c :: r =>
      match (if Ascii.eqb c "m" then Some D_m
             else if Ascii.eqb c "d" then Some D_d
             else if Ascii.eqb c "y" then Some D_y
             else if Ascii.eqb c "Y" then Some D_Y
             else None),
            compile_format r with
      | Some d, Some ds => Some (d :: ds)
      | _, _ => None
      end
  | "%"%char :: [] => None
  | c :: r =>
      match compile_format r with
      | Some ds => Some (D_lit c :: ds)
      | None => None
      end
  end.

(** One alternative of a regular expression made of two character
    classes, and one made of a single class. *)
Definition alt2 (p1 p2 : Ascii.ascii -> bool) (v : Ascii.ascii -> Ascii.ascii -> Z)
    (s : list Ascii.ascii) : list (Z * list Ascii.ascii) :=
  match s with
  | c1 :: c2 :: r => if p1 c1 && p2 c2 then [(v c1 c2, r)] else []
  | _ => []
  end.

Definition alt1 (p : Ascii.ascii -> bool) (s : list Ascii.ascii)
    : list (Z * list Ascii.ascii) :=
  match s with
  | c :: r => if p c then [(Py.digit_val c, r)] else []
  | _ => []
  end.

Definition two_digits (c1 c2 : Ascii.ascii) : Z :=
  10 * Py.digit_val c1 + Py.digit_val c2.

(** [(?P<m>1[0-2]|0[1-9]|[1-9])], alternatives in order. *)
Definition re_m (s : list Ascii.ascii) : list (Z * list Ascii.ascii) :=
  alt2 (Py.in_range 1 1) (Py.in_range 0 2) two_digits s
  ++ alt2 (Py.in_range 0 0) (Py.in_range 1 9) two_digits s
  ++ alt1 (Py.in_range 1 9) s.

(** [(?P<d>3[0-1]|[1-2]\d|0[1-9]|[1-9]| [1-9])] *)
Definition re_d (s : list Ascii.ascii) : list (Z * list Ascii.ascii) :=
  alt2 (Py.in_range 3 3) (Py.in_range 0 1) two_digits s
  ++ alt2 (Py.in_range 1 2) Py.is_digit two_digits s
  ++ alt2 (Py.in_range 0 0) (Py.in_range 1 9) two_digits s
  ++ alt1 (Py.in_range 1 9) s
  ++ alt2 (Ascii.eqb " ") (Py.in_range 1 9) (fun _ c => Py.digit_val c) s.

(** [(?P<y>\d\d)] and [(?P<Y>\d\d\d\d)] *)
Definition re_y (s : list Ascii.ascii) : list (Z * list Ascii.ascii) :=
  alt2 Py.is_digit Py.is_digit two_digits s.

Definition re_Y (s : list Ascii.ascii) : list (Z * list Ascii.ascii) :=
  match s with
  | c1 :: c2 :: c3 :: c4 :: r =>
      if Py.is_digit c1 && Py.is_digit c2 && Py.is_digit c3 && Py.is_digit c4
      then [(Py.int_of_digits [c1; c2; c3; c4], r)] else []
  | _ => []
  end.

(** The matches of a compiled format in backtracking order, each with
    the (year, month, day) read and the unmatched rest.  The defaults
    are those of [_strptime]: 1900-01-01. *)
Fixpoint match_format (f : list directive) (s : list Ascii.ascii) (acc : Z * Z * Z)
    : list ((Z * Z * Z) * list Ascii.ascii) :=
  match f with
  | [] => [(acc, s)]
  | D_lit c :: f' =>
      match s with
      | c' :: r => if Ascii.eqb c c' then match_format f' r acc else []
      | [] => []
      end
  | D_m :: f' =>
      flat_map (fun '(v, r) => match_format f' r (acc.1.1, v, acc.2)) (re_m s)
  | D_d :: f' =>
      flat_map (fun '(v, r) => match_format f' r (acc.1.1, acc.1.2, v)) (re_d s)
  | D_y :: f' =>
      flat_map (fun '(v, r) =>
                  match_format f' r
                    ((if v <=? 68 then v + 2000 else v + 1900), acc.1.2, acc.2))
               (re_y s)
  | D_Y :: f' =>
      flat_map (fun '(v, r) => match_format f' r (v, acc.1.2, acc.2)) (re_Y s)
  end.

(** [datetime.strptime(data, format)] *)
Definition strptime (data format : string) : res date :=
  match compile_format (String.list_ascii_of_string format) with
  | None => Raise ValueError                 (* bad directive *)
  | Some f =>
      match match_format f (String.list_ascii_of_string data) (1900, 1, 1) with
      | [] => Raise ValueError               (* does not match format *)
      | ((y, m, d), rest) :: _ =>
          match rest with
          | [] => make_date y m d
          | _ => Raise ValueError            (* unconverted data remains *)
          end
      end
  end.

End PyDate.

(** ** SQLite text dates *)

Module Sqlite.

(** [parseYyyyMmDd] on a plain ["YYYY-MM-DD"]: four, two and two
    digits, month 1..12, day 1..31. *)
Definition parse_ymd (s : string) : option (Z * Z * Z) :=
  match String.list_ascii_of_string s with
  | [y1; y2; y3; y4; s1; m1; m2; s2; d1; d2] =>
      let m := PyDate.two_digits m1 m2 in
      let d := PyDate.two_digits d1 d2 in
      if forallb Py.is_digit [y1; y2; y3; y4; m1; m2; d1; d2]
         && Ascii.eqb s1 "-" && Ascii.eqb s2 "-"
         && (1 <=? m) && (m <=? 12) && (1 <=? d) && (d <=? 31)
      then Some (Py.int_of_digits [y1; y2; y3; y4], m, d)
      else None
  | _ => None
  end.

(** [DATE(s, '+n days')]; [None] is NULL.  Time strings with a time
    part, Julian day numbers and ['now'] are not modelled (NULL): the
    program only hands over completion dates, and every completion
    date on which the result is observable has passed
    [strptime(..., '%Y-%m-%d')].  A result outside years 0..9999 is
    NULL. *)
Definition date_add (s : string) (n : Z) : option string :=
  match parse_ymd s with
  | None => None
  | Some (y, m, d) =>
      let r := PyDate.ord2ymd (PyDate.ymd2ord y m d + n) in
      if (0 <=? PyDate.year r) && (PyDate.year r <=? 9999)
      then Some (PyDate.strftime_ymd r) else None
  end.

(** [a >= b] on TEXT values (BINARY collation); a NULL operand makes
    the comparison NULL, which a WHERE clause treats as false. *)
Definition text_ge (a : string) (b : option string) : bool :=
  match b with
  | Some b => String.leb b a
  | None => false
  end.

End Sqlite.

(** ** [class DateStandardizer] *)

Module DateStandardizer.

(** [self.date_formats] *)
Definition date_formats : list string :=
  [ "%m/%d/%y"; "%#m/%#d/%y"; "%-m/%-d/%y";
    "%m/%d/%Y"; "%#m/%#d/%Y"; "%-m/%-d/%Y";
    "%m-%d-%y"; "%#m-%#d-%y"; "%-m/%-d/%y";
    "%m-%d-%Y"; "%#m-%#d-%Y"; "%-m/%-d/%Y";
    "%Y-%m-%d" ].

(** [re.match(r'^\d{4}-\d{2}-\d{2}$', s)] on a stripped string. *)
Definition is_iso_shape (s : string) : bool :=
  match String.list_ascii_of_string s with
  | [y1; y2; y3; y4; s1; m1; m2; s2; d1; d2] =>
      forallb Py.is_digit [y1; y2; y3; y4; m1; m2; d1; d2]
      && Ascii.eqb s1 "-" && Ascii.eqb s2 "-"
  | _ => false
  end.

(** The body of the [try] inside the loop over the formats. *)
Definition try_format (date_str date_format : string) : res string :=
  parsed_date ← PyDate.strptime date_str date_format;
  parsed_date ←
    (if PyDate.year parsed_date <? 1950 then
       if PyDate.year parsed_date <? 50
       then PyDate.replace_year parsed_date (PyDate.year parsed_date + 2000)
       else PyDate.replace_year parsed_date (PyDate.year parsed_date + 1900)
     else Ok parsed_date);
  Ok (PyDate.strftime_ymd parsed_date).

(** [for date_format in self.date_formats: try: ... except ValueError:
    continue], then [return None]. *)
Fixpoint try_formats (date_str : string) (formats : list string)
    : res (option string) :=
  match formats with
  | [] => Ok None
  | date_format :: rest =>
      except_ValueError
        (r ← try_format date_str date_format; Ok (Some r))
        (try_formats date_str rest)
  end.

Definition parse_date_flexible (date_str : string) : res (option string) :=
  if negb (Py.truthy date_str) || String.eqb (Py.strip date_str) ""
  then Ok None
  else
    let date_str := Py.strip date_str in
    already ←
      (if is_iso_shape date_str then
         except_ValueError
           (_ ← PyDate.strptime date_str "%Y-%m-%d"; Ok (Some date_str))
           (Ok None)
       else Ok None);
    match already with
    | Some r => Ok (Some r)
    | None => try_formats date_str date_formats
    end.

End DateStandardizer.

(** ** The database *)

(** Table [equipment].  The PM flags are BOOLEAN columns holding 0 or 1. *)
Record equipment_row := mk_equipment {
  bfm_equipment_no : string;
  description : string;
  location : string;
  monthly_pm : bool;
  six_month_pm : bool;
  annual_pm : bool;
  last_monthly_pm : option string;
  last_six_month_pm : option string;
  last_annual_pm : option string;
  next_monthly_pm : option string;
  next_six_month_pm : option string;
  next_annual_pm : option string;
  status : string
}.

(** Table [pm_completions]. *)
Record pm_completion := mk_completion {
  pc_id : Z;
  pc_bfm_equipment_no : string;
  pc_pm_type : string;
  pc_technician_name : string;
  pc_completion_date : string;
  pc_labor_hours : Q;
  pc_labor_minutes : Q;
  pc_pm_due_date : string;
  pc_special_equipment : string;
  pc_notes : string;
  pc_next_annual_pm_date : string
}.

(** Table [weekly_pm_schedules]. *)
Record weekly_pm_schedule := mk_schedule {
  ws_week_start_date : string;
  ws_bfm_equipment_no : string;
  ws_pm_type : string;
  ws_assigned_technician : string;
  ws_status : string;
  ws_scheduled_date : string;
  ws_completion_date : option string;
  ws_labor_hours : option Q;
  ws_notes : option string
}.

(** Table [cannot_find_assets]. *)
Record cannot_find_asset := mk_cannot_find {
  cf_bfm_equipment_no : string;
  cf_description : string;
  cf_location : string;
  cf_technician_name : string;
  cf_report_date : string;
  cf_notes : string;
  cf_status : string
}.

(** Table [run_to_failure_assets]. *)
Record run_to_failure_asset := mk_run_to_failure {
  rtf_bfm_equipment_no : string;
  rtf_description : string;
  rtf_location : string;
  rtf_technician_name : string;
  rtf_completion_date : string;
  rtf_labor_hours : Q;
  rtf_notes : string
}.

Record db := mk_db {
  equipment : list equipment_row;
  pm_completions : list pm_completion;
  weekly_pm_schedules : list weekly_pm_schedule;
  cannot_find_assets : list cannot_find_asset;
  run_to_failure_assets : list run_to_failure_asset
}.

(** *** Statements inside a transaction

    A statement run through [cursor.execute] either raises
    [sqlite3.OperationalError] or transforms the working copy of the
    database.  Which statements fail is decided by [faults], indexed by
    the position of the statement in the transaction; the state of a
    transaction is that position and the working copy. *)

Definition faults := nat -> bool.

Definition no_faults : faults := fun _ => false.

Definition tx (A : Type) : Type := faults -> nat -> db -> res (A * (nat * db)).

#[global] Instance tx_ret : MRet tx := fun A a _ k s => Ok (a, (k, s)).
#[global] Instance tx_bind : MBind tx := fun A B f m flt k s =>
  match m flt k s with
  | Ok (a, (k', s')) => f a flt k' s'
  | Raise e => Raise e
  end.

(** [cursor.execute(stmt)] *)
Definition execute {A} (stmt : db -> A * db) : tx A := fun flt k s =>
  if flt k then Raise OperationalError
  else let '(a, s') := stmt s in Ok (a, (S k, s')).

(** [raise e] *)
Definition tx_raise {A} (e : exn) : tx A := fun _ _ _ => Raise e.

(** A computation that does not touch the database. *)
Definition tx_lift {A} (r : res A) : tx A := fun _ k s =>
  match r with
  | Ok a => Ok (a, (k, s))
  | Raise e => Raise e
  end.

(** *** Queries and updates *)

Definition equipment_with (bfm_no : string) (s : db) : list equipment_row :=
  List.filter (fun e => String.eqb (bfm_equipment_no e) bfm_no) (equipment s).

(** [UPDATE equipment SET ... WHERE bfm_equipment_no = ?]; the value is
    [cursor.rowcount]. *)
Definition update_equipment (bfm_no : string) (f : equipment_row -> equipment_row)
    (s : db) : Z * db :=
  (Z.of_nat (length (equipment_with bfm_no s)),
   mk_db (map (fun e => if String.eqb (bfm_equipment_no e) bfm_no then f e else e)
              (equipment s))
         (pm_completions s) (weekly_pm_schedules s)
         (cannot_find_assets s) (run_to_failure_assets s)).

(** The rowid SQLite gives to the next row of [pm_completions]. *)
Definition next_completion_id (s : db) : Z :=
  1 + fold_right Z.max 0 (map pc_id (pm_completions s)).

(** [INSERT INTO pm_completions ...]; the value is [cursor.lastrowid]. *)
Definition insert_completion (row : Z -> pm_completion) (s : db) : Z * db :=
  let id := next_completion_id s in
  (id,
   mk_db (equipment s) (pm_completions s ++ [row id]) (weekly_pm_schedules s)
         (cannot_find_assets s) (run_to_failure_assets s)).

Definition insert_cannot_find (row : cannot_find_asset) (s : db) : unit * db :=
  (tt,
   mk_db (equipment s) (pm_completions s) (weekly_pm_schedules s)
         (cannot_find_assets s ++ [row]) (run_to_failure_assets s)).

Definition insert_run_to_failure (row : run_to_failure_asset) (s : db) : unit * db :=
  (tt,
   mk_db (equipment s) (pm_completions s) (weekly_pm_schedules s)
         (cannot_find_assets s) (run_to_failure_assets s ++ [row])).

(** The rows of [weekly_pm_schedules] matching
    [bfm_equipment_no = ? AND pm_type = ? AND assigned_technician = ?
     AND week_start_date = ?]. *)
Definition schedule_matches (bfm_no pm_type technician week_start : string)
    (r : weekly_pm_schedule) : bool :=
  String.eqb (ws_bfm_equipment_no r) bfm_no
  && String.eqb (ws_pm_type r) pm_type
  && String.eqb (ws_assigned_technician r) technician
  && String.eqb (ws_week_start_date r) week_start.

(** [UPDATE weekly_pm_schedules SET status = 'Completed', completion_date
    = ?, labor_hours = ?, notes = ? WHERE ... AND status = 'Scheduled'] *)
Definition complete_schedule (bfm_no pm_type technician week_start : string)
    (completion_date : string) (hours : Q) (notes : string) (s : db) : Z * db :=
  let hit r :=
    schedule_matches bfm_no pm_type technician week_start r
    && String.eqb (ws_status r) "Scheduled" in
  (Z.of_nat (length (List.filter hit (weekly_pm_schedules s))),
   mk_db (equipment s) (pm_completions s)
         (map (fun r =>
                 if hit r then
                   mk_schedule (ws_week_start_date r) (ws_bfm_equipment_no r)
                     (ws_pm_type r) (ws_assigned_technician r) "Completed"
                     (ws_scheduled_date r) (Some completion_date) (Some hours)
                     (Some notes)
                 else r)
              (weekly_pm_schedules s))
         (cannot_find_assets s) (run_to_failure_assets s)).

(** [get_week_start]: the Monday of the week of [d]. *)
Definition get_week_start (d : PyDate.date) : res PyDate.date :=
  PyDate.add_days d (- PyDate.weekday d).

(** [self.get_week_start(datetime.strptime(completion_date, '%Y-%m-%d'))
    .strftime('%Y-%m-%d')] *)
Definition week_start_of (completion_date : string) : res string :=
  d ← PyDate.strptime completion_date "%Y-%m-%d";
  w ← get_week_start d;
  Ok (PyDate.strftime_ymd w).

(** ** [validate_pm_completion] *)

(** The entries of [issues]; the message shown to the user is their
    rendering, with the values carried here interpolated. *)
Inductive issue :=
| DuplicateDetected (pm_type bfm_no : string) (days_since : Z)
| PreviousCompletion (last_completion_date last_technician : string)
| MinimumInterval (pm_type : string) (threshold : Z)
| DateParsingIssue (last_completion_date : string)
| SameTechnician (technician bfm_no : string)
| EquipmentNotFound (bfm_no : string)
| UnusualStatus (bfm_no status pm_type : string)
| NoScheduledPM.

(** The dictionary returned: [{'valid': True, ...}],
    [{'valid': False, 'message': "Found n potential issue(s) ..."}] or
    [{'valid': False, 'message': "Validation error: ..."}]. *)
Inductive validation :=
| ValidationPassed
| IssuesFound (issues : list issue)
| ValidationError (e : exn).

Definition valid (v : validation) : bool :=
  match v with ValidationPassed => true | _ => false end.

(** [min_days.get(pm_type, 7)] *)
Definition min_days (pm_type : string) : Z :=
  if String.eqb pm_type "Monthly" then 25
  else if String.eqb pm_type "Six Month" then 150
  else if String.eqb pm_type "Annual" then 300
  else 7.

(** [SELECT ... FROM pm_completions WHERE bfm_equipment_no = ? AND
    pm_type = ? ORDER BY completion_date DESC LIMIT 1]: the row with the
    greatest date text, the earliest such row when several share it. *)
Definition latest_completion (bfm_no pm_type : string) (s : db)
    : option pm_completion :=
  fold_left
    (fun best r =>
       match best with
       | None => Some r
       | Some b =>
           if String.ltb (pc_completion_date b) (pc_completion_date r)
           then Some r else Some b
       end)
    (List.filter
       (fun r => String.eqb (pc_bfm_equipment_no r) bfm_no
                 && String.eqb (pc_pm_type r) pm_type)
       (pm_completions s))
    None.

(** Check 1: same PM type completed recently for this equipment. *)
Definition check_recent_duplicate (s : db)
    (bfm_no pm_type completion_date : string) : res (list issue) :=
  match latest_completion bfm_no pm_type s with
  | None => Ok []
  | Some recent =>
      let last_completion_date := pc_completion_date recent in
      let last_technician := pc_technician_name recent in
      except_ValueError
        (last_date ← PyDate.strptime last_completion_date "%Y-%m-%d";
         current_date ← PyDate.strptime completion_date "%Y-%m-%d";
         let days_since := PyDate.days_between current_date last_date in
         let threshold := min_days pm_type in
         Ok (if days_since <? threshold then
               [ DuplicateDetected pm_type bfm_no days_since;
                 PreviousCompletion last_completion_date last_technician;
                 MinimumInterval pm_type threshold ]
             else []))
        (Ok [DateParsingIssue last_completion_date])
  end.

(** Check 2: [SELECT COUNT( * ) FROM pm_completions WHERE bfm_equipment_no
    = ? AND technician_name = ? AND completion_date >= DATE(?, '-7 days')] *)
Definition recent_count (s : db) (bfm_no technician completion_date : string) : Z :=
  Z.of_nat
    (length
       (List.filter
          (fun r => String.eqb (pc_bfm_equipment_no r) bfm_no
                    && String.eqb (pc_technician_name r) technician
                    && Sqlite.text_ge (pc_completion_date r)
                         (Sqlite.date_add completion_date (-7)))
          (pm_completions s))).

Definition check_same_technician (s : db)
    (bfm_no technician completion_date : string) : list issue :=
  if 0 <? recent_count s bfm_no technician completion_date
  then [SameTechnician technician bfm_no] else [].

(** Check 3: equipment exists and is active. *)
Definition check_equipment (s : db) (bfm_no pm_type : string) : list issue :=
  match equipment_with bfm_no s with
  | [] => [EquipmentNotFound bfm_no]
  | e :: _ =>
      if (String.eqb (status e) "Missing" || String.eqb (status e) "Run to Failure")
         && negb (String.eqb pm_type "CANNOT FIND"
                  || String.eqb pm_type "Run to Failure")
      then [UnusualStatus bfm_no (status e) pm_type]
      else []
  end.

(** Check 4: a scheduled PM exists for this week. *)
Definition scheduled_count (s : db)
    (bfm_no pm_type technician week_start : string) : Z :=
  Z.of_nat
    (length
       (List.filter (schedule_matches bfm_no pm_type technician week_start)
          (weekly_pm_schedules s))).

Definition check_scheduled (s : db)
    (bfm_no pm_type technician completion_date : string) : res (list issue) :=
  current_week_start ← week_start_of completion_date;
  Ok (if (scheduled_count s bfm_no pm_type technician current_week_start =? 0)
         && (String.eqb pm_type "Monthly" || String.eqb pm_type "Annual")
      then [NoScheduledPM] else []).

Definition validate_pm_completion (s : db)
    (bfm_no pm_type technician completion_date : string) : validation :=
  match
    issues1 ← check_recent_duplicate s bfm_no pm_type completion_date;
    let issues2 := check_same_technician s bfm_no technician completion_date in
    let issues3 := check_equipment s bfm_no pm_type in
    issues4 ← check_scheduled s bfm_no pm_type technician completion_date;
    Ok (issues1 ++ issues2 ++ issues3 ++ issues4)
  with
  | Raise e => ValidationError e              (* except Exception *)
  | Ok [] => ValidationPassed
  | Ok issues => IssuesFound issues
  end.

(** ** [verify_pm_completion_saved] *)

Inductive verification :=
| AllChecksPassed (completion_id : Z)
| RecordNotFound
| EquipmentDateNotUpdated (found : option string)
| ScheduleNotCompleted (found : string)
| VerificationError (e : exn).

Definition verified (v : verification) : bool :=
  match v with AllChecksPassed _ => true | _ => false end.

(** [SELECT last_<pm type>_pm FROM equipment WHERE bfm_equipment_no = ?],
    for the three normal PM types. *)
Definition last_pm_field (pm_type : string) (e : equipment_row) : option string :=
  if String.eqb pm_type "Monthly" then last_monthly_pm e
  else if String.eqb pm_type "Six Month" then last_six_month_pm e
  else last_annual_pm e.

Definition is_normal_pm (pm_type : string) : bool :=
  String.eqb pm_type "Monthly" || String.eqb pm_type "Six Month"
  || String.eqb pm_type "Annual".

Definition verify_pm_completion_saved (s : db)
    (bfm_no pm_type technician completion_date : string) : verification :=
  (* Check 1: the completion record exists; the most recently created
     one is the last in rowid order. *)
  match
    rev (List.filter
           (fun r => String.eqb (pc_bfm_equipment_no r) bfm_no
                     && String.eqb (pc_pm_type r) pm_type
                     && String.eqb (pc_technician_name r) technician
                     && String.eqb (pc_completion_date r) completion_date)
           (pm_completions s))
  with
  | [] => RecordNotFound
  | completion_record :: _ =>
      (* Check 2: equipment PM date updated, for normal PMs. *)
      let date_mismatch :=
        if is_normal_pm pm_type then
          match equipment_with bfm_no s with
          | e :: _ =>
              if bool_decide (last_pm_field pm_type e = Some completion_date)
              then None else Some (last_pm_field pm_type e)
          | [] => None
          end
        else None in
      match date_mismatch with
      | Some found => EquipmentDateNotUpdated found
      | None =>
          (* Check 3: weekly schedule updated if applicable. *)
          match week_start_of completion_date with
          | Raise e => VerificationError e
          | Ok current_week_start =>
              match
                List.filter
                  (schedule_matches bfm_no pm_type technician current_week_start)
                  (weekly_pm_schedules s)
              with
              | r :: _ =>
                  if String.eqb (ws_status r) "Completed"
                  then AllChecksPassed (pc_id completion_record)
                  else ScheduleNotCompleted (ws_status r)
              | [] => AllChecksPassed (pc_id completion_record)
              end
          end
      end
  end.

(** ** The three completion processors

    Each runs inside the transaction opened by [submit_pm_completion];
    its [try ... except Exception: return False] is [attempt] below. *)

(** [UPDATE equipment SET last_monthly_pm = ?, next_monthly_pm = DATE(?,
    '+30 days'), next_annual_pm = ? ...] *)
Definition set_monthly_and_next_annual (completion_date next_annual : string)
    (e : equipment_row) : equipment_row :=
  mk_equipment (bfm_equipment_no e) (description e) (location e)
    (monthly_pm e) (six_month_pm e) (annual_pm e)
    (Some completion_date) (last_six_month_pm e) (last_annual_pm e)
    (Sqlite.date_add completion_date 30) (next_six_month_pm e)
    (Some next_annual) (status e).

(** [UPDATE equipment SET last_monthly_pm = ?, next_monthly_pm = DATE(?,
    '+30 days') ...] *)
Definition set_monthly (completion_date : string) (e : equipment_row)
    : equipment_row :=
  mk_equipment (bfm_equipment_no e) (description e) (location e)
    (monthly_pm e) (six_month_pm e) (annual_pm e)
    (Some completion_date) (last_six_month_pm e) (last_annual_pm e)
    (Sqlite.date_add completion_date 30) (next_six_month_pm e)
    (next_annual_pm e) (status e).

(** [UPDATE equipment SET last_six_month_pm = ?, next_six_month_pm =
    DATE(?, '+180 days') ...] *)
Definition set_six_month (completion_date : string) (e : equipment_row)
    : equipment_row :=
  mk_equipment (bfm_equipment_no e) (description e) (location e)
    (monthly_pm e) (six_month_pm e) (annual_pm e)
    (last_monthly_pm e) (Some completion_date) (last_annual_pm e)
    (next_monthly_pm e) (Sqlite.date_add completion_date 180)
    (next_annual_pm e) (status e).

(** [UPDATE equipment SET last_annual_pm = ?, next_annual_pm = DATE(?,
    '+365 days') ...] *)
Definition set_annual (completion_date : string) (e : equipment_row)
    : equipment_row :=
  mk_equipment (bfm_equipment_no e) (description e) (location e)
    (monthly_pm e) (six_month_pm e) (annual_pm e)
    (last_monthly_pm e) (last_six_month_pm e) (Some completion_date)
    (next_monthly_pm e) (next_six_month_pm e)
    (Sqlite.date_add completion_date 365) (status e).

(** [UPDATE equipment SET status = "Missing" ...] *)
Definition set_missing (e : equipment_row) : equipment_row :=
  mk_equipment (bfm_equipment_no e) (description e) (location e)
    (monthly_pm e) (six_month_pm e) (annual_pm e)
    (last_monthly_pm e) (last_six_month_pm e) (last_annual_pm e)
    (next_monthly_pm e) (next_six_month_pm e) (next_annual_pm e) "Missing".

(** [UPDATE equipment SET status = "Run to Failure", monthly_pm = 0,
    six_month_pm = 0, annual_pm = 0 ...] *)
Definition set_run_to_failure (e : equipment_row) : equipment_row :=
  mk_equipment (bfm_equipment_no e) (description e) (location e)
    false false false
    (last_monthly_pm e) (last_six_month_pm e) (last_annual_pm e)
    (next_monthly_pm e) (next_six_month_pm e) (next_annual_pm e)
    "Run to Failure".

Definition process_normal_pm_completion
    (bfm_no pm_type technician completion_date : string)
    (labor_hours labor_minutes : Q)
    (pm_due_date special_equipment notes next_annual_pm : string) : tx unit :=
  completion_id ←
    execute (insert_completion (fun id =>
      mk_completion id bfm_no pm_type technician completion_date
        labor_hours labor_minutes pm_due_date special_equipment notes
        next_annual_pm));
  _ ← (if completion_id =? 0 then tx_raise Failure else mret tt);
  (* Update equipment PM dates.  With no branch taken, [cursor.rowcount]
     is still that of the INSERT, which is 1. *)
  affected_rows ←
    (if String.eqb pm_type "Monthly" then
       if Py.truthy next_annual_pm then
         execute (update_equipment bfm_no
                    (set_monthly_and_next_annual completion_date next_annual_pm))
       else
         execute (update_equipment bfm_no (set_monthly completion_date))
     else if String.eqb pm_type "Six Month" then
       execute (update_equipment bfm_no (set_six_month completion_date))
     else if String.eqb pm_type "Annual" then
       execute (update_equipment bfm_no (set_annual completion_date))
     else mret 1);
  _ ← (if negb (affected_rows =? 1) then tx_raise Failure else mret tt);
  (* Update weekly schedule status if exists *)
  current_week_start ← tx_lift (week_start_of completion_date);
  _ ← execute (complete_schedule bfm_no pm_type technician current_week_start
                 completion_date (labor_hours + labor_minutes / 60)%Q notes);
  mret tt.

(** The [description, location] of the first equipment row found, or
    two empty strings. *)
Definition equipment_info (bfm_no : string) (s : db) : string * string :=
  match equipment_with bfm_no s with
  | e :: _ => (description e, location e)
  | [] => ("", "")
  end.

Definition process_cannot_find_pm
    (bfm_no technician completion_date notes : string) : tx unit :=
  info ← execute (fun s => (equipment_info bfm_no s, s));
  _ ← execute (insert_cannot_find
                 (mk_cannot_find bfm_no info.1 info.2 technician
                    completion_date notes "Missing"));
  affected_rows ← execute (update_equipment bfm_no set_missing);
  _ ← (if negb (affected_rows =? 1) then tx_raise Failure else mret tt);
  mret tt.

Definition process_run_to_failure_pm
    (bfm_no technician completion_date : string) (total_hours : Q)
    (notes : string) : tx unit :=
  info ← execute (fun s => (equipment_info bfm_no s, s));
  _ ← execute (insert_run_to_failure
                 (mk_run_to_failure bfm_no info.1 info.2 technician
                    completion_date total_hours notes));
  affected_rows ← execute (update_equipment bfm_no set_run_to_failure);
  _ ← (if negb (affected_rows =? 1) then tx_raise Failure else mret tt);
  mret tt.

(** ** [submit_pm_completion] *)

(** The fields of the completion form.  The two labor entries are the
    numbers [float(...)] reads from them. *)
Record completion_form := mk_form {
  completion_bfm_var : string;
  pm_type_var : string;
  completion_tech_var : string;
  labor_hours_var : Q;
  labor_minutes_var : Q;
  pm_due_date_var : string;
  special_equipment_var : string;
  notes_text : string;
  next_annual_pm_var : string
}.

(** [clear_completion_form] *)
Definition cleared_form : completion_form :=
  mk_form "" "" "" 0%Q 0%Q "" "" "" "".

Definition set_next_annual_pm_var (f : completion_form) (v : string)
    : completion_form :=
  mk_form (completion_bfm_var f) (pm_type_var f) (completion_tech_var f)
    (labor_hours_var f) (labor_minutes_var f) (pm_due_date_var f)
    (special_equipment_var f) (notes_text f) v.

(** What the user is told at the end. *)
Inductive outcome :=
| MissingField                       (* "Please enter ..." / "Please select ..." *)
| Cancelled                          (* answered No to the duplicate warning *)
| Verified                           (* "PM completion recorded and verified!" *)
| SavedUnverified (v : verification) (* "PM was saved but verification failed!" *)
| RolledBack                         (* "Failed to process PM completion. Transaction rolled back." *)
| SubmitError (e : exn).             (* "Failed to submit PM completion: ..." *)

Record submission := mk_submission {
  result : outcome;
  store : db;
  form_after : completion_form
}.

(** What does not come from the form or the database: today's date, the
    answer to the "proceed anyway?" dialog, Python's per-process string
    [hash], the number [random.randint(-21, 21)] would draw, and the
    statements that fail. *)
Record environment := mk_env {
  today : PyDate.date;
  proceed_anyway : bool;
  str_hash : string -> Z;
  random_offset : Z;
  failing : faults
}.

(** The equipment-specific offset, -30 to +30 days. *)
Definition annual_offset (hash : string -> Z) (bfm_no : string) : Z :=
  match last (Py.findall_digits bfm_no) with
  | Some numeric_part => Py.int_of_digits numeric_part mod 61 - 30
  | None => hash bfm_no mod 61 - 30
  end.

(** "Auto-calculate next annual PM date if blank": the new value of
    [next_annual_pm]. *)
Definition auto_next_annual (env : environment)
    (bfm_no pm_type completion_date next_annual_pm : string) : res string :=
  if negb (Py.truthy next_annual_pm) && is_normal_pm pm_type then
    completion_dt ←
      except_ValueError (PyDate.strptime completion_date "%Y-%m-%d")
        (Ok (today env));
    if String.eqb pm_type "Annual" then
      next_annual_dt ← PyDate.add_days completion_dt 365;
      next_annual_dt ←
        match PyDate.add_days next_annual_dt
                (annual_offset (str_hash env) bfm_no) with
        | Ok d => Ok d
        | Raise _ => PyDate.add_days next_annual_dt (random_offset env)
        end;
      Ok (PyDate.strftime_ymd next_annual_dt)
    else Ok next_annual_pm
  else Ok next_annual_pm.

(** A processor under its [try ... except Exception: return False]:
    [Some] is [True], with the state of the transaction. *)
Definition attempt (body : tx unit) (flt : faults) (k : nat) (s : db)
    : option (nat * db) :=
  match body flt k s with
  | Ok (_, st) => Some st
  | Raise _ => None
  end.

(** The processor chosen by the PM type. *)
Definition process_pm (bfm_no pm_type technician completion_date : string)
    (labor_hours labor_minutes : Q)
    (pm_due_date special_equipment notes next_annual_pm : string) : tx unit :=
  if String.eqb pm_type "CANNOT FIND" then
    process_cannot_find_pm bfm_no technician completion_date notes
  else if String.eqb pm_type "Run to Failure" then
    process_run_to_failure_pm bfm_no technician completion_date
      (labor_hours + labor_minutes / 60)%Q notes
  else
    process_normal_pm_completion bfm_no pm_type technician completion_date
      labor_hours labor_minutes pm_due_date special_equipment notes
      next_annual_pm.

(** The connection is assumed to have no transaction open when the
    submission starts, and ROLLBACK of an open transaction to succeed.
    Statement 0 is BEGIN TRANSACTION, the processor's statements follow,
    COMMIT is the last. *)
Definition submit_pm_completion (env : environment) (form : completion_form)
    (s : db) : submission :=
  if negb (Py.truthy (completion_bfm_var form))
     || negb (Py.truthy (pm_type_var form))
     || negb (Py.truthy (completion_tech_var form))
  then mk_submission MissingField s form
  else
    let bfm_no := Py.strip (completion_bfm_var form) in
    let pm_type := pm_type_var form in
    let technician := completion_tech_var form in
    let pm_due_date := Py.strip (pm_due_date_var form) in
    let next_annual_pm := Py.strip (next_annual_pm_var form) in
    let completion_date :=
      if Py.truthy pm_due_date then pm_due_date
      else PyDate.strftime_ymd (today env) in
    let validation_result :=
      validate_pm_completion s bfm_no pm_type technician completion_date in
    if negb (valid validation_result) && negb (proceed_anyway env)
    then mk_submission Cancelled s form
    else
      match auto_next_annual env bfm_no pm_type completion_date next_annual_pm with
      | Raise e => mk_submission (SubmitError e) s form
      | Ok next_annual_pm' =>
          let form' :=
            if String.eqb next_annual_pm' next_annual_pm then form
            else set_next_annual_pm_var form next_annual_pm' in
          if failing env 0%nat
          then mk_submission (SubmitError OperationalError) s form'
          else
            match
              attempt
                (process_pm bfm_no pm_type technician completion_date
                   (labor_hours_var form) (labor_minutes_var form)
                   pm_due_date (special_equipment_var form) (notes_text form)
                   next_annual_pm')
                (failing env) 1%nat s
            with
            | Some (k, s') =>
                if failing env k                       (* COMMIT *)
                then mk_submission (SubmitError OperationalError) s form'
                else
                  let verification_result :=
                    verify_pm_completion_saved s' bfm_no pm_type technician
                      completion_date in
                  if verified verification_result
                  then mk_submission Verified s' cleared_form
                  else mk_submission (SavedUnverified verification_result) s' form'
            | None => mk_submission RolledBack s form'
            end
      end.

(** ** The weekly scheduler *)

(** [is_pm_overdue]: "80% of frequency = overdue".  [days_since] is an
    integer and, for the two frequencies the program passes (30 and
    365), the float product [frequency_days * 0.8] is exactly 24.0 and
    292.0, so the comparison is the exact one on rationals. *)
Definition is_pm_overdue (today : PyDate.date) (last_pm_date : option string)
    (frequency_days : Z) : bool :=
  match last_pm_date with
  | None => true                                   (* never done = overdue *)
  | Some last =>
      if negb (Py.truthy last) then true
      else
        except_Exception
          (parsed_date ← DateStandardizer.parse_date_flexible last;
           if Py.truthy_opt parsed_date then
             last_date ← PyDate.strptime (default "" parsed_date) "%Y-%m-%d";
             let days_since := PyDate.days_between today last_date in
             Ok (4 * frequency_days <=? 5 * days_since)
           else Ok true)                           (* can't parse = assume overdue *)
          true                                     (* error = assume overdue *)
  end.



(** The roster and the weekly target set up in [__init__]. *)
Definition technicians : list string :=
  [ "Mark Michaels"; "Jerone Bosarge"; "Jon Hymel"; "Nick Whisenant";
    "James Dunnam"; "Wayne Dunnam"; "Nate Williams"; "Rey Marikit";
    "Ronald Houghs" ].

Definition weekly_pm_target : Z := 110.

(** [DELETE FROM weekly_pm_schedules WHERE week_start_date = ?] *)
Definition delete_week (week_start : string) (s : db) : unit * db :=
  (tt,
   mk_db (equipment s) (pm_completions s)
         (List.filter (fun r => negb (String.eqb (ws_week_start_date r) week_start))
            (weekly_pm_schedules s))
         (cannot_find_assets s) (run_to_failure_assets s)).

(** [ORDER BY e.bfm_equipment_no], as a stable insertion sort. *)
Fixpoint insert_by_bfm (e : equipment_row) (l : list equipment_row)
    : list equipment_row :=
  match l with
  | [] => [e]
  | x :: r =>
      if String.ltb (bfm_equipment_no e) (bfm_equipment_no x)
      then e :: l else x :: insert_by_bfm e r
  end.

Definition order_by_bfm (l : list equipment_row) : list equipment_row :=
  fold_left (fun acc e => insert_by_bfm e acc) l [].

(** [SELECT ... FROM equipment e WHERE e.status = 'Active' AND e.status !=
    'Run to Failure' AND e.status != 'Missing' ORDER BY e.bfm_equipment_no] *)
Definition active_equipment (s : db) : list equipment_row :=
  order_by_bfm
    (List.filter
       (fun e => String.eqb (status e) "Active"
                 && negb (String.eqb (status e) "Run to Failure")
                 && negb (String.eqb (status e) "Missing"))
       (equipment s)).

(** The "simplified priority logic" applied to one equipment row. *)
Definition assigned_pm (today : PyDate.date) (e : equipment_row) : option string :=
  if monthly_pm e
     && (negb (Py.truthy_opt (last_monthly_pm e))
         || is_pm_overdue today (last_monthly_pm e) 30)
  then Some "Monthly"
  else if annual_pm e
          && (negb (Py.truthy_opt (last_annual_pm e))
              || is_pm_overdue today (last_annual_pm e) 365)
  then
    (* Only assign Annual if Monthly is current or doesn't exist *)
    if negb (monthly_pm e)
       || (Py.truthy_opt (last_monthly_pm e)
           && negb (is_pm_overdue today (last_monthly_pm e) 30))
    then Some "Annual" else None
  else None.

(** The loop over [equipment_list] filling [pm_assignments] and
    [assigned_assets]. *)
Fixpoint collect_assignments (today : PyDate.date)
    (equipment_list : list equipment_row) (assigned_assets : gset string)
    : list (string * string * string) :=
  match equipment_list with
  | [] => []
  | e :: rest =>
      let bfm_no := bfm_equipment_no e in
      if bool_decide (bfm_no ∈ assigned_assets)
      then collect_assignments today rest assigned_assets
      else
        match assigned_pm today e with
        | Some pm =>
            (bfm_no, pm, description e)
            :: collect_assignments today rest ({[bfm_no]} ∪ assigned_assets)
        | None => collect_assignments today rest assigned_assets
        end
  end.

Definition insert_schedule (row : weekly_pm_schedule) (s : db) : unit * db :=
  (tt,
   mk_db (equipment s) (pm_completions s) (weekly_pm_schedules s ++ [row])
         (cannot_find_assets s) (run_to_failure_assets s)).

(** [for _ in range(tech_pm_count)]: the value is [assignment_index]. *)
Fixpoint assign_to_technician (week_start : PyDate.date)
    (pm_assignments : list (string * string * string)) (technician : string)
    (tech_pm_count : nat) (assignment_index : nat) : tx nat :=
  match tech_pm_count with
  | O => mret assignment_index
  | S n =>
      match pm_assignments !! assignment_index with
      | Some (bfm_no, pm_type, _) =>
          let day_offset := Z.of_nat assignment_index mod 5 in
          scheduled_date ← tx_lift (PyDate.add_days week_start day_offset);
          _ ← execute (insert_schedule
                 (mk_schedule (PyDate.strftime_ymd week_start) bfm_no pm_type
                    technician "Scheduled" (PyDate.strftime_ymd scheduled_date)
                    None None None));
          assign_to_technician week_start pm_assignments technician n
            (S assignment_index)
      | None =>
          assign_to_technician week_start pm_assignments technician n
            assignment_index
      end
  end.

(** [for tech_index, technician in enumerate(self.technicians)] *)
Fixpoint distribute (week_start : PyDate.date)
    (pm_assignments : list (string * string * string))
    (pms_per_tech extra_pms : Z) (roster : list string) (tech_index : Z)
    (assignment_index : nat) : tx nat :=
  match roster with
  | [] => mret assignment_index
  | technician :: rest =>
      let tech_pm_count :=
        pms_per_tech + (if tech_index <? extra_pms then 1 else 0) in
      i ← assign_to_technician week_start pm_assignments technician
            (Z.to_nat tech_pm_count) assignment_index;
      distribute week_start pm_assignments pms_per_tech extra_pms rest
        (tech_index + 1) i
  end.

(** The outcome of [generate_weekly_assignments]: the number of PMs
    announced and the committed database, or the exception reported.  In
    the latter case nothing is committed (the handler neither commits
    nor rolls back the statements already run). *)
Inductive generation :=
| Generated (total_pms : Z) (s' : db)
| GenerationFailed (e : exn).

Definition generate_weekly_assignments (flt : faults) (today : PyDate.date)
    (roster : list string) (target : Z) (week_start_var : string) (s : db)
    : generation :=
  match
    (week_start ← PyDate.strptime week_start_var "%Y-%m-%d";
     _ ← PyDate.add_days week_start 6;                      (* week_end *)
     (_ ← execute (delete_week (PyDate.strftime_ymd week_start));
      equipment_list ← execute (fun s => (active_equipment s, s));
      let pm_assignments := collect_assignments today equipment_list ∅ in
      let total_pms := Z.min target (Z.of_nat (length pm_assignments)) in
      _ ← (if Z.of_nat (length roster) =? 0
           then tx_raise ZeroDivisionError else mret tt);
      let pms_per_tech := total_pms / Z.of_nat (length roster) in
      let extra_pms := total_pms mod Z.of_nat (length roster) in
      _ ← distribute week_start pm_assignments pms_per_tech extra_pms
            roster 0 0%nat;
      _ ← execute (fun s => (tt, s));                       (* commit *)
      mret total_pms) flt 0%nat s)
  with
  | Ok (total_pms, (_, s')) => Generated total_pms s'
  | Raise e => GenerationFailed e
  end.

(** ** [check_pm_scheduling_status_comprehensive]

    The scheduling-time check "against ALL completed PMs".  No function
    of the program calls it. *)

Inductive scheduling_reason :=
| CompletedRecently (days_since : Z) (technician : string)
| AnnualBlockedByMonthly (days_since : Z) (technician : string)
| MonthlyBlockedByAnnual (days_since : Z) (technician : string)
| DataInconsistency
| DueNow (days_since days_overdue : Z)
| DueSoonEarly (days_until_due : Z)
| NotDueFor (days_until_due : Z)
| MonthlyNeverCompleted
| AnnualBlockedMonthlyFirst
| AnnualNeverCompleted
| ClearedForScheduling.

(** The [status] dictionary returned, without its constant entry
    ['last_date']. *)
Record scheduling_status := mk_status {
  st_schedule : bool;
  st_conflict : bool;
  st_reason : option scheduling_reason;
  st_days_since : option Z;
  st_days_overdue : option Z
}.

(** [ORDER BY completion_date DESC], as a stable insertion sort. *)
Fixpoint insert_by_date_desc (r : pm_completion) (l : list pm_completion)
    : list pm_completion :=
  match l with
  | [] => [r]
  | x :: rest =>
      if String.ltb (pc_completion_date x) (pc_completion_date r)
      then r :: l else x :: insert_by_date_desc r rest
  end.

(** Check 1's query: the completions of the equipment, of any type,
    dated from 30 days before today on, most recent first. *)
Definition all_recent_completions (today : PyDate.date) (bfm_no : string)
    (s : db) : list pm_completion :=
  fold_left (fun acc r => insert_by_date_desc r acc)
    (List.filter
       (fun r => String.eqb (pc_bfm_equipment_no r) bfm_no
                 && Sqlite.text_ge (pc_completion_date r)
                      (Sqlite.date_add (PyDate.strftime_ymd today) (-30)))
       (pm_completions s))
    [].

(** One of the loops "for completed_pm_type, completion_date, technician
    in all_recent_completions": the first record of type [wanted] whose
    date parses and lies less than the bound before today; a record
    whose date does not parse is skipped. *)
Fixpoint first_recent (today : PyDate.date) (wanted : string)
    (too_recent : Z -> bool) (rows : list pm_completion)
    : option (Z * string) :=
  match rows with
  | [] => None
  | r :: rest =>
      if String.eqb (pc_pm_type r) wanted then
        match PyDate.strptime (pc_completion_date r) "%Y-%m-%d" with
        | Ok comp_date_obj =>
            let days := PyDate.days_between today comp_date_obj in
            if too_recent days then Some (days, pc_technician_name r)
            else first_recent today wanted too_recent rest
        | Raise _ => first_recent today wanted too_recent rest
        end
      else first_recent today wanted too_recent rest
  end.

Definition conflict_status (reason : scheduling_reason) (days_since days_overdue : option Z)
    : scheduling_status :=
  mk_status false true (Some reason) days_since days_overdue.

Definition schedule_status (reason : scheduling_reason) (days_since days_overdue : option Z)
    : scheduling_status :=
  mk_status true false (Some reason) days_since days_overdue.

(** Checks 1 and 2: the conflict found among the recent completions, if
    any. *)
Definition recent_completion_conflict (today : PyDate.date) (s : db)
    (bfm_no pm_type : string) (frequency_days : Z) : option scheduling_status :=
  let recent := all_recent_completions today bfm_no s in
  match
    first_recent today pm_type
      (fun days => (4 * days <? 3 * frequency_days) || (days <? 14)) recent
  with
  | Some (days, technician) =>
      Some (conflict_status (CompletedRecently days technician) None None)
  | None =>
      if String.eqb pm_type "Annual" then
        match first_recent today "Monthly" (fun days => days <? 7) recent with
        | Some (days, technician) =>
            Some (conflict_status (AnnualBlockedByMonthly days technician) None None)
        | None => None
        end
      else if String.eqb pm_type "Monthly" then
        match first_recent today "Annual" (fun days => days <? 30) recent with
        | Some (days, technician) =>
            Some (conflict_status (MonthlyBlockedByAnnual days technician) None None)
        | None => None
        end
      else None
  end.

(** Check 3: validation against the equipment table date.  The value is
    the status to return, if the check returns. *)
Definition equipment_date_check (today : PyDate.date) (s : db)
    (bfm_no pm_type last_pm_date : string) (frequency_days : Z)
    : res (option scheduling_status) :=
  parsed_last_date ← DateStandardizer.parse_date_flexible last_pm_date;
  if Py.truthy_opt parsed_last_date then
    last_date_obj ← PyDate.strptime (default "" parsed_last_date) "%Y-%m-%d";
    let days_since_last := PyDate.days_between today last_date_obj in
    if 4 * frequency_days <=? 5 * days_since_last then
      let days_overdue := days_since_last - frequency_days in
      let equipment_date_conflict :=
        existsb
          (fun r =>
             String.eqb (pc_pm_type r) pm_type
             && match PyDate.strptime (pc_completion_date r) "%Y-%m-%d" with
                | Ok comp_date_obj =>
                    PyDate.toordinal last_date_obj <? PyDate.toordinal comp_date_obj
                | Raise _ => false
                end)
          (all_recent_completions today bfm_no s) in
      if equipment_date_conflict then
        Ok (Some (conflict_status DataInconsistency (Some days_since_last)
                    (Some days_overdue)))
      else
        Ok (Some (schedule_status (DueNow days_since_last days_overdue)
                    (Some days_since_last) (Some days_overdue)))
    else
      let days_until_due := frequency_days - days_since_last in
      if days_until_due <=? 14 then
        Ok (Some (schedule_status (DueSoonEarly days_until_due)
                    (Some days_since_last) None))
      else
        Ok (Some (conflict_status (NotDueFor days_until_due)
                    (Some days_since_last) None))
  else Ok None.

(** The storage is taken not to fail here, so the outermost [except]
    of the function is never entered. *)
Definition check_pm_scheduling_status_comprehensive (today : PyDate.date)
    (s : db) (bfm_no pm_type : string) (last_pm_date : option string)
    (frequency_days : Z) : scheduling_status :=
  match recent_completion_conflict today s bfm_no pm_type frequency_days with
  | Some st => st
  | None =>
      match
        (if Py.truthy_opt last_pm_date then
           except_Exception
             (equipment_date_check today s bfm_no pm_type
                (default "" last_pm_date) frequency_days)
             None
         else None)
      with
      | Some st => st
      | None =>
          (* Check 4: never done equipment - prioritize Monthly *)
          if negb (Py.truthy_opt last_pm_date) && String.eqb pm_type "Monthly"
          then schedule_status MonthlyNeverCompleted (Some 9999) None
          else if negb (Py.truthy_opt last_pm_date) && String.eqb pm_type "Annual"
          then
            match equipment_with bfm_no s with
            | e :: _ =>
                if negb (Py.truthy_opt (last_monthly_pm e))
                then conflict_status AnnualBlockedMonthlyFirst None None
                else schedule_status AnnualNeverCompleted (Some 9999) None
            | [] => schedule_status AnnualNeverCompleted (Some 9999) None
            end
          else schedule_status ClearedForScheduling None None
      end
  end.

(** [format_date_display] *)
Definition format_date_display (date_str : option string) : string :=
  if negb (Py.truthy_opt date_str) then ""
  else
    except_Exception
      (standardized ← DateStandardizer.parse_date_flexible (default "" date_str);
       Ok (if Py.truthy_opt standardized then default "" standardized
           else default "" date_str))
      (default "" date_str).

(** The decision [standardize_all_dates] takes for one date column of
    one row: the new value to write, if any. *)
Definition standardized_update (original_date : option string)
    : res (option string) :=
  if Py.truthy_opt original_date then
    standardized_date ←
      DateStandardizer.parse_date_flexible (default "" original_date);
    Ok (if Py.truthy_opt standardized_date
           && negb (String.eqb (default "" standardized_date)
                      (default "" original_date))
        then standardized_date else None)
  else Ok None.

(** ** Vocabulary of the statements *)

(** The candidates of a week: [pm_assignments] as the loop over the
    active equipment leaves it. *)
Definition pm_candidates (today : PyDate.date) (s : db)
    : list (string * string * string) :=
  collect_assignments today (active_equipment s) ∅.

(** The rows of one week, and among rows those of one technician. *)
Definition week_entries (week_start : string) (s : db) : list weekly_pm_schedule :=
  List.filter (fun r => String.eqb (ws_week_start_date r) week_start)
    (weekly_pm_schedules s).

Definition other_weeks (week_start : string) (s : db) : list weekly_pm_schedule :=
  List.filter (fun r => negb (String.eqb (ws_week_start_date r) week_start))
    (weekly_pm_schedules s).

Definition entries_of (technician : string) (rows : list weekly_pm_schedule)
    : list weekly_pm_schedule :=
  List.filter (fun r => String.eqb (ws_assigned_technician r) technician) rows.

(** The key of a schedule entry. *)
Definition schedule_key (r : weekly_pm_schedule) : string * string * string :=
  (ws_week_start_date r, ws_bfm_equipment_no r, ws_pm_type r).

(** The row inserted for candidate number [j]. *)
Definition schedule_row (week_start : PyDate.date) (technician : string)
    (j : nat) (a : string * string * string) : weekly_pm_schedule :=
  mk_schedule (PyDate.strftime_ymd week_start) a.1.1 a.1.2 technician
    "Scheduled"
    (PyDate.strftime_ymd
       (PyDate.ord2ymd (PyDate.toordinal week_start + Z.of_nat j mod 5)))
    None None None.

(** The rows one technician receives: [count] candidates from number
    [idx] on. *)
Definition rows_of (week_start : PyDate.date)
    (pm_assignments : list (string * string * string)) (technician : string)
    (idx count : nat) : list weekly_pm_schedule :=
  imap (fun j a => schedule_row week_start technician (idx + j) a)
    (take count (drop idx pm_assignments)).

Definition tech_pm_count (pms_per_tech extra_pms tech_index : Z) : nat :=
  Z.to_nat (pms_per_tech + (if tech_index <? extra_pms then 1 else 0)).

(** The rows the whole roster receives, in insertion order. *)
Fixpoint planned_rows (week_start : PyDate.date)
    (pm_assignments : list (string * string * string))
    (pms_per_tech extra_pms : Z) (roster : list string) (tech_index : Z)
    (idx : nat) : list weekly_pm_schedule :=
  match roster with
  | [] => []
  | technician :: rest =>
      let c := tech_pm_count pms_per_tech extra_pms tech_index in
      rows_of week_start pm_assignments technician idx c
      ++ planned_rows week_start pm_assignments pms_per_tech extra_pms rest
           (tech_index + 1) (idx + c)
  end.

Fixpoint planned_count (pms_per_tech extra_pms : Z) (n : nat) (tech_index : Z)
    : nat :=
  match n with
  | O => O
  | S n' =>
      (tech_pm_count pms_per_tech extra_pms tech_index
       + planned_count pms_per_tech extra_pms n' (tech_index + 1))%nat
  end.

Definition add_schedules (s : db) (rows : list weekly_pm_schedule) : db :=
  mk_db (equipment s) (pm_completions s) (weekly_pm_schedules s ++ rows)
        (cannot_find_assets s) (run_to_failure_assets s).

(** The outcomes after which the transaction has been committed. *)
Definition committed (r : outcome) : bool :=
  match r with
  | Verified | SavedUnverified _ => true
  | _ => false
  end.

(** The same environment with a storage that never fails. *)
Definition without_faults (env : environment) : environment :=
  mk_env (today env) (proceed_anyway env) (str_hash env) (random_offset env)
    no_faults.


(** A transaction that succeeds under some faults succeeds in the same
    way under none: no statement of it has failed. *)
Definition fault_monotone {A} (m : tx A) : Prop :=
  forall flt k s r, m flt k s = Ok r -> m no_faults k s = Ok r.

(** The update a normal completion applies to the equipment row. *)
Definition normal_update (pm_type completion_date next_annual : string)
    : equipment_row -> equipment_row :=
  if String.eqb pm_type "Monthly" then
    if Py.truthy next_annual
    then set_monthly_and_next_annual completion_date next_annual
    else set_monthly completion_date
  else if String.eqb pm_type "Six Month" then set_six_month completion_date
  else if String.eqb pm_type "Annual" then set_annual completion_date
  else fun e => e.

(** One operation of the engine: a submission of the completion form,
    whatever its outcome, or a successful weekly generation. *)
Inductive engine_step : db -> db -> Prop :=
| step_submit env form s :
    engine_step s (store (submit_pm_completion env form s))
| step_generate flt today roster target week_start_var s total_pms s' :
    generate_weekly_assignments flt today roster target week_start_var s
    = Generated total_pms s' ->
    engine_step s s'.

(** No equipment row numbered [bfm_no] is Active. *)
Definition not_active (bfm_no : string) (s : db) : Prop :=
  forall e, In e (equipment s) -> bfm_equipment_no e = bfm_no ->
            status e <> "Active".

(** ** The Due-Date Calculator as the specification words it

    These definitions follow the text of the specification (section 4.2
    and step 3 of section 4.4), not the program; they are what the
    scheduler of the program is compared with. *)

Module Spec.

Inductive category := NeverDone | Overdue | DueSoon | DueWithinMonth | Current.

(** [status(lastDate, nextDate, cycleLengthDays, today)]; dates are day
    numbers, an absent date is [None]. *)
Definition status (last_date next_date : option Z) (cycle_length_days today : Z)
    : category * option Z :=
  match last_date, next_date with
  | None, None => (NeverDone, None)
  | _, _ =>
      let effective_due :=
        match next_date with
        | Some n => n
        | None => default 0 last_date + cycle_length_days
        end in
      let days_delta := effective_due - today in
      ((if days_delta <? 0 then Overdue
        else if days_delta <=? 7 then DueSoon
        else if days_delta <=? 30 then DueWithinMonth
        else Current),
       Some days_delta)
  end.

(** "Due for scheduling": NeverDone, Overdue or DueSoon, or a delta
    within 14 days in the future. *)
Definition due_for_scheduling (st : category * option Z) : bool :=
  match st with
  | (NeverDone, _) | (Overdue, _) | (DueSoon, _) => true
  | (_, Some days_delta) => (0 <=? days_delta) && (days_delta <=? 14)
  | (_, None) => false
  end.

(** A text date of the equipment table as a day number. *)
Definition day_number (d : option string) : option Z :=
  match d with
  | None => None
  | Some t =>
      match PyDate.strptime t "%Y-%m-%d" with
      | Ok x => Some (PyDate.toordinal x)
      | Raise _ => None
      end
  end.

Definition monthly_due (today : PyDate.date) (e : equipment_row) : bool :=
  monthly_pm e
  && due_for_scheduling
       (status (day_number (last_monthly_pm e)) (day_number (next_monthly_pm e))
          30 (PyDate.toordinal today)).

Definition six_month_due (today : PyDate.date) (e : equipment_row) : bool :=
  six_month_pm e
  && due_for_scheduling
       (status (day_number (last_six_month_pm e))
          (day_number (next_six_month_pm e)) 180 (PyDate.toordinal today)).

Definition annual_due (today : PyDate.date) (e : equipment_row) : bool :=
  annual_pm e
  && due_for_scheduling
       (status (day_number (last_annual_pm e)) (day_number (next_annual_pm e))
          365 (PyDate.toordinal today)).

(** "Monthly if due; else Annual if due and Monthly not currently due;
    Six-Month follows the same subordinate-to-Monthly rule": the cycles
    the specification allows the generator to select. *)
Definition selectable (today : PyDate.date) (e : equipment_row)
    (pm_type : string) : bool :=
  if String.eqb pm_type "Monthly" then monthly_due today e
  else if String.eqb pm_type "Annual"
  then annual_due today e && negb (monthly_due today e)
  else if String.eqb pm_type "Six Month"
  then six_month_due today e && negb (monthly_due today e)
  else false.

End Spec.

(** ** The calendar arithmetic of [_ord2ymd], day by day *)

(** The month and day [_ord2ymd] finds for day number [n] (from 0) of
    a year. *)
Definition month_day (leapyear : bool) (n : Z) : Z * Z :=
  let m := Z.shiftr (n + 50) 5 in
  let preceding :=
    PyDate.DAYS_BEFORE_MONTH m + (if (2 <? m) && leapyear then 1 else 0) in
  if n <? preceding then
    let m' := m - 1 in
    let dim :=
      (if m' =? 2 then 28
       else if (m' =? 4) || (m' =? 6) || (m' =? 9) || (m' =? 11) then 30
       else 31)
      + (if (m' =? 2) && leapyear then 1 else 0) in
    (m', n - (preceding - dim) + 1)
  else (m, n - preceding + 1).

Definition month_day_ok (leapyear : bool) (n : Z) : bool :=
  let '(m, d) := month_day leapyear n in
  (1 <=? m) && (m <=? 12) && (1 <=? d)
  && (d <=? (if m =? 2 then (if leapyear then 29 else 28)
             else if (m =? 4) || (m =? 6) || (m =? 9) || (m =? 11) then 30
             else 31))
  && (PyDate.DAYS_BEFORE_MONTH m + (if (2 <? m) && leapyear then 1 else 0) + d
      =? n + 1).

(** ** [calculate_pm_status]: the PM status shown by the equipment
    look-up *)

(** [datetime.now()]: a calendar date and the time elapsed since its
    midnight, in microseconds ([0 <= _ < 86400000000]). *)
Record datetime := mk_datetime {
  dt_date : PyDate.date;
  dt_microseconds : Z
}.

(** [(d - now).days] for a [d] at midnight: a [timedelta] keeps
    [0 <= seconds < 86400], so its [days] are rounded down. *)
Definition days_until_date (d : PyDate.date) (now : datetime) : Z :=
  ((PyDate.toordinal d - PyDate.toordinal (dt_date now)) * 86400000000
   - dt_microseconds now) / 86400000000.

(** The status text returned, with the number it interpolates:
    ["Never Done"], ["Not Scheduled"], ["Overdue (n days)"],
    ["Due Soon (n days)"], ["Due in n days"], ["Current (n days)"],
    ["Date Error"], ["Error"]. *)
Inductive pm_status :=
| StNeverDone
| StNotScheduled
| StOverdue (days : Z)
| StDueSoon (days : Z)
| StDueIn (days : Z)
| StCurrent (days : Z)
| StDateError
| StError.

Definition calculate_pm_status (last_pm_date next_pm_date : option string)
    (frequency_days : Z) (current_date : datetime) : pm_status * option Z :=
  match
    (if negb (Py.truthy_opt last_pm_date) && negb (Py.truthy_opt next_pm_date)
     then Ok (StNeverDone, None)
     else
       (* Use next_pm_date if available, otherwise calculate from last_pm_date *)
       next_due ←
         (if Py.truthy_opt next_pm_date then
            d ← PyDate.strptime (default "" next_pm_date) "%Y-%m-%d"; Ok (Some d)
          else if Py.truthy_opt last_pm_date then
            last_date ← PyDate.strptime (default "" last_pm_date) "%Y-%m-%d";
            d ← PyDate.add_days last_date frequency_days;
            Ok (Some d)
          else Ok None);
       match next_due with
       | None => Ok (StNotScheduled, None)
       | Some next_due =>
           let days_until := days_until_date next_due current_date in
           Ok ((if days_until <? 0 then StOverdue (Z.abs days_until)
                else if days_until <=? 7 then StDueSoon days_until
                else if days_until <=? 30 then StDueIn days_until
                else StCurrent days_until),
               Some days_until)
       end)
  with
  | Ok r => r
  | Raise ValueError => (StDateError, None)
  | Raise _ => (StError, None)
  end.

(** ** [verify_no_duplicates] *)

(** [SELECT bfm_equipment_no, COUNT( * ) ... FROM weekly_pm_schedules
    WHERE week_start_date = ? GROUP BY bfm_equipment_no HAVING
    COUNT( * ) > 1]: the equipment numbers with more than one row in the
    week, each with its number of rows.  The order of the groups is not
    modelled; the function only reads whether there is one. *)
Definition duplicate_assignments (week_start : string) (s : db)
    : list (string * Z) :=
  let week :=
    List.filter (fun r => String.eqb (ws_week_start_date r) week_start)
      (weekly_pm_schedules s) in
  List.filter (fun g : string * Z => 1 <? g.2)
    (map (fun bfm_no =>
            (bfm_no,
             Z.of_nat
               (length
                  (List.filter
                     (fun r => String.eqb (ws_bfm_equipment_no r) bfm_no) week))))
       (remove_dups (map ws_bfm_equipment_no week))).

(** The value returned: [True] when no duplicate is found, [False]
    when one is found or the query fails. *)
Definition verify_no_duplicates (flt : faults) (week_start_var : string)
    (s : db) : bool :=
  match
    execute (fun s => (duplicate_assignments week_start_var s, s)) flt 0%nat s
  with
  | Ok ([], _) => true
  | Ok (_ :: _, _) => false
  | Raise _ => false
  end.

(** ** [mark_asset_found] and [reactivate_asset]

    Both act on the row selected in a list; [bfm_no] is the equipment
    number of that row as it is bound to the statements.  The value is
    the database after the call, or the exception reported to the user,
    in which case nothing has been committed. *)







(** ** Vocabulary of the further statements *)

(** The status text and day count [calculate_pm_status] gives for [k]
    days until the due date. *)
Definition status_of_days (k : Z) : pm_status * option Z :=
  ((if k <? 0 then StOverdue (- k)
    else if k <=? 7 then StDueSoon k
    else if k <=? 30 then StDueIn k
    else StCurrent k),
   Some k).

(** A schedule row as the UPDATE of [process_normal_pm_completion]
    leaves it. *)
Definition completed_row (completion_date : string) (hours : Q) (notes : string)
    (r : weekly_pm_schedule) : weekly_pm_schedule :=
  mk_schedule (ws_week_start_date r) (ws_bfm_equipment_no r) (ws_pm_type r)
    (ws_assigned_technician r) "Completed" (ws_scheduled_date r)
    (Some completion_date) (Some hours) (Some notes).

(** The rows that UPDATE reaches. *)
Definition closes (bfm_no pm_type technician week_start : string)
    (r : weekly_pm_schedule) : bool :=
  schedule_matches bfm_no pm_type technician week_start r
  && String.eqb (ws_status r) "Scheduled".

(** No completion record carries one of the two pseudo PM types. *)
Definition no_pseudo_completions (s : db) : Prop :=
  forall r, In r (pm_completions s) ->
            pc_pm_type r <> "CANNOT FIND" /\ pc_pm_type r <> "Run to Failure".

(** [e'] is the row of the same asset as [e], with no PM cycle switched
    on and a status that is the old one, "Missing" or "Run to Failure". *)
Definition same_asset (e e' : equipment_row) : Prop :=
  bfm_equipment_no e' = bfm_equipment_no e
  /\ description e' = description e
  /\ location e' = location e
  /\ (monthly_pm e' = true -> monthly_pm e = true)
  /\ (six_month_pm e' = true -> six_month_pm e = true)
  /\ (annual_pm e' = true -> annual_pm e = true)
  /\ (status e' = status e \/ status e' = "Missing"
      \/ status e' = "Run to Failure").

(** The next-due column of a normal PM type and the days its UPDATE
    adds. *)
Definition next_pm_field (pm_type : string) (e : equipment_row) : option string :=
  if String.eqb pm_type "Monthly" then next_monthly_pm e
  else if String.eqb pm_type "Six Month" then next_six_month_pm e
  else next_annual_pm e.

Definition cycle_days (pm_type : string) : Z :=
  if String.eqb pm_type "Monthly" then 30
  else if String.eqb pm_type "Six Month" then 180
  else 365.

(** A list of equipment numbers in ascending order of their text
    (BINARY collation): each number is at most every later one. *)
Fixpoint ascending (l : list string) : Prop :=
  match l with
  | [] => True
  | x :: r => List.Forall (fun y => String.leb x y = true) r /\ ascending r
  end.

(** * Properties *)

(** ** Exceptions of the date functions *)

Section DateExceptions.

Lemma make_date_raises y m d e :
  PyDate.make_date y m d = Raise e -> e = ValueError.
Proof.
  unfold PyDate.make_date. case_match; [discriminate | congruence].
Qed.

Lemma strptime_raises data format e :
  PyDate.strptime data format = Raise e -> e = ValueError.
Proof.
  unfold PyDate.strptime.
  repeat case_match; subst; try congruence; eauto using make_date_raises.
Qed.

Lemma replace_year_raises d y e :
  PyDate.replace_year d y = Raise e -> e = ValueError.
Proof. apply make_date_raises. Qed.

Lemma try_format_raises date_str date_format e :
  DateStandardizer.try_format date_str date_format = Raise e -> e = ValueError.
Proof.
  unfold DateStandardizer.try_format.
  destruct (PyDate.strptime date_str date_format) as [p|e'] eqn:Hp; simpl.
  - repeat case_match; simpl; try discriminate.
    all: match goal with
         | |- context [PyDate.replace_year ?d ?y] =>
             destruct (PyDate.replace_year d y) eqn:Hr; simpl;
             [discriminate | intros [= <-]; eauto using replace_year_raises]
         end.
  - intros [= <-]. eauto using strptime_raises.
Qed.



End DateExceptions.

(** ** The date normaliser and its callers *)



(** ** Running statements *)

Section Transactions.

Lemma tx_bind_ok {A B} (m : tx A) (f : A -> tx B) flt k s a k' s' :
  m flt k s = Ok (a, (k', s')) -> (m ≫= f) flt k s = f a flt k' s'.
Proof. intros H. unfold mbind, tx_bind. by rewrite H. Qed.

Lemma tx_bind_raise {A B} (m : tx A) (f : A -> tx B) flt k s e :
  m flt k s = Raise e -> (m ≫= f) flt k s = Raise e.
Proof. intros H. unfold mbind, tx_bind. by rewrite H. Qed.

Lemma tx_bind_inv {A B} (m : tx A) (f : A -> tx B) flt k s r :
  (m ≫= f) flt k s = Ok r ->
  exists a k' s', m flt k s = Ok (a, (k', s')) /\ f a flt k' s' = Ok r.
Proof.
  unfold mbind, tx_bind.
  destruct (m flt k s) as [[a [k' s']]|e]; [eauto 6|discriminate].
Qed.

Lemma execute_no_faults {A} (stmt : db -> A * db) k s :
  execute stmt no_faults k s = Ok ((stmt s).1, (S k, (stmt s).2)).
Proof. unfold execute, no_faults. by destruct (stmt s). Qed.

Lemma execute_inv {A} (stmt : db -> A * db) flt k s r :
  execute stmt flt k s = Ok r -> r = ((stmt s).1, (S k, (stmt s).2)).
Proof.
  unfold execute. destruct (flt k); [discriminate|].
  destruct (stmt s). by intros [= <-].
Qed.

Lemma tx_ret_run {A} (a : A) flt k s : (mret a : tx A) flt k s = Ok (a, (k, s)).
Proof. reflexivity. Qed.

End Transactions.

(** ** The distribution loop *)

Section Distribution.

Variable week_start : PyDate.date.
Variable pm_assignments : list (string * string * string).

Hypothesis week_start_min : 1 <= PyDate.toordinal week_start.
Hypothesis week_start_max : PyDate.toordinal week_start + 6 <= PyDate.MAXORDINAL.

Lemma scheduled_date_ok (j : nat) :
  PyDate.add_days week_start (Z.of_nat j mod 5)
  = Ok (PyDate.ord2ymd (PyDate.toordinal week_start + Z.of_nat j mod 5)).
Proof.
  unfold PyDate.add_days.
  pose proof (Z.mod_pos_bound (Z.of_nat j) 5 ltac:(lia)).
  case_match eqn:Hb; [done|].
  apply andb_false_iff in Hb as [Hb|Hb]; lia.
Qed.

Lemma rows_of_step technician idx n a :
  pm_assignments !! idx = Some a ->
  rows_of week_start pm_assignments technician idx (S n)
  = schedule_row week_start technician idx a
    :: rows_of week_start pm_assignments technician (S idx) n.
Proof.
  intros Ha. unfold rows_of.
  rewrite (drop_S _ _ _ Ha). cbn [take imap]. f_equal.
  - by rewrite Nat.add_0_r.
  - apply imap_ext. intros j x _. simpl. f_equal. lia.
Qed.

Lemma add_schedules_app s rows1 rows2 :
  add_schedules (add_schedules s rows1) rows2 = add_schedules s (rows1 ++ rows2).
Proof. unfold add_schedules. simpl. by rewrite app_assoc. Qed.

Lemma add_schedules_nil s : add_schedules s [] = s.
Proof. unfold add_schedules. rewrite app_nil_r. by destruct s. Qed.

Lemma assign_to_technician_ok technician count : forall idx k s,
  (idx + count <= length pm_assignments)%nat ->
  assign_to_technician week_start pm_assignments technician count idx
    no_faults k s
  = Ok ((idx + count)%nat,
        ((k + count)%nat,
         add_schedules s (rows_of week_start pm_assignments technician idx count))).
Proof.
  induction count as [|n IH]; intros idx k s Hlen.
  - cbn [assign_to_technician]. rewrite tx_ret_run, !Nat.add_0_r.
    unfold rows_of. cbn [take imap]. by rewrite add_schedules_nil.
  - cbn [assign_to_technician].
    destruct (pm_assignments !! idx) as [[[bfm_no pm_type] d]|] eqn:Ha.
    2: { apply lookup_ge_None in Ha. lia. }
    rewrite (rows_of_step _ _ _ _ Ha).
    erewrite tx_bind_ok; [|unfold tx_lift; by rewrite scheduled_date_ok].
    erewrite tx_bind_ok; [|apply execute_no_faults].
    rewrite IH by lia. cbn [fst snd insert_schedule].
    unfold add_schedules. cbn [equipment pm_completions weekly_pm_schedules
      cannot_find_assets run_to_failure_assets].
    rewrite <- app_assoc. cbn [app].
    replace (S idx + n)%nat with (idx + S n)%nat by lia.
    replace (S k + n)%nat with (k + S n)%nat by lia.
    reflexivity.
Qed.

Lemma length_rows_of technician idx count :
  (idx + count <= length pm_assignments)%nat ->
  length (rows_of week_start pm_assignments technician idx count) = count.
Proof.
  intros H. unfold rows_of.
  rewrite length_imap, length_take, length_drop. lia.
Qed.

Lemma distribute_ok pms_per_tech extra_pms roster : forall tech_index idx k s,
  (idx + planned_count pms_per_tech extra_pms (length roster) tech_index
   <= length pm_assignments)%nat ->
  distribute week_start pm_assignments pms_per_tech extra_pms roster
    tech_index idx no_faults k s
  = Ok ((idx + planned_count pms_per_tech extra_pms (length roster) tech_index)%nat,
        ((k + planned_count pms_per_tech extra_pms (length roster) tech_index)%nat,
         add_schedules s
           (planned_rows week_start pm_assignments pms_per_tech extra_pms
              roster tech_index idx))).
Proof.
  induction roster as [|t rest IH]; intros tech_index idx k s Hlen.
  - cbn. by rewrite !Nat.add_0_r, add_schedules_nil.
  - cbn [distribute planned_rows planned_count length] in *.
    fold (tech_pm_count pms_per_tech extra_pms tech_index).
    erewrite tx_bind_ok; [|apply assign_to_technician_ok; lia].
    rewrite IH by lia. rewrite add_schedules_app.
    rewrite <- !Nat.add_assoc. reflexivity.
Qed.

End Distribution.

(** ** What the roster receives *)

Section Planned.

Variable week_start : PyDate.date.
Variable pm_assignments : list (string * string * string).
Variables pms_per_tech extra_pms : Z.

Local Abbreviation rows_of' := (rows_of week_start pm_assignments).
Local Abbreviation planned := (planned_rows week_start pm_assignments pms_per_tech extra_pms).
Local Abbreviation pcount := (planned_count pms_per_tech extra_pms).

Lemma rows_of_zero technician idx : rows_of' technician idx 0 = [].
Proof. reflexivity. Qed.

Lemma rows_of_inv technician count : forall idx r,
  In r (rows_of' technician idx count) ->
  ws_week_start_date r = PyDate.strftime_ymd week_start
  /\ ws_assigned_technician r = technician
  /\ ws_status r = "Scheduled".
Proof.
  induction count as [|n IH]; intros idx r Hin; [destruct Hin|].
  destruct (pm_assignments !! idx) as [a|] eqn:Ha.
  - rewrite (rows_of_step _ _ _ _ _ _ Ha) in Hin.
    destruct Hin as [<-|Hin]; [done|eauto].
  - unfold rows_of in Hin.
    rewrite drop_ge in Hin by (by apply lookup_ge_None).
    rewrite take_nil in Hin. destruct Hin.
Qed.

Lemma rows_of_fresh technician count : forall idx r,
  In r (rows_of' technician idx count) -> ws_completion_date r = None.
Proof.
  induction count as [|n IH]; intros idx r Hin; [destruct Hin|].
  destruct (pm_assignments !! idx) as [a|] eqn:Ha.
  - rewrite (rows_of_step _ _ _ _ _ _ Ha) in Hin.
    destruct Hin as [<-|Hin]; [done|eauto].
  - unfold rows_of in Hin.
    rewrite drop_ge in Hin by (by apply lookup_ge_None).
    rewrite take_nil in Hin. destruct Hin.
Qed.

Lemma rows_of_keys technician count : forall idx,
  map (fun r => (ws_bfm_equipment_no r, ws_pm_type r))
    (rows_of' technician idx count)
  = map (fun a : string * string * string => (a.1.1, a.1.2))
      (take count (drop idx pm_assignments)).
Proof.
  induction count as [|n IH]; intros idx; [done|].
  destruct (pm_assignments !! idx) as [a|] eqn:Ha.
  - rewrite (rows_of_step _ _ _ _ _ _ Ha), (drop_S _ _ _ Ha).
    cbn [take map]. by rewrite IH.
  - unfold rows_of. rewrite drop_ge by (by apply lookup_ge_None).
    by rewrite take_nil.
Qed.

Lemma entries_of_rows_of t technician idx count :
  entries_of t (rows_of' technician idx count)
  = if String.eqb technician t then rows_of' technician idx count else [].
Proof.
  unfold entries_of.
  destruct (String.eqb technician t) eqn:Heq.
  - apply String.eqb_eq in Heq as ->.
    apply forallb_filter_id, forallb_forall. intros r Hr.
    apply rows_of_inv in Hr as (_ & -> & _). apply String.eqb_refl.
  - apply String.eqb_neq in Heq.
    generalize (rows_of_inv technician count idx).
    induction (rows_of' technician idx count) as [|r l IH]; intros H; [done|].
    cbn [List.filter].
    destruct (H r (or_introl eq_refl)) as (_ & Ht & _).
    rewrite Ht. apply String.eqb_neq in Heq. rewrite Heq.
    apply IH. intros r' Hr'. apply H. by right.
Qed.

Lemma planned_inv roster : forall tech_index idx r,
  In r (planned roster tech_index idx) ->
  ws_week_start_date r = PyDate.strftime_ymd week_start
  /\ In (ws_assigned_technician r) roster
  /\ ws_status r = "Scheduled".
Proof.
  induction roster as [|t rest IH]; intros tech_index idx r Hin; [destruct Hin|].
  cbn [planned_rows] in Hin. apply in_app_or in Hin as [Hin|Hin].
  - apply rows_of_inv in Hin as (? & <- & ?). repeat split; auto. by left.
  - apply IH in Hin as (? & ? & ?). repeat split; auto. by right.
Qed.

Lemma planned_fresh roster : forall tech_index idx r,
  In r (planned roster tech_index idx) -> ws_completion_date r = None.
Proof.
  induction roster as [|t rest IH]; intros tech_index idx r Hin; [destruct Hin|].
  cbn [planned_rows] in Hin. apply in_app_or in Hin as [Hin|Hin].
  - by apply rows_of_fresh in Hin.
  - eauto.
Qed.

Lemma length_planned roster : forall tech_index idx,
  (idx + pcount (length roster) tech_index <= length pm_assignments)%nat ->
  length (planned roster tech_index idx) = pcount (length roster) tech_index.
Proof.
  induction roster as [|t rest IH]; intros tech_index idx Hlen; [done|].
  cbn [planned_rows planned_count length] in *.
  rewrite length_app, length_rows_of by lia. rewrite IH by lia. done.
Qed.

Lemma planned_keys roster : forall tech_index idx,
  map (fun r => (ws_bfm_equipment_no r, ws_pm_type r))
    (planned roster tech_index idx)
  = map (fun a : string * string * string => (a.1.1, a.1.2))
      (take (pcount (length roster) tech_index) (drop idx pm_assignments)).
Proof.
  induction roster as [|t rest IH]; intros tech_index idx; [done|].
  cbn [planned_rows planned_count length].
  rewrite map_app, rows_of_keys, IH.
  rewrite <- take_take_drop, map_app, drop_drop. done.
Qed.

Lemma entries_of_app t l1 l2 :
  entries_of t (l1 ++ l2) = entries_of t l1 ++ entries_of t l2.
Proof. apply List.filter_app. Qed.

Lemma entries_of_planned_absent t roster : forall tech_index idx,
  ~ In t roster -> entries_of t (planned roster tech_index idx) = [].
Proof.
  induction roster as [|t' rest IH]; intros tech_index idx Hnot; [done|].
  cbn [planned_rows]. rewrite entries_of_app, entries_of_rows_of.
  destruct (String.eqb t' t) eqn:Heq.
  - apply String.eqb_eq in Heq. exfalso. apply Hnot. by left.
  - rewrite IH; [done|]. intros ?. apply Hnot. by right.
Qed.

(** The technician at position [i] of a roster without repetition
    receives the count computed for index [tech_index + i]. *)
Lemma entries_of_planned roster : forall tech_index idx i t,
  List.NoDup roster ->
  roster !! i = Some t ->
  (idx + pcount (length roster) tech_index <= length pm_assignments)%nat ->
  length (entries_of t (planned roster tech_index idx))
  = tech_pm_count pms_per_tech extra_pms (tech_index + Z.of_nat i).
Proof.
  induction roster as [|t' rest IH]; intros tech_index idx i t Hnd Hi Hlen;
    [done|].
  cbn [planned_rows planned_count length] in *.
  rewrite entries_of_app, entries_of_rows_of, length_app.
  apply List.NoDup_cons_iff in Hnd as [Hnotin Hnd].
  destruct i as [|i]; cbn in Hi.
  - injection Hi as ->. rewrite String.eqb_refl, Z.add_0_r.
    rewrite entries_of_planned_absent by done.
    rewrite length_rows_of by lia. simpl. lia.
  - assert (t' <> t) as Hne.
    { intros ->. apply Hnotin. apply list_elem_of_In.
      eapply list_elem_of_lookup_2; eauto. }
    apply String.eqb_neq in Hne. rewrite Hne. cbn [length Nat.add].
    rewrite (IH (tech_index + 1) _ i t Hnd Hi) by lia.
    f_equal. lia.
Qed.

(** The number of rows planned. *)
Lemma planned_count_negative n : forall tech_index,
  pms_per_tech < 0 -> pcount n tech_index = 0%nat.
Proof.
  induction n as [|n IH]; intros tech_index Hneg; [done|].
  cbn [planned_count]. rewrite IH by done. unfold tech_pm_count.
  case_match; lia.
Qed.

Lemma planned_count_sum n : forall tech_index,
  0 <= pms_per_tech ->
  Z.of_nat (pcount n tech_index)
  = Z.of_nat n * pms_per_tech
    + Z.max 0 (Z.min extra_pms (tech_index + Z.of_nat n)
               - Z.min extra_pms tech_index).
Proof.
  induction n as [|n IH]; intros tech_index Hper.
  - cbn [planned_count]. lia.
  - cbn [planned_count]. rewrite Nat2Z.inj_add, IH by done.
    unfold tech_pm_count.
    destruct (tech_index <? extra_pms) eqn:Hlt;
      [apply Z.ltb_lt in Hlt | apply Z.ltb_ge in Hlt]; lia.
Qed.

End Planned.

(** ** A generated week *)

Section Generation.

Lemma make_date_ok y m d r :
  PyDate.make_date y m d = Ok r ->
  r = PyDate.mkdate y m d /\ 1 <= y /\ 1 <= m <= 12 /\ 1 <= d.
Proof.
  unfold PyDate.make_date, PyDate.MINYEAR. case_match eqn:Hb; [|discriminate].
  intros [= <-]. repeat (apply andb_true_iff in Hb as [Hb ?]).
  rewrite ?Z.leb_le in *. split; [done|lia].
Qed.

Lemma strptime_ok data format r :
  PyDate.strptime data format = Ok r ->
  1 <= PyDate.year r /\ 1 <= PyDate.month r <= 12 /\ 1 <= PyDate.day r.
Proof.
  unfold PyDate.strptime. repeat case_match; try discriminate.
  intros Hmk. apply make_date_ok in Hmk as (-> & ? & ? & ?). simpl. lia.
Qed.

Lemma days_before_month_nonneg y m : 1 <= m <= 12 -> 0 <= PyDate.days_before_month y m.
Proof.
  intros Hm. unfold PyDate.days_before_month.
  assert (0 <= PyDate.DAYS_BEFORE_MONTH m).
  { assert (m = 1 \/ m = 2 \/ m = 3 \/ m = 4 \/ m = 5 \/ m = 6 \/ m = 7
            \/ m = 8 \/ m = 9 \/ m = 10 \/ m = 11 \/ m = 12) as Hcases by lia.
    repeat (destruct Hcases as [-> | Hcases]; [by vm_compute|]).
    subst. by vm_compute. }
  case_match; lia.
Qed.

Lemma days_before_year_nonneg y : 1 <= y -> 0 <= PyDate.days_before_year y.
Proof.
  intros Hy. unfold PyDate.days_before_year. cbv zeta.
  Z.to_euclidean_division_equations. lia.
Qed.

Lemma toordinal_min r :
  1 <= PyDate.year r -> 1 <= PyDate.month r <= 12 -> 1 <= PyDate.day r ->
  1 <= PyDate.toordinal r.
Proof.
  intros Hy Hm Hd. unfold PyDate.toordinal, PyDate.ymd2ord.
  pose proof (days_before_year_nonneg _ Hy).
  pose proof (days_before_month_nonneg (PyDate.year r) _ Hm). lia.
Qed.

Lemma strptime_toordinal data format r :
  PyDate.strptime data format = Ok r -> 1 <= PyDate.toordinal r.
Proof.
  intros H. apply strptime_ok in H as (? & ? & ?). by apply toordinal_min.
Qed.

(** The counts of a full pass over the roster add up to the total. *)
Lemma planned_count_total (T : Z) (n : nat) :
  (0 < n)%nat ->
  Z.of_nat (planned_count (T / Z.of_nat n) (T mod Z.of_nat n) n 0) = Z.max 0 T.
Proof.
  intros Hn.
  pose proof (Z.mod_pos_bound T (Z.of_nat n) ltac:(lia)) as Hmod.
  pose proof (Z.div_mod T (Z.of_nat n) ltac:(lia)) as Hdm.
  destruct (Z.lt_ge_cases T 0) as [Hneg|Hpos].
  - rewrite planned_count_negative.
    + lia.
    + apply Z.div_lt_upper_bound; lia.
  - rewrite planned_count_sum by (apply Z.div_pos; lia). lia.
Qed.

Lemma roster_length_pos (roster : list string) :
  roster <> [] -> (0 < length roster)%nat.
Proof. destruct roster; [done|simpl; lia]. Qed.

Variable today : PyDate.date.
Variable roster : list string.
Variable target : Z.
Variable week_start_var : string.
Variable week_start : PyDate.date.
Variable s : db.

Hypothesis roster_nonempty : roster <> [].
Hypothesis week_start_parses :
  PyDate.strptime week_start_var "%Y-%m-%d" = Ok week_start.
Hypothesis week_end_exists :
  PyDate.toordinal week_start + 6 <= PyDate.MAXORDINAL.

Let cands := pm_candidates today s.
Let T := Z.min target (Z.of_nat (length cands)).
Let N := Z.of_nat (length roster).

Lemma planned_fits :
  (0 + planned_count (T / N) (T mod N) (length roster) 0 <= length cands)%nat.
Proof.
  pose proof (planned_count_total T (length roster)
                (roster_length_pos roster roster_nonempty)).
  subst N T. lia.
Qed.

(** Without storage faults the generation succeeds; its result is the
    old table without the rows of the week, followed by the planned
    rows. *)
Lemma generate_weekly_assignments_ok :
  generate_weekly_assignments no_faults today roster target week_start_var s
  = Generated T
      (mk_db (equipment s) (pm_completions s)
         (other_weeks (PyDate.strftime_ymd week_start) s
          ++ planned_rows week_start cands (T / N) (T mod N) roster 0 0)
         (cannot_find_assets s) (run_to_failure_assets s)).
Proof.
  pose proof (strptime_toordinal _ _ _ week_start_parses) as Hmin.
  unfold generate_weekly_assignments.
  rewrite week_start_parses. cbn [mbind res_bind].
  unfold PyDate.add_days at 1.
  replace ((1 <=? PyDate.toordinal week_start + 6)
           && (PyDate.toordinal week_start + 6 <=? PyDate.MAXORDINAL))
    with true by (symmetry; apply andb_true_iff; lia).
  erewrite tx_bind_ok; [|apply execute_no_faults].
  erewrite tx_bind_ok; [|apply execute_no_faults].
  cbn [fst snd delete_week].
  assert ((Z.of_nat (length roster) =? 0) = false) as ->.
  { pose proof (roster_length_pos roster roster_nonempty). apply Z.eqb_neq. lia. }
  erewrite tx_bind_ok; [|apply tx_ret_run].
  erewrite tx_bind_ok; [|apply distribute_ok; [done|done|apply planned_fits]].
  erewrite tx_bind_ok; [|apply execute_no_faults].
  rewrite tx_ret_run. reflexivity.
Qed.

End Generation.

(** ** The rows of a week after a generation *)

Section WeekRows.

Lemma filter_none {A} (p : A -> bool) (l : list A) :
  (forall x, In x l -> p x = false) -> List.filter p l = [].
Proof.
  induction l as [|x l IH]; intros H; [done|].
  cbn [List.filter]. rewrite (H x) by (by left).
  apply IH. intros y Hy. apply H. by right.
Qed.

Lemma filter_all {A} (p : A -> bool) (l : list A) :
  (forall x, In x l -> p x = true) -> List.filter p l = l.
Proof.
  intros H. apply forallb_filter_id, forallb_forall. exact H.
Qed.

Lemma week_entries_generated week e pc cf rtf old rows :
  (forall r, In r rows -> ws_week_start_date r = week) ->
  week_entries week
    (mk_db e pc
       (List.filter (fun r => negb (String.eqb (ws_week_start_date r) week)) old
        ++ rows) cf rtf)
  = rows.
Proof.
  intros Hrows. unfold week_entries. cbn [weekly_pm_schedules].
  rewrite List.filter_app, filter_none, filter_all; [done| |].
  - intros r Hr. rewrite (Hrows r Hr). apply String.eqb_refl.
  - intros r Hr. apply filter_In in Hr as [_ Hr]. by apply negb_true_iff.
Qed.

Lemma other_weeks_generated week e pc cf rtf old rows :
  (forall r, In r rows -> ws_week_start_date r = week) ->
  other_weeks week
    (mk_db e pc
       (List.filter (fun r => negb (String.eqb (ws_week_start_date r) week)) old
        ++ rows) cf rtf)
  = List.filter (fun r => negb (String.eqb (ws_week_start_date r) week)) old.
Proof.
  intros Hrows. unfold other_weeks. cbn [weekly_pm_schedules].
  rewrite List.filter_app, (filter_none _ rows), app_nil_r.
  - apply filter_all. intros r Hr. by apply filter_In in Hr as [_ Hr].
  - intros r Hr. rewrite (Hrows r Hr), String.eqb_refl. done.
Qed.

(** An equipment number enters [pm_assignments] once. *)
Lemma collect_assignments_fresh today l : forall (X : gset string) a,
  In a (collect_assignments today l X) -> a.1.1 ∉ X.
Proof.
  induction l as [|e l IH]; intros X a Hin; [destruct Hin|].
  cbn [collect_assignments] in Hin.
  case_bool_decide as Hx; [eauto|].
  destruct (assigned_pm today e); [|eauto].
  destruct Hin as [<-|Hin]; [done|].
  apply IH in Hin. set_solver.
Qed.

Lemma collect_assignments_NoDup today l : forall (X : gset string),
  List.NoDup (map (fun a : string * string * string => a.1.1)
                (collect_assignments today l X)).
Proof.
  induction l as [|e l IH]; intros X; [constructor|].
  cbn [collect_assignments].
  case_bool_decide as Hx; [eauto|].
  destruct (assigned_pm today e); [|eauto].
  cbn [map fst]. constructor; [|eauto].
  intros Hin. apply in_map_iff in Hin as (a & Ha & Hin).
  apply collect_assignments_fresh in Hin. set_solver.
Qed.

Lemma In_take {A} (y : A) (n : nat) : forall l, In y (take n l) -> In y l.
Proof.
  induction n as [|n IH]; intros [|x l] Hin; cbn in Hin; try done.
  destruct Hin as [Hin|Hin]; [by left | right; eauto].
Qed.

Lemma NoDup_map_take {A B} (f : A -> B) (n : nat) (l : list A) :
  List.NoDup (map f l) -> List.NoDup (map f (take n l)).
Proof.
  revert n. induction l as [|x l IH]; intros [|n] Hnd; cbn; try constructor.
  - apply List.NoDup_cons_iff in Hnd as [Hx Hnd].
    intros Hin. apply Hx. apply in_map_iff in Hin as (y & <- & Hy).
    apply in_map. eapply In_take; eauto.
  - apply IH. by apply List.NoDup_cons_iff in Hnd as [_ Hnd].
Qed.

(** The keys of the planned rows are pairwise distinct. *)
Lemma planned_keys_NoDup today s week_start per extra roster :
  List.NoDup
    (map schedule_key
       (planned_rows week_start (pm_candidates today s) per extra roster 0 0)).
Proof.
  set (rows := planned_rows _ _ _ _ _ _ _).
  assert (List.NoDup (map (fun r => ws_bfm_equipment_no r) rows)) as Hnd.
  { replace (map (fun r => ws_bfm_equipment_no r) rows)
      with (map fst (map (fun r => (ws_bfm_equipment_no r, ws_pm_type r)) rows))
      by (rewrite map_map; done).
    unfold rows. rewrite planned_keys, drop_0, map_map. cbn [fst].
    apply NoDup_map_take, collect_assignments_NoDup. }
  clearbody rows.
  induction rows as [|r rows IH]; [constructor|].
  cbn [map] in *. apply List.NoDup_cons_iff in Hnd as [Hr Hnd].
  constructor; [|eauto].
  intros Hin. apply Hr. apply in_map_iff in Hin as (r' & Hk & Hin).
  apply in_map_iff. exists r'. split; [|done].
  unfold schedule_key in Hk. congruence.
Qed.

End WeekRows.

(** ** Round robin *)

Lemma sum_by_position per extra (f : string -> nat) (l : list string) :
  forall tech_index,
    (forall i t, l !! i = Some t ->
       f t = tech_pm_count per extra (tech_index + Z.of_nat i)) ->
    list_sum (map f l) = planned_count per extra (length l) tech_index.
Proof.
  induction l as [|t l IH]; intros tech_index H; [done|].
  cbn [map list_sum fold_right length planned_count]. f_equal.
  - rewrite (H 0%nat t eq_refl). f_equal. lia.
  - apply IH. intros i t' Hi. rewrite (H (S i) t' Hi). f_equal. lia.
Qed.

(** C7.  Round-robin fairness.  For a non-empty roster of [N] distinct
    technicians, [generate_weekly_assignments] hands out
    [T = min(weekly_pm_target, number of candidates)] entries: the
    technician at position [i] of the roster receives [T / N] of them,
    plus one when [i < T mod N], every entry of the week belongs to a
    technician of the roster, and the counts add up to [T]. *)
Theorem C7_round_robin_fairness today roster target week_start_var week_start s :
  roster <> [] ->
  List.NoDup roster ->
  0 <= target ->
  PyDate.strptime week_start_var "%Y-%m-%d" = Ok week_start ->
  PyDate.toordinal week_start + 6 <= PyDate.MAXORDINAL ->
  exists T s',
    generate_weekly_assignments no_faults today roster target week_start_var s
    = Generated T s'
    /\ T = Z.min target (Z.of_nat (length (pm_candidates today s)))
    /\ let N := Z.of_nat (length roster) in
       let week := week_entries (PyDate.strftime_ymd week_start) s' in
       (forall i technician,
           roster !! i = Some technician ->
           Z.of_nat (length (entries_of technician week))
           = T / N + (if Z.of_nat i <? T mod N then 1 else 0))
       /\ (forall r, In r week -> In (ws_assigned_technician r) roster)
       /\ Z.of_nat (length week) = T
       /\ Z.of_nat (list_sum (map (fun t => length (entries_of t week)) roster))
          = T.
Proof.
  intros Hne Hnd Htarget Hparse Hend.
  eexists _, _. split; [by apply generate_weekly_assignments_ok|].
  split; [done|]. cbv zeta.
  set (cands := pm_candidates today s).
  set (T := Z.min target (Z.of_nat (length cands))).
  set (N := Z.of_nat (length roster)).
  assert (0 <= T) as HT by lia.
  pose proof (roster_length_pos roster Hne) as Hpos.
  pose proof (planned_fits today roster target s Hne) as Hfits.
  fold cands T N in Hfits.
  pose proof (planned_count_total T (length roster) Hpos) as Htotal.
  fold N in Htotal.
  assert (0 <= T / N) as Hper by (apply Z.div_pos; lia).
  pose proof (Z.mod_pos_bound T N ltac:(lia)) as Hmod.
  unfold other_weeks. rewrite week_entries_generated
    by (intros r Hr; by apply planned_inv in Hr as (? & _)).
  assert (forall i technician,
             roster !! i = Some technician ->
             length (entries_of technician
                       (planned_rows week_start cands (T / N) (T mod N) roster 0 0))
             = tech_pm_count (T / N) (T mod N) (0 + Z.of_nat i)) as Hcount.
  { intros i t Hi. by apply entries_of_planned. }
  repeat split.
  - intros i t Hi. rewrite (Hcount i t Hi). unfold tech_pm_count.
    rewrite Z.add_0_l. case_match; lia.
  - intros r Hr. by apply planned_inv in Hr as (_ & ? & _).
  - rewrite length_planned by done. lia.
  - rewrite (sum_by_position (T / N) (T mod N) _ roster 0 Hcount). lia.
Qed.

Lemma C7_round_robin_witness :
  let roster := ["Mark Michaels"; "Jerone Bosarge"; "Jon Hymel"] in
  let s :=
    mk_db
      [ mk_equipment "E-0100" "Press" "Bay 1" true false true
          None None None None None None "Active";
        mk_equipment "E-0200" "Lathe" "Bay 2" true false false
          None None None None None None "Active";
        mk_equipment "E-0300" "Crane" "Bay 3" false false true
          None None None None None None "Active";
        mk_equipment "E-0400" "Drill" "Bay 3" true false true
          None None None None None None "Active" ]
      [] [] [] [] in
  roster <> []
  /\ List.NoDup roster
  /\ 0 <= weekly_pm_target
  /\ PyDate.strptime "2025-02-03" "%Y-%m-%d" = Ok (PyDate.mkdate 2025 2 3)
  /\ PyDate.toordinal (PyDate.mkdate 2025 2 3) + 6 <= PyDate.MAXORDINAL
  /\ exists T s',
      generate_weekly_assignments no_faults (PyDate.mkdate 2025 2 3) roster
        weekly_pm_target "2025-02-03" s
      = Generated T s'
      /\ T = 4
      /\ Z.of_nat (length (entries_of "Mark Michaels"
                             (week_entries "2025-02-03" s'))) = 2
      /\ Z.of_nat (length (entries_of "Jon Hymel"
                             (week_entries "2025-02-03" s'))) = 1.
Proof.
  intros roster s.
  assert (roster <> []) as H1 by done.
  assert (List.NoDup roster) as H2
    by (apply NoDup_ListNoDup, (bool_decide_unpack _); vm_compute; exact I).
  assert (0 <= weekly_pm_target) as H3 by (vm_compute; discriminate).
  assert (PyDate.strptime "2025-02-03" "%Y-%m-%d" = Ok (PyDate.mkdate 2025 2 3))
    as H4 by reflexivity.
  assert (PyDate.toordinal (PyDate.mkdate 2025 2 3) + 6 <= PyDate.MAXORDINAL)
    as H5 by (vm_compute; discriminate).
  repeat (split; [assumption|]).
  destruct (C7_round_robin_fairness (PyDate.mkdate 2025 2 3) roster
              weekly_pm_target "2025-02-03" (PyDate.mkdate 2025 2 3) s
              H1 H2 H3 H4 H5) as (T & s' & Hgen & HT & Hcount & _).
  change (PyDate.strftime_ymd (PyDate.mkdate 2025 2 3)) with "2025-02-03"
    in Hcount.
  exists T, s'. split; [exact Hgen|].
  split; [rewrite HT; reflexivity|].
  split.
  - rewrite (Hcount 0%nat "Mark Michaels" eq_refl), HT. reflexivity.
  - rewrite (Hcount 2%nat "Jon Hymel" eq_refl), HT. reflexivity.
Defined.

(** ** Regenerating a week *)

Lemma pm_candidates_equipment today s0 s :
  equipment s0 = equipment s -> pm_candidates today s0 = pm_candidates today s.
Proof. intros H. unfold pm_candidates, active_equipment. by rewrite H. Qed.

Lemma NoDup_map_filter {A B} (f : A -> B) (p : A -> bool) (l : list A) :
  List.NoDup (map f l) -> List.NoDup (map f (List.filter p l)).
Proof.
  induction l as [|x l IH]; intros Hnd; [constructor|].
  cbn [map List.filter] in *. apply List.NoDup_cons_iff in Hnd as [Hx Hnd].
  destruct (p x); [|eauto]. cbn [map]. constructor; [|eauto].
  intros Hin. apply Hx. apply in_map_iff in Hin as (y & <- & Hy).
  apply in_map. by apply filter_In in Hy as [Hy _].
Qed.

Lemma NoDup_append {A} (l1 l2 : list A) :
  List.NoDup l1 -> List.NoDup l2 -> (forall x, In x l1 -> ~ In x l2) ->
  List.NoDup (l1 ++ l2).
Proof.
  induction l1 as [|x l1 IH]; intros H1 H2 Hdisj; [done|].
  apply List.NoDup_cons_iff in H1 as [Hx H1]. cbn [app]. constructor.
  - intros Hin. apply in_app_or in Hin as [Hin|Hin]; [done|].
    apply (Hdisj x); [by left|done].
  - apply IH; [done|done|]. intros y Hy. apply Hdisj. by right.
Qed.

(** C8.  After a generation the week holds at most one entry per
    (week start, equipment, PM type); the entries the week had before
    are gone (every entry of the week is a fresh, uncompleted one and
    the week's content is a function of the equipment table alone), the
    other weeks are untouched, and generating the same week again gives
    the same entries, hence the same number of them.  A table that had
    at most one entry per key before has at most one per key after. *)
Theorem C8_regeneration_replaces_week today roster target week_start_var
    week_start s :
  roster <> [] ->
  PyDate.strptime week_start_var "%Y-%m-%d" = Ok week_start ->
  PyDate.toordinal week_start + 6 <= PyDate.MAXORDINAL ->
  exists T s',
    generate_weekly_assignments no_faults today roster target week_start_var s
    = Generated T s'
    /\ let week := PyDate.strftime_ymd week_start in
       List.NoDup (map schedule_key (week_entries week s'))
       /\ (List.NoDup (map schedule_key (weekly_pm_schedules s)) ->
           List.NoDup (map schedule_key (weekly_pm_schedules s')))
       /\ (forall r, In r (week_entries week s') ->
             ws_status r = "Scheduled" /\ ws_completion_date r = None)
       /\ other_weeks week s' = other_weeks week s
       /\ Z.of_nat (length (week_entries week s')) = Z.max 0 T
       /\ (forall s0,
             equipment s0 = equipment s ->
             exists s0',
               generate_weekly_assignments no_faults today roster target
                 week_start_var s0
               = Generated T s0'
               /\ week_entries week s0' = week_entries week s')
       /\ exists s'',
           generate_weekly_assignments no_faults today roster target
             week_start_var s'
           = Generated T s''
           /\ week_entries week s'' = week_entries week s'
           /\ length (weekly_pm_schedules s'') = length (weekly_pm_schedules s').
Proof.
  intros Hne Hparse Hend.
  eexists _, _. split; [by apply generate_weekly_assignments_ok|]. cbv zeta.
  set (week := PyDate.strftime_ymd week_start).
  set (cands := pm_candidates today s).
  set (T := Z.min target (Z.of_nat (length cands))).
  set (N := Z.of_nat (length roster)).
  set (rows := planned_rows week_start cands (T / N) (T mod N) roster 0 0).
  set (s' := mk_db _ _ _ _ _).
  assert (forall r, In r rows -> ws_week_start_date r = week) as Hweek.
  { intros r Hr. by apply planned_inv in Hr as (? & _). }
  assert (forall s0,
             equipment s0 = equipment s ->
             generate_weekly_assignments no_faults today roster target
               week_start_var s0
             = Generated T
                 (mk_db (equipment s0) (pm_completions s0)
                    (other_weeks week s0 ++ rows)
                    (cannot_find_assets s0) (run_to_failure_assets s0))
             /\ week_entries week
                  (mk_db (equipment s0) (pm_completions s0)
                     (other_weeks week s0 ++ rows)
                     (cannot_find_assets s0) (run_to_failure_assets s0))
                = rows) as Hany.
  { intros s0 Heq. split.
    - rewrite (generate_weekly_assignments_ok today roster target week_start_var
                 week_start s0 Hne Hparse Hend).
      rewrite (pm_candidates_equipment today s0 s Heq). reflexivity.
    - by apply week_entries_generated. }
  assert (week_entries week s' = rows) as Hwk
    by (by apply week_entries_generated).
  assert (other_weeks week s' = other_weeks week s) as Hother
    by (by apply other_weeks_generated).
  rewrite Hwk, Hother.
  repeat split.
  - apply planned_keys_NoDup.
  - intros Hold. cbn [weekly_pm_schedules s']. rewrite map_app.
    apply NoDup_append.
    + by apply NoDup_map_filter.
    + apply planned_keys_NoDup.
    + intros key Hin1 Hin2.
      apply in_map_iff in Hin1 as (r1 & <- & Hr1).
      apply in_map_iff in Hin2 as (r2 & Hk & Hr2).
      apply filter_In in Hr1 as [_ Hr1]. apply negb_true_iff in Hr1.
      apply String.eqb_neq in Hr1. apply Hr1.
      rewrite <- (Hweek r2 Hr2). unfold schedule_key in Hk. congruence.
  - by apply planned_inv in H as (_ & _ & ?).
  - by apply planned_fresh in H.
  - unfold rows. rewrite length_planned by (by apply planned_fits).
    apply planned_count_total. by apply roster_length_pos.
  - intros s0 Heq. destruct (Hany s0 Heq) as [Hgen Hrows]. eauto.
  - destruct (Hany s' eq_refl) as [Hgen Hrows].
    eexists. split; [exact Hgen|]. split; [exact Hrows|].
    cbn [weekly_pm_schedules]. rewrite Hother.
    unfold s'. cbn [weekly_pm_schedules]. reflexivity.
Qed.

Lemma C8_regeneration_witness :
  let stale :=
    mk_schedule "2025-02-03" "E-0100" "Monthly" "Jon Hymel" "Completed"
      "2025-02-04" (Some "2025-02-04") None None in
  let s :=
    mk_db
      [ mk_equipment "E-0100" "Press" "Bay 1" true false true
          None None None None None None "Active";
        mk_equipment "E-0200" "Lathe" "Bay 2" true false false
          None None None None None None "Active" ]
      [] [stale; stale; stale] [] [] in
  technicians <> []
  /\ PyDate.strptime "2025-02-03" "%Y-%m-%d" = Ok (PyDate.mkdate 2025 2 3)
  /\ PyDate.toordinal (PyDate.mkdate 2025 2 3) + 6 <= PyDate.MAXORDINAL
  /\ exists T s',
      generate_weekly_assignments no_faults (PyDate.mkdate 2025 2 3) technicians
        weekly_pm_target "2025-02-03" s
      = Generated T s'
      /\ List.NoDup (map schedule_key (week_entries "2025-02-03" s'))
      /\ Z.of_nat (length (week_entries "2025-02-03" s')) = 2.
Proof.
  intros stale s.
  assert (technicians <> []) as H1 by done.
  assert (PyDate.strptime "2025-02-03" "%Y-%m-%d" = Ok (PyDate.mkdate 2025 2 3))
    as H2 by reflexivity.
  assert (PyDate.toordinal (PyDate.mkdate 2025 2 3) + 6 <= PyDate.MAXORDINAL)
    as H3 by (vm_compute; discriminate).
  repeat (split; [assumption|]).
  destruct (C8_regeneration_replaces_week (PyDate.mkdate 2025 2 3) technicians
              weekly_pm_target "2025-02-03" (PyDate.mkdate 2025 2 3) s
              H1 H2 H3) as (T & s' & Hgen & Hnd & _ & _ & _ & Hlen & _).
  change (PyDate.strftime_ymd (PyDate.mkdate 2025 2 3)) with "2025-02-03"
    in Hnd, Hlen.
  exists T, s'. split; [exact Hgen|]. split; [exact Hnd|].
  rewrite Hlen.
  assert (generate_weekly_assignments no_faults (PyDate.mkdate 2025 2 3)
            technicians weekly_pm_target "2025-02-03" s
          = Generated 2
              (match generate_weekly_assignments no_faults (PyDate.mkdate 2025 2 3)
                       technicians weekly_pm_target "2025-02-03" s with
               | Generated _ d => d
               | GenerationFailed _ => s
               end)) as Hrun by (vm_compute; reflexivity).
  rewrite Hrun in Hgen. injection Hgen as <- _. reflexivity.
Defined.

(** ** The selection of one cycle per equipment *)

Section Selection.

Lemma is_pm_overdue_falsy today last frequency_days :
  Py.truthy_opt last = false -> is_pm_overdue today last frequency_days = true.
Proof.
  unfold is_pm_overdue. destruct last as [l|]; [|done]. cbn. by intros ->.
Qed.

Lemma is_pm_overdue_not_parseable today last frequency_days :
  DateStandardizer.parse_date_flexible last = Ok None ->
  is_pm_overdue today (Some last) frequency_days = true.
Proof.
  intros Hnone. unfold is_pm_overdue. case_match; [done|]. by rewrite Hnone.
Qed.

Lemma overdue_or_never today last frequency_days :
  negb (Py.truthy_opt last) || is_pm_overdue today last frequency_days
  = is_pm_overdue today last frequency_days.
Proof.
  destruct (Py.truthy_opt last) eqn:Ht; [done|].
  by rewrite is_pm_overdue_falsy.
Qed.

(** The inner test "Monthly is current or doesn't exist" is implied by
    the failure of the Monthly test: the priority logic is a plain
    Monthly-then-Annual cascade. *)
Lemma assigned_pm_cascade today e :
  assigned_pm today e
  = if monthly_pm e && is_pm_overdue today (last_monthly_pm e) 30
    then Some "Monthly"
    else if annual_pm e && is_pm_overdue today (last_annual_pm e) 365
    then Some "Annual"
    else None.
Proof.
  unfold assigned_pm. rewrite !overdue_or_never.
  destruct (monthly_pm e); cbn [andb negb orb]; [|done].
  destruct (is_pm_overdue today (last_monthly_pm e) 30) eqn:Hm; [done|].
  destruct (Py.truthy_opt (last_monthly_pm e)) eqn:Ht; [done|].
  by rewrite is_pm_overdue_falsy in Hm.
Qed.

Lemma insert_by_bfm_perm e l : Permutation (insert_by_bfm e l) (e :: l).
Proof.
  induction l as [|x l IH]; [done|]. cbn [insert_by_bfm].
  case_match; [done|]. rewrite IH. apply perm_swap.
Qed.

Lemma order_by_bfm_perm l : Permutation (order_by_bfm l) l.
Proof.
  unfold order_by_bfm.
  assert (forall acc, Permutation (fold_left (fun acc e => insert_by_bfm e acc) l acc)
                        (l ++ acc)) as H.
  { induction l as [|x l IH]; intros acc; [done|]. cbn [fold_left].
    rewrite IH, insert_by_bfm_perm. symmetry. apply Permutation_middle. }
  rewrite H. by rewrite app_nil_r.
Qed.

Lemma active_equipment_In s e :
  In e (active_equipment s) <-> In e (equipment s) /\ status e = "Active".
Proof.
  unfold active_equipment.
  rewrite <- !list_elem_of_In, order_by_bfm_perm, !list_elem_of_In, filter_In.
  split; intros [Hin Hst]; split; try done.
  - apply andb_true_iff in Hst as [Hst _]. apply andb_true_iff in Hst as [Hst _].
    by apply String.eqb_eq.
  - rewrite Hst. reflexivity.
Qed.

Lemma active_equipment_NoDup s :
  List.NoDup (map bfm_equipment_no (equipment s)) ->
  List.NoDup (map bfm_equipment_no (active_equipment s)).
Proof.
  intros Hnd. unfold active_equipment.
  apply NoDup_ListNoDup. rewrite order_by_bfm_perm. apply NoDup_ListNoDup.
  by apply NoDup_map_filter.
Qed.

Lemma collect_assignments_sound today l : forall (X : gset string) a,
  In a (collect_assignments today l X) ->
  exists e, In e l /\ a = (bfm_equipment_no e, a.1.2, description e)
            /\ assigned_pm today e = Some a.1.2.
Proof.
  induction l as [|e l IH]; intros X a Hin; [destruct Hin|].
  cbn [collect_assignments] in Hin.
  assert (forall X, In a (collect_assignments today l X) ->
            exists e0, In e0 (e :: l)
                       /\ a = (bfm_equipment_no e0, a.1.2, description e0)
                       /\ assigned_pm today e0 = Some a.1.2) as Hrest.
  { intros X' H'. apply IH in H' as (e0 & ? & ? & ?). exists e0.
    split; [by right|done]. }
  case_bool_decide; [eauto|].
  destruct (assigned_pm today e) as [pm|] eqn:Hpm; [|eauto].
  destruct Hin as [<-|Hin]; [|eauto].
  exists e. split; [by left|done].
Qed.

Lemma collect_assignments_complete today l : forall (X : gset string) e pm,
  List.NoDup (map bfm_equipment_no l) ->
  In e l -> bfm_equipment_no e ∉ X -> assigned_pm today e = Some pm ->
  In (bfm_equipment_no e, pm, description e) (collect_assignments today l X).
Proof.
  induction l as [|x l IH]; intros X e pm Hnd Hin HX Hpm; [destruct Hin|].
  cbn [map] in Hnd. apply List.NoDup_cons_iff in Hnd as [Hx Hnd].
  cbn [collect_assignments].
  destruct Hin as [->|Hin].
  - rewrite bool_decide_eq_false_2 by done. rewrite Hpm. by left.
  - assert (bfm_equipment_no x <> bfm_equipment_no e) as Hne.
    { intros Heq. apply Hx. rewrite Heq. by apply in_map. }
    case_bool_decide; [eauto|].
    destruct (assigned_pm today x); [|eauto].
    right. apply IH; try done.
    apply not_elem_of_union. split; [|done].
    apply not_elem_of_singleton. congruence.
Qed.

End Selection.

(** C6 (as the program has it).  The weekly generator looks at the
    Active equipment only and at the Monthly and Annual cycles only,
    never at Six Month.  A cycle is due when its flag is set and
    [is_pm_overdue] holds of its last date: the date is absent, blank or
    not parseable, or at least 80% of the cycle length lies between it
    and today.  Per equipment at most one cycle is selected: Monthly if
    due, else Annual if due.  With equipment numbers unique, every
    Active equipment with a due cycle is a candidate. *)
Theorem C6_monthly_then_annual_selection today s :
  let cands := pm_candidates today s in
  (forall bfm_no pm_type d,
      In (bfm_no, pm_type, d) cands ->
      (pm_type = "Monthly" \/ pm_type = "Annual")
      /\ exists e, In e (equipment s) /\ status e = "Active"
                   /\ bfm_equipment_no e = bfm_no /\ description e = d
                   /\ assigned_pm today e = Some pm_type)
  /\ List.NoDup (map (fun a : string * string * string => a.1.1) cands)
  /\ (List.NoDup (map bfm_equipment_no (equipment s)) ->
      forall e pm_type,
        In e (equipment s) -> status e = "Active" ->
        assigned_pm today e = Some pm_type ->
        In (bfm_equipment_no e, pm_type, description e) cands)
  /\ (forall e,
        assigned_pm today e
        = if monthly_pm e && is_pm_overdue today (last_monthly_pm e) 30
          then Some "Monthly"
          else if annual_pm e && is_pm_overdue today (last_annual_pm e) 365
          then Some "Annual"
          else None)
  /\ (forall last frequency_days,
        Py.truthy_opt last = false ->
        is_pm_overdue today last frequency_days = true)
  /\ (forall last frequency_days,
        DateStandardizer.parse_date_flexible last = Ok None ->
        is_pm_overdue today (Some last) frequency_days = true)
  /\ (forall last canonical d frequency_days,
        Py.truthy last = true ->
        DateStandardizer.parse_date_flexible last = Ok (Some canonical) ->
        Py.truthy canonical = true ->
        PyDate.strptime canonical "%Y-%m-%d" = Ok d ->
        is_pm_overdue today (Some last) frequency_days
        = (4 * frequency_days <=? 5 * PyDate.days_between today d)).
Proof.
  cbv zeta. repeat split.
  - apply collect_assignments_sound in H as (e & He & Ha & Hpm).
    cbn in Hpm. rewrite assigned_pm_cascade in Hpm.
    destruct (monthly_pm e && _); [left; congruence|].
    destruct (annual_pm e && _); [right; congruence|discriminate].
  - apply collect_assignments_sound in H as (e & He & Ha & Hpm).
    apply active_equipment_In in He as [He Hst].
    cbn in Ha, Hpm. exists e. naive_solver.
  - apply collect_assignments_NoDup.
  - intros Hnd e pm He Hst Hpm. apply collect_assignments_complete; try done.
    + by apply active_equipment_NoDup.
    + by apply active_equipment_In.
  - apply assigned_pm_cascade.
  - intros. by apply is_pm_overdue_falsy.
  - intros last f Hnone. by apply is_pm_overdue_not_parseable.
  - intros last canonical d f Ht Hparse Htc Hstr.
    unfold is_pm_overdue. rewrite Ht. cbn [negb]. rewrite Hparse.
    cbn [mbind res_bind Py.truthy_opt]. rewrite Htc.
    cbn [default from_option id]. rewrite Hstr. reflexivity.
Qed.

Lemma C6_selection_witness :
  let today := PyDate.mkdate 2025 2 3 in
  let e :=
    mk_equipment "E-0100" "Press" "Bay 1" true true true
      (Some "01/20/2025") None None None None None "Active" in
  let s := mk_db [e] [] [] [] [] in
  List.NoDup (map bfm_equipment_no (equipment s))
  /\ In e (equipment s)
  /\ status e = "Active"
  /\ assigned_pm today e = Some "Annual"
  /\ In ("E-0100", "Annual", "Press") (pm_candidates today s).
Proof.
  intros today e s.
  assert (List.NoDup (map bfm_equipment_no (equipment s))) as H1
    by (apply NoDup_ListNoDup, (bool_decide_unpack _); vm_compute; exact I).
  assert (In e (equipment s)) as H2 by (by left).
  assert (status e = "Active") as H3 by reflexivity.
  assert (assigned_pm today e = Some "Annual") as H4 by (vm_compute; reflexivity).
  repeat (split; [assumption|]).
  destruct (C6_monthly_then_annual_selection today s)
    as (_ & _ & Hcomplete & _).
  exact (Hcomplete H1 e "Annual" H2 H3 H4).
Defined.

(** The specification's selection against the program's, on two Active
    equipment rows: one whose only enabled cycle, Six Month, was never
    done, and one whose Monthly PM was done 20 days ago and has no next
    date.  The Due-Date Calculator calls both due for scheduling; the
    generator selects neither and produces an empty week. *)
Lemma C6_spec_selection_counterexample :
  let today := PyDate.mkdate 2025 2 3 in
  let e1 :=
    mk_equipment "E-0200" "Lathe" "Bay 2" false true false
      None None None None None None "Active" in
  let e2 :=
    mk_equipment "E-0300" "Crane" "Bay 3" true false false
      (Some "2025-01-14") None None None None None "Active" in
  let s := mk_db [e1; e2] [] [] [] [] in
  Spec.selectable today e1 "Six Month" = true
  /\ assigned_pm today e1 = None
  /\ Spec.selectable today e2 "Monthly" = true
  /\ assigned_pm today e2 = None
  /\ generate_weekly_assignments no_faults today technicians weekly_pm_target
       "2025-02-03" s
     = Generated 0 s.
Proof. vm_compute. repeat split; reflexivity. Qed.

(** ** Transactions and storage faults *)

Section Faults.

Lemma fault_monotone_ret {A} (a : A) : fault_monotone (mret a).
Proof. by intros flt k s r H. Qed.

Lemma fault_monotone_raise {A} e : fault_monotone (@tx_raise A e).
Proof. by intros flt k s r H. Qed.

Lemma fault_monotone_lift {A} (x : res A) : fault_monotone (tx_lift x).
Proof. by intros flt k s r H. Qed.

Lemma fault_monotone_execute {A} (stmt : db -> A * db) :
  fault_monotone (execute stmt).
Proof.
  intros flt k s r H. apply execute_inv in H as ->. apply execute_no_faults.
Qed.

Lemma fault_monotone_bind {A B} (m : tx A) (f : A -> tx B) :
  fault_monotone m -> (forall a, fault_monotone (f a)) ->
  fault_monotone (m ≫= f).
Proof.
  intros Hm Hf flt k s r H.
  apply tx_bind_inv in H as (a & k' & s' & H1 & H2).
  rewrite (tx_bind_ok _ _ _ _ _ _ _ _ (Hm _ _ _ _ H1)). exact (Hf a _ _ _ _ H2).
Qed.

Lemma fault_monotone_if {A} (b : bool) (m1 m2 : tx A) :
  fault_monotone m1 -> fault_monotone m2 ->
  fault_monotone (if b then m1 else m2).
Proof. by destruct b. Qed.

Create HintDb faults.
#[local] Hint Resolve fault_monotone_ret fault_monotone_raise fault_monotone_lift
  fault_monotone_execute fault_monotone_if : faults.

Ltac solve_fault_monotone :=
  repeat first
    [ apply fault_monotone_bind; [|intros ?]
    | apply fault_monotone_if
    | solve [auto with faults] ].

Lemma fault_monotone_process_pm bfm_no pm_type technician completion_date
    labor_hours labor_minutes pm_due_date special_equipment notes next_annual :
  fault_monotone
    (process_pm bfm_no pm_type technician completion_date labor_hours
       labor_minutes pm_due_date special_equipment notes next_annual).
Proof.
  unfold process_pm, process_cannot_find_pm, process_run_to_failure_pm,
    process_normal_pm_completion.
  solve_fault_monotone.
Qed.

Lemma attempt_no_faults body flt k s st :
  fault_monotone body ->
  attempt body flt k s = Some st -> attempt body no_faults k s = Some st.
Proof.
  unfold attempt. intros Hm.
  destruct (body flt k s) as [[u st']|e] eqn:Hb; [|discriminate].
  intros [= <-]. by rewrite (Hm _ _ _ _ Hb).
Qed.

End Faults.

(** ** What a successful processor has done *)

Section Processors.

Lemma tx_raise_inv {A} e flt k s (r : A * (nat * db)) :
  tx_raise e flt k s = Ok r -> False.
Proof. discriminate. Qed.

Lemma tx_ret_inv {A} (a : A) flt k s r :
  (mret a : tx A) flt k s = Ok r -> r = (a, (k, s)).
Proof. by intros [= <-]. Qed.

Lemma tx_lift_inv {A} (x : res A) flt k s r :
  tx_lift x flt k s = Ok r -> x = Ok r.1 /\ r.2 = (k, s).
Proof. unfold tx_lift. destruct x; [|discriminate]. by intros [= <-]. Qed.

Lemma update_equipment_id bfm_no s :
  (update_equipment bfm_no (fun e => e) s).2 = s.
Proof.
  unfold update_equipment. cbn [snd]. destruct s as [eq pc ws cf rtf]. cbn. f_equal.
  induction eq as [|e l IH]; [done|]. cbn [map]. rewrite IH. by case_match.
Qed.

Lemma equipment_with_insert_completion bfm_no row s :
  equipment_with bfm_no (insert_completion row s).2 = equipment_with bfm_no s.
Proof. reflexivity. Qed.

Lemma process_normal_success bfm_no pm_type technician completion_date
    labor_hours labor_minutes pm_due_date special_equipment notes next_annual
    flt k s r :
  process_normal_pm_completion bfm_no pm_type technician completion_date
    labor_hours labor_minutes pm_due_date special_equipment notes next_annual
    flt k s = Ok r ->
  exists week_start,
    week_start_of completion_date = Ok week_start
    /\ (is_normal_pm pm_type = true ->
        length (equipment_with bfm_no s) = 1%nat)
    /\ r.2.2
       = (complete_schedule bfm_no pm_type technician week_start
            completion_date (labor_hours + labor_minutes / 60)%Q notes
            (update_equipment bfm_no
               (normal_update pm_type completion_date next_annual)
               (insert_completion
                  (fun id =>
                     mk_completion id bfm_no pm_type technician completion_date
                       labor_hours labor_minutes pm_due_date special_equipment
                       notes next_annual) s).2).2).2.
Proof.
  unfold process_normal_pm_completion. intros H.
  apply tx_bind_inv in H as (id & k1 & s1 & H1 & H).
  apply execute_inv in H1. injection H1 as -> -> Hs1.
  apply tx_bind_inv in H as (u & k2 & s2 & H2 & H).
  destruct (_ =? 0); [by apply tx_raise_inv in H2|].
  apply tx_ret_inv in H2. injection H2 as -> -> ->.
  apply tx_bind_inv in H as (rows & k3 & s3 & H3 & H).
  assert (s3 = (update_equipment bfm_no
                  (normal_update pm_type completion_date next_annual) s1).2
          /\ (is_normal_pm pm_type = true ->
              rows = Z.of_nat (length (equipment_with bfm_no s1))))
    as [-> Hlen].
  { unfold normal_update, is_normal_pm.
    destruct (String.eqb pm_type "Monthly").
    { destruct (Py.truthy next_annual);
        apply execute_inv in H3; injection H3 as -> _ ->; by split. }
    destruct (String.eqb pm_type "Six Month").
    { apply execute_inv in H3; injection H3 as -> _ ->; by split. }
    destruct (String.eqb pm_type "Annual").
    { apply execute_inv in H3; injection H3 as -> _ ->; by split. }
    apply tx_ret_inv in H3. injection H3 as -> _ ->.
    by rewrite update_equipment_id. }
  apply tx_bind_inv in H as (u' & k4 & s4 & H4 & H).
  destruct (negb (rows =? 1)) eqn:Hrows; [by apply tx_raise_inv in H4|].
  apply negb_false_iff, Z.eqb_eq in Hrows. subst rows.
  apply tx_ret_inv in H4. injection H4 as -> -> ->.
  apply tx_bind_inv in H as (ws & k5 & s5 & H5 & H).
  apply tx_lift_inv in H5 as [Hws H5]. cbn in Hws, H5. injection H5 as -> ->.
  apply tx_bind_inv in H as (u'' & k6 & s6 & H6 & H).
  apply execute_inv in H6. injection H6 as -> -> ->.
  apply tx_ret_inv in H. subst r. cbn [fst snd].
  exists ws. split; [done|]. split.
  - intros Hn. specialize (Hlen Hn). subst s1.
    unfold equipment_with in *. cbn [insert_completion snd equipment] in Hlen.
    lia.
  - by subst s1.
Qed.

Lemma process_cannot_find_success bfm_no technician completion_date notes
    flt k s r :
  process_cannot_find_pm bfm_no technician completion_date notes flt k s = Ok r ->
  length (equipment_with bfm_no s) = 1%nat
  /\ r.2.2
     = (update_equipment bfm_no set_missing
          (insert_cannot_find
             (mk_cannot_find bfm_no (equipment_info bfm_no s).1
                (equipment_info bfm_no s).2 technician completion_date notes
                "Missing") s).2).2.
Proof.
  unfold process_cannot_find_pm. intros H.
  apply tx_bind_inv in H as (info & k1 & s1 & H1 & H).
  apply execute_inv in H1. injection H1 as -> -> ->.
  apply tx_bind_inv in H as (u & k2 & s2 & H2 & H).
  apply execute_inv in H2. injection H2 as -> -> ->.
  apply tx_bind_inv in H as (rows & k3 & s3 & H3 & H).
  apply execute_inv in H3. injection H3 as -> -> ->.
  apply tx_bind_inv in H as (u & k4 & s4 & H4 & H).
  destruct (negb (_ =? 1)) eqn:Hrows; [by apply tx_raise_inv in H4|].
  apply negb_false_iff, Z.eqb_eq in Hrows.
  apply tx_ret_inv in H4. injection H4 as -> -> ->.
  apply tx_ret_inv in H. subst r. cbn [fst snd] in *.
  split; [|reflexivity].
  apply (f_equal Z.to_nat) in Hrows. by rewrite Nat2Z.id in Hrows.
Qed.

Lemma process_run_to_failure_success bfm_no technician completion_date
    total_hours notes flt k s r :
  process_run_to_failure_pm bfm_no technician completion_date total_hours notes
    flt k s = Ok r ->
  length (equipment_with bfm_no s) = 1%nat
  /\ r.2.2
     = (update_equipment bfm_no set_run_to_failure
          (insert_run_to_failure
             (mk_run_to_failure bfm_no (equipment_info bfm_no s).1
                (equipment_info bfm_no s).2 technician completion_date
                total_hours notes) s).2).2.
Proof.
  unfold process_run_to_failure_pm. intros H.
  apply tx_bind_inv in H as (info & k1 & s1 & H1 & H).
  apply execute_inv in H1. injection H1 as -> -> ->.
  apply tx_bind_inv in H as (u & k2 & s2 & H2 & H).
  apply execute_inv in H2. injection H2 as -> -> ->.
  apply tx_bind_inv in H as (rows & k3 & s3 & H3 & H).
  apply execute_inv in H3. injection H3 as -> -> ->.
  apply tx_bind_inv in H as (u & k4 & s4 & H4 & H).
  destruct (negb (_ =? 1)) eqn:Hrows; [by apply tx_raise_inv in H4|].
  apply negb_false_iff, Z.eqb_eq in Hrows.
  apply tx_ret_inv in H4. injection H4 as -> -> ->.
  apply tx_ret_inv in H. subst r. cbn [fst snd] in *.
  split; [|reflexivity].
  apply (f_equal Z.to_nat) in Hrows. by rewrite Nat2Z.id in Hrows.
Qed.

Lemma normal_update_bfm pm_type completion_date next_annual e :
  bfm_equipment_no (normal_update pm_type completion_date next_annual e)
  = bfm_equipment_no e.
Proof. unfold normal_update. by repeat case_match. Qed.

Lemma last_pm_field_normal_update pm_type completion_date next_annual e :
  is_normal_pm pm_type = true ->
  last_pm_field pm_type (normal_update pm_type completion_date next_annual e)
  = Some completion_date.
Proof.
  unfold is_normal_pm, last_pm_field, normal_update.
  destruct (String.eqb pm_type "Monthly"); [by case_match|].
  destruct (String.eqb pm_type "Six Month"); [done|].
  by destruct (String.eqb pm_type "Annual").
Qed.

Lemma filter_map_update bfm_no (f : equipment_row -> equipment_row) l :
  (forall e, bfm_equipment_no (f e) = bfm_equipment_no e) ->
  List.filter (fun e => String.eqb (bfm_equipment_no e) bfm_no)
    (map (fun e => if String.eqb (bfm_equipment_no e) bfm_no then f e else e) l)
  = map f (List.filter (fun e => String.eqb (bfm_equipment_no e) bfm_no) l).
Proof.
  intros Hf. induction l as [|e l IH]; [done|]. cbn [map List.filter].
  destruct (String.eqb (bfm_equipment_no e) bfm_no) eqn:He.
  - rewrite Hf, He. cbn [map]. by rewrite IH.
  - by rewrite He.
Qed.

End Processors.

(** ** The submission as a whole *)

Section Submission.

Variable env : environment.
Variable form : completion_form.
Variable s : db.

Let bfm_no := Py.strip (completion_bfm_var form).
Let pm_type := pm_type_var form.
Let technician := completion_tech_var form.
Let pm_due_date := Py.strip (pm_due_date_var form).
Let completion_date :=
  if Py.truthy pm_due_date then pm_due_date
  else PyDate.strftime_ymd (today env).

Lemma submit_uncommitted :
  committed (result (submit_pm_completion env form s)) = false ->
  store (submit_pm_completion env form s) = s.
Proof.
  unfold submit_pm_completion.
  repeat case_match; cbn [result store committed]; done.
Qed.

Lemma submit_committed :
  committed (result (submit_pm_completion env form s)) = true ->
  exists next_annual k s',
    Py.truthy (completion_bfm_var form) = true
    /\ Py.truthy pm_type = true
    /\ Py.truthy technician = true
    /\ (valid (validate_pm_completion s bfm_no pm_type technician completion_date)
        = true \/ proceed_anyway env = true)
    /\ auto_next_annual env bfm_no pm_type completion_date
         (Py.strip (next_annual_pm_var form)) = Ok next_annual
    /\ failing env 0%nat = false
    /\ attempt
         (process_pm bfm_no pm_type technician completion_date
            (labor_hours_var form) (labor_minutes_var form) pm_due_date
            (special_equipment_var form) (notes_text form) next_annual)
         (failing env) 1%nat s
       = Some (k, s')
    /\ failing env k = false
    /\ store (submit_pm_completion env form s) = s'
    /\ result (submit_pm_completion env form s)
       = (let v := verify_pm_completion_saved s' bfm_no pm_type technician
                     completion_date in
          if verified v then Verified else SavedUnverified v).
Proof.
  unfold submit_pm_completion.
  fold bfm_no pm_type technician pm_due_date. fold completion_date.
  destruct (negb (Py.truthy (completion_bfm_var form))
            || negb (Py.truthy pm_type) || negb (Py.truthy technician)) eqn:Hreq;
    [discriminate|].
  apply orb_false_iff in Hreq as [Hreq H3]. apply orb_false_iff in Hreq as [H1 H2].
  apply negb_false_iff in H1, H2, H3.
  destruct (negb (valid _) && negb (proceed_anyway env)) eqn:Hgo; [discriminate|].
  destruct (auto_next_annual _ _ _ _ _) as [next|e]; [|discriminate].
  destruct (failing env 0%nat) eqn:Hbegin; [discriminate|].
  destruct (attempt _ _ _ _) as [[k s']|] eqn:Hatt; [|discriminate].
  destruct (failing env k) eqn:Hcommit; [discriminate|].
  intros _. exists next, k, s'.
  assert (valid (validate_pm_completion s bfm_no pm_type technician completion_date)
          = true \/ proceed_anyway env = true) as Hok.
  { apply andb_false_iff in Hgo as [Hgo|Hgo]; apply negb_false_iff in Hgo; auto. }
  cbv zeta. destruct (verified _); cbn [store result]; repeat split; done.
Qed.

End Submission.

(** C3.  The completion transaction is atomic, whichever statements of
    it fail (BEGIN, any INSERT or UPDATE of the processor, COMMIT).  If
    the submission does not end in a committed outcome the database is
    exactly what it was.  If it does, the database and the outcome are
    those of the same submission on a storage without faults.  A
    committed normal completion has appended its completion record and
    set the last-PM date of the one equipment row to the completion
    date: neither is ever present without the other. *)
Theorem C3_completion_is_atomic env form s :
  let sub := submit_pm_completion env form s in
  let ideal := submit_pm_completion (without_faults env) form s in
  let bfm_no := Py.strip (completion_bfm_var form) in
  let pm_type := pm_type_var form in
  (committed (result sub) = false -> store sub = s)
  /\ (committed (result sub) = true ->
      store sub = store ideal /\ result sub = result ideal)
  /\ (committed (result sub) = true -> is_normal_pm pm_type = true ->
      exists row e completion_date,
        pm_completions (store sub) = pm_completions s ++ [row]
        /\ pc_bfm_equipment_no row = bfm_no
        /\ pc_pm_type row = pm_type
        /\ pc_completion_date row = completion_date
        /\ equipment_with bfm_no (store sub) = [e]
        /\ last_pm_field pm_type e = Some completion_date).
Proof.
  cbv zeta. split; [apply submit_uncommitted|]. split.
  - intros Hc.
    destruct (submit_committed env form s Hc)
      as (next & k & s' & H1 & H2 & H3 & Hgo & Hauto & Hbegin & Hatt & Hcommit
          & Hst & Hres).
    apply attempt_no_faults in Hatt; [|apply fault_monotone_process_pm].
    rewrite Hres, Hst. clear Hres Hst.
    unfold submit_pm_completion.
    cbn [without_faults today proceed_anyway failing str_hash random_offset].
    rewrite H1, H2, H3. cbn [negb orb].
    replace (negb (valid _) && negb (proceed_anyway env)) with false
      by (destruct Hgo as [-> | ->]; [done|by rewrite andb_false_r]).
    unfold auto_next_annual in *.
    cbn [without_faults today proceed_anyway failing str_hash random_offset].
    rewrite Hauto. cbn [no_faults]. rewrite Hatt. cbn [no_faults].
    by destruct (verified _).
  - intros Hc Hn.
    destruct (submit_committed env form s Hc)
      as (next & k & s' & H1 & H2 & H3 & Hgo & Hauto & Hbegin & Hatt & Hcommit
          & Hst & Hres).
    rewrite Hst. clear Hst Hres.
    unfold attempt in Hatt.
    destruct (process_pm _ _ _ _ _ _ _ _ _ _ _ _ _) as [[u st]|e] eqn:Hp;
      [|discriminate].
    injection Hatt as ->. unfold process_pm in Hp.
    assert (String.eqb (pm_type_var form) "CANNOT FIND" = false) as Hcf.
    { unfold is_normal_pm in Hn. apply String.eqb_neq. intros Heq.
      rewrite Heq in Hn. discriminate. }
    assert (String.eqb (pm_type_var form) "Run to Failure" = false) as Hrtf.
    { unfold is_normal_pm in Hn. apply String.eqb_neq. intros Heq.
      rewrite Heq in Hn. discriminate. }
    rewrite Hcf, Hrtf in Hp.
    apply process_normal_success in Hp as (ws & Hws & Hlen & Hst).
    cbn [snd] in Hst. specialize (Hlen Hn).
    destruct (equipment_with _ s) as [|e [|e' l]] eqn:Heq; try discriminate.
    eexists _, (normal_update _ _ _ e), _.
    subst s'. cbn [complete_schedule update_equipment insert_completion
      snd pm_completions equipment].
    split; [reflexivity|]. repeat split.
    + unfold equipment_with in *. cbn [equipment].
      rewrite filter_map_update by apply normal_update_bfm.
      by rewrite Heq.
    + by apply last_pm_field_normal_update.
Qed.

Lemma C3_atomic_witness :
  let e :=
    mk_equipment "E-0100" "Press" "Bay 1" true false true
      (Some "2025-01-01") None (Some "2024-06-01") (Some "2025-01-31") None
      (Some "2025-06-01") "Active" in
  let s := mk_db [e] [] [] [] [] in
  let form := mk_form "E-0100" "Monthly" "Jon Hymel" 1 30 "2025-02-01" "" "ok" "" in
  (* the UPDATE of the equipment row, statement 2, fails *)
  let env := mk_env (PyDate.mkdate 2025 2 3) true (fun _ => 0) 0 (Nat.eqb 2) in
  committed (result (submit_pm_completion env form s)) = false
  /\ store (submit_pm_completion env form s) = s
  /\ committed (result (submit_pm_completion (without_faults env) form s)) = true
  /\ exists row,
       pm_completions (store (submit_pm_completion (without_faults env) form s))
       = pm_completions s ++ [row].
Proof.
  intros e s form env.
  assert (committed (result (submit_pm_completion env form s)) = false) as H1
    by (vm_compute; reflexivity).
  assert (committed (result (submit_pm_completion (without_faults env) form s))
          = true) as H2 by (vm_compute; reflexivity).
  split; [exact H1|]. split.
  - destruct (C3_completion_is_atomic env form s) as (Hrollback & _).
    exact (Hrollback H1).
  - split; [exact H2|].
    destruct (C3_completion_is_atomic (without_faults env) form s)
      as (_ & _ & Hboth).
    destruct (Hboth H2 eq_refl) as (row & _ & _ & Hrow & _).
    exists row. exact Hrow.
Defined.

(** ** Completing against an unknown equipment number *)






(** Outside the five PM types the row count tested is that of the
    INSERT: a completion against an unknown equipment number is then
    committed. *)
Lemma unknown_equipment_other_pm_type :
  let s := mk_db [] [] [] [] [] in
  let form := mk_form "X-1" "Quarterly" "Jon Hymel" 1 30 "2025-02-01" "" "ok" "" in
  let env := mk_env (PyDate.mkdate 2025 2 3) true (fun _ => 0) 0 no_faults in
  result (submit_pm_completion env form s) = Verified
  /\ length (pm_completions (store (submit_pm_completion env form s))) = 1%nat.
Proof. vm_compute. split; reflexivity. Qed.

(** ** A generation that succeeded under faults *)

Section GenerationUnderFaults.

Lemma fault_monotone_assign week_start pm_assignments technician count :
  forall idx,
    fault_monotone
      (assign_to_technician week_start pm_assignments technician count idx).
Proof.
  induction count as [|n IH]; intros idx; cbn [assign_to_technician].
  - apply fault_monotone_ret.
  - destruct (pm_assignments !! idx) as [[[bfm_no pm_type] d]|]; [|apply IH].
    apply fault_monotone_bind; [apply fault_monotone_lift|intros ?].
    apply fault_monotone_bind; [apply fault_monotone_execute|intros ?].
    apply IH.
Qed.

Lemma fault_monotone_distribute week_start pm_assignments per extra roster :
  forall tech_index idx,
    fault_monotone
      (distribute week_start pm_assignments per extra roster tech_index idx).
Proof.
  induction roster as [|t rest IH]; intros tech_index idx; cbn [distribute].
  - apply fault_monotone_ret.
  - apply fault_monotone_bind; [apply fault_monotone_assign|intros ?]. apply IH.
Qed.

(** A generation that reports success has parsed its week, had a
    non-empty roster, and met no failing statement. *)
Lemma generate_weekly_assignments_inv flt today roster target week_start_var s
    total_pms s' :
  generate_weekly_assignments flt today roster target week_start_var s
  = Generated total_pms s' ->
  exists week_start,
    PyDate.strptime week_start_var "%Y-%m-%d" = Ok week_start
    /\ PyDate.toordinal week_start + 6 <= PyDate.MAXORDINAL
    /\ roster <> []
    /\ generate_weekly_assignments no_faults today roster target week_start_var s
       = Generated total_pms s'.
Proof.
  unfold generate_weekly_assignments.
  destruct (PyDate.strptime week_start_var "%Y-%m-%d") as [ws|e] eqn:Hparse;
    [|discriminate].
  cbn [mbind res_bind]. unfold PyDate.add_days.
  destruct ((1 <=? PyDate.toordinal ws + 6)
            && (PyDate.toordinal ws + 6 <=? PyDate.MAXORDINAL)) eqn:Hend;
    [|discriminate].
  apply andb_true_iff in Hend as [_ Hend]. apply Z.leb_le in Hend.
  match goal with
  | |- context [?body flt 0%nat s] => set (block := body)
  end.
  assert (fault_monotone block) as Hmono.
  { unfold block.
    repeat first
      [ apply fault_monotone_bind; [|intros ?]
      | apply fault_monotone_if
      | apply fault_monotone_distribute
      | apply fault_monotone_execute
      | apply fault_monotone_ret
      | apply fault_monotone_raise ]. }
  destruct (block flt 0%nat s) as [[T [k st]]|e] eqn:Hrun; [|discriminate].
  intros [= <- <-]. apply Hmono in Hrun.
  exists ws. repeat split; try done.
  - intros ->. unfold block in Hrun.
    erewrite tx_bind_ok in Hrun; [|apply execute_no_faults].
    erewrite tx_bind_ok in Hrun; [|apply execute_no_faults].
    cbn in Hrun. discriminate.
  - by rewrite Hrun.
Qed.

Lemma generate_equipment flt today roster target week_start_var s total_pms s' :
  generate_weekly_assignments flt today roster target week_start_var s
  = Generated total_pms s' ->
  equipment s' = equipment s.
Proof.
  intros H. apply generate_weekly_assignments_inv in H
    as (ws & Hparse & Hend & Hne & H).
  rewrite (generate_weekly_assignments_ok today roster target week_start_var ws s
             Hne Hparse Hend) in H.
  by injection H as _ <-.
Qed.

(** Every entry of a generated week is for an Active equipment row. *)
Lemma generated_entries_active flt today roster target week_start_var s
    total_pms s' week_start r :
  generate_weekly_assignments flt today roster target week_start_var s
  = Generated total_pms s' ->
  PyDate.strptime week_start_var "%Y-%m-%d" = Ok week_start ->
  In r (week_entries (PyDate.strftime_ymd week_start) s') ->
  exists e, In e (equipment s) /\ status e = "Active"
            /\ bfm_equipment_no e = ws_bfm_equipment_no r
            /\ assigned_pm today e = Some (ws_pm_type r).
Proof.
  intros H Hparse' Hin. apply generate_weekly_assignments_inv in H
    as (ws & Hparse & Hend & Hne & H).
  rewrite Hparse in Hparse'. injection Hparse' as <-.
  rewrite (generate_weekly_assignments_ok today roster target week_start_var ws s
             Hne Hparse Hend) in H.
  injection H as _ <-. unfold other_weeks in Hin.
  rewrite week_entries_generated in Hin
    by (intros r' Hr'; by apply planned_inv in Hr' as (? & _)).
  apply (in_map (fun r => (ws_bfm_equipment_no r, ws_pm_type r))) in Hin.
  rewrite planned_keys, drop_0 in Hin.
  apply in_map_iff in Hin as (a & Ha & Hin). apply In_take in Hin.
  apply collect_assignments_sound in Hin as (e & He & Hae & Hpm).
  apply active_equipment_In in He as [He Hst].
  injection Ha as Hb Hp. exists e. repeat split; try done.
  - rewrite <- Hb, Hae. done.
  - by rewrite <- Hp.
Qed.

End GenerationUnderFaults.

(** ** What a submission does to the equipment table *)

Section EquipmentUpdates.

Lemma map_update_id bfm_no (l : list equipment_row) :
  map (fun e => if String.eqb (bfm_equipment_no e) bfm_no then e else e) l = l.
Proof. induction l as [|e l IH]; [done|]. cbn [map]. rewrite IH. by case_match. Qed.

(** Whatever its outcome, a submission maps the equipment table row by
    row: the rows of the reported number through the update of the PM
    type when it commits, through nothing otherwise. *)
Lemma submit_equipment_update env form s :
  let bfm_no := Py.strip (completion_bfm_var form) in
  let pm_type := pm_type_var form in
  let pm_due_date := Py.strip (pm_due_date_var form) in
  let completion_date :=
    if Py.truthy pm_due_date then pm_due_date
    else PyDate.strftime_ymd (today env) in
  exists upd,
    equipment (store (submit_pm_completion env form s))
    = map (fun e => if String.eqb (bfm_equipment_no e) bfm_no then upd e else e)
        (equipment s)
    /\ (upd = (fun e => e)
        \/ (pm_type = "CANNOT FIND" /\ upd = set_missing)
        \/ (pm_type = "Run to Failure" /\ upd = set_run_to_failure)
        \/ (pm_type <> "CANNOT FIND" /\ pm_type <> "Run to Failure"
            /\ exists next_annual,
                auto_next_annual env bfm_no pm_type completion_date
                  (Py.strip (next_annual_pm_var form)) = Ok next_annual
                /\ upd = normal_update pm_type completion_date next_annual)).
Proof.
  cbv zeta.
  destruct (committed (result (submit_pm_completion env form s))) eqn:Hc.
  2: { exists (fun e => e). rewrite (submit_uncommitted env form s Hc).
       by rewrite map_update_id; auto. }
  destruct (submit_committed env form s Hc)
    as (next & k & s' & _ & _ & _ & _ & Hauto & _ & Hatt & _ & -> & _).
  unfold attempt in Hatt.
  destruct (process_pm _ _ _ _ _ _ _ _ _ _ _ _ _) as [[u st]|e] eqn:Hp;
    [|discriminate].
  injection Hatt as ->. unfold process_pm in Hp.
  destruct (String.eqb (pm_type_var form) "CANNOT FIND") eqn:Hcf.
  { apply String.eqb_eq in Hcf.
    apply process_cannot_find_success in Hp as [_ Hst]. cbn [snd] in Hst.
    exists set_missing. rewrite Hst. split; [reflexivity|auto]. }
  destruct (String.eqb (pm_type_var form) "Run to Failure") eqn:Hrtf.
  { apply String.eqb_eq in Hrtf.
    apply process_run_to_failure_success in Hp as [_ Hst]. cbn [snd] in Hst.
    exists set_run_to_failure. rewrite Hst. split; [reflexivity|auto]. }
  apply String.eqb_neq in Hcf, Hrtf.
  apply process_normal_success in Hp as (ws & _ & _ & Hst). cbn [snd] in Hst.
  eexists. rewrite Hst. split; [reflexivity|].
  right. right. right. eauto.
Qed.

Lemma normal_update_status pm_type completion_date next_annual e :
  status (normal_update pm_type completion_date next_annual e) = status e.
Proof. unfold normal_update. by repeat case_match. Qed.

(** A submission never makes an equipment row Active. *)
Lemma submit_not_active env form s bfm_no :
  not_active bfm_no s ->
  not_active bfm_no (store (submit_pm_completion env form s)).
Proof.
  intros Hna e' Hin Hb.
  destruct (submit_equipment_update env form s) as (upd & Heq & Hupd).
  rewrite Heq in Hin. apply in_map_iff in Hin as (e & He' & Hin).
  destruct (String.eqb (bfm_equipment_no e) _) eqn:Hmatch.
  2: { subst e'. by apply Hna. }
  destruct Hupd as [-> | [[_ ->] | [[_ ->] | (_ & _ & next & _ & ->)]]];
    subst e'.
  - by apply Hna.
  - done.
  - done.
  - rewrite normal_update_status. rewrite normal_update_bfm in Hb. by apply Hna.
Qed.

Lemma engine_step_not_active bfm_no s s' :
  engine_step s s' -> not_active bfm_no s -> not_active bfm_no s'.
Proof.
  intros Hstep Hna. destruct Hstep as [env form s | flt t r tg w s T s' Hgen].
  - by apply submit_not_active.
  - unfold not_active. by rewrite (generate_equipment _ _ _ _ _ _ _ _ Hgen).
Qed.

Lemma reachable_not_active bfm_no s s' :
  rtc engine_step s s' -> not_active bfm_no s -> not_active bfm_no s'.
Proof.
  induction 1 as [|s1 s2 s3 Hstep _ IH]; [done|].
  intros Hna. apply IH. by eapply engine_step_not_active.
Qed.

End EquipmentUpdates.

(** ** Run to Failure *)

Section RunToFailure.

Lemma execute_ok {A} (stmt : db -> A * db) flt k s :
  flt k = false ->
  execute stmt flt k s = Ok ((stmt s).1, (S k, (stmt s).2)).
Proof. intros H. unfold execute. rewrite H. by destruct (stmt s). Qed.

Lemma process_run_to_failure_runs bfm_no technician completion_date total_hours
    notes flt k s :
  (forall k, flt k = false) ->
  length (equipment_with bfm_no s) = 1%nat ->
  process_run_to_failure_pm bfm_no technician completion_date total_hours notes
    flt k s
  = Ok (tt,
        (S (S (S k)),
         (update_equipment bfm_no set_run_to_failure
            (insert_run_to_failure
               (mk_run_to_failure bfm_no (equipment_info bfm_no s).1
                  (equipment_info bfm_no s).2 technician completion_date
                  total_hours notes) s).2).2)).
Proof.
  intros Hflt Hlen. unfold process_run_to_failure_pm.
  erewrite tx_bind_ok; [|by apply execute_ok].
  erewrite tx_bind_ok; [|by apply execute_ok].
  erewrite tx_bind_ok; [|by apply execute_ok].
  cbn [fst snd update_equipment insert_run_to_failure].
  unfold equipment_with in *. cbn [equipment]. rewrite Hlen.
  reflexivity.
Qed.

Lemma run_to_failure_submission env form s :
  let bfm_no := Py.strip (completion_bfm_var form) in
  let technician := completion_tech_var form in
  let pm_due_date := Py.strip (pm_due_date_var form) in
  let completion_date :=
    if Py.truthy pm_due_date then pm_due_date
    else PyDate.strftime_ymd (today env) in
  pm_type_var form = "Run to Failure" ->
  Py.truthy (completion_bfm_var form) = true ->
  Py.truthy technician = true ->
  length (equipment_with bfm_no s) = 1%nat ->
  valid (validate_pm_completion s bfm_no "Run to Failure" technician
           completion_date) = true
  \/ proceed_anyway env = true ->
  (forall k, failing env k = false) ->
  committed (result (submit_pm_completion env form s)) = true
  /\ store (submit_pm_completion env form s)
     = (update_equipment bfm_no set_run_to_failure
          (insert_run_to_failure
             (mk_run_to_failure bfm_no (equipment_info bfm_no s).1
                (equipment_info bfm_no s).2 technician completion_date
                (labor_hours_var form + labor_minutes_var form / 60)%Q
                (notes_text form)) s).2).2.
Proof.
  cbv zeta. intros Hpm Hb Ht Hlen Hgo Hflt.
  unfold submit_pm_completion. rewrite Hpm, Hb, Ht. cbn [Py.truthy negb orb].
  replace (negb (valid _) && negb (proceed_anyway env)) with false
    by (destruct Hgo as [-> | ->]; [done|by rewrite andb_false_r]).
  unfold auto_next_annual.
  replace (is_normal_pm "Run to Failure") with false by reflexivity.
  rewrite andb_false_r, String.eqb_refl, Hflt.
  unfold attempt, process_pm.
  replace (String.eqb "Run to Failure" "CANNOT FIND") with false by reflexivity.
  rewrite String.eqb_refl.
  rewrite process_run_to_failure_runs by done. rewrite Hflt.
  by destruct (verified _).
Qed.

End RunToFailure.

(** C9.  A Run to Failure report that goes through (the equipment
    number designates one row, the report is valid or the user proceeds,
    no statement fails) is committed: it appends the run-to-failure
    record, sets the status of the row to "Run to Failure" and clears
    its three PM flags.  From then on, through any sequence of
    submissions and weekly generations, no generated week contains an
    entry for that equipment. *)
Theorem C9_run_to_failure_leaves_schedule env form s :
  let bfm_no := Py.strip (completion_bfm_var form) in
  let technician := completion_tech_var form in
  let pm_due_date := Py.strip (pm_due_date_var form) in
  let completion_date :=
    if Py.truthy pm_due_date then pm_due_date
    else PyDate.strftime_ymd (today env) in
  let sub := submit_pm_completion env form s in
  pm_type_var form = "Run to Failure" ->
  Py.truthy (completion_bfm_var form) = true ->
  Py.truthy technician = true ->
  length (equipment_with bfm_no s) = 1%nat ->
  valid (validate_pm_completion s bfm_no "Run to Failure" technician
           completion_date) = true
  \/ proceed_anyway env = true ->
  (forall k, failing env k = false) ->
  committed (result sub) = true
  /\ run_to_failure_assets (store sub)
     = run_to_failure_assets s
       ++ [mk_run_to_failure bfm_no (equipment_info bfm_no s).1
             (equipment_info bfm_no s).2 technician completion_date
             (labor_hours_var form + labor_minutes_var form / 60)%Q
             (notes_text form)]
  /\ (exists e, In e (equipment (store sub)) /\ bfm_equipment_no e = bfm_no)
  /\ (forall e,
        In e (equipment (store sub)) -> bfm_equipment_no e = bfm_no ->
        status e = "Run to Failure" /\ monthly_pm e = false
        /\ six_month_pm e = false /\ annual_pm e = false)
  /\ (forall s2,
        rtc engine_step (store sub) s2 ->
        forall flt today roster target week_start_var total_pms s3 week_start r,
          generate_weekly_assignments flt today roster target week_start_var s2
          = Generated total_pms s3 ->
          PyDate.strptime week_start_var "%Y-%m-%d" = Ok week_start ->
          In r (week_entries (PyDate.strftime_ymd week_start) s3) ->
          ws_bfm_equipment_no r <> bfm_no).
Proof.
  cbv zeta. intros Hpm Hb Ht Hlen Hgo Hflt.
  destruct (run_to_failure_submission env form s Hpm Hb Ht Hlen Hgo Hflt)
    as [Hc Hst].
  rewrite Hst. cbn [update_equipment insert_run_to_failure snd
    run_to_failure_assets equipment].
  assert (forall e,
             In e (map (fun e =>
                          if String.eqb (bfm_equipment_no e)
                               (Py.strip (completion_bfm_var form))
                          then set_run_to_failure e else e) (equipment s)) ->
             bfm_equipment_no e = Py.strip (completion_bfm_var form) ->
             status e = "Run to Failure" /\ monthly_pm e = false
             /\ six_month_pm e = false /\ annual_pm e = false) as Hrows.
  { intros e' Hin Hbfm. apply in_map_iff in Hin as (e & He' & Hin).
    destruct (String.eqb (bfm_equipment_no e) _) eqn:Hmatch; subst e'; [done|].
    apply String.eqb_neq in Hmatch. done. }
  split; [done|]. split; [done|]. split; [|split; [exact Hrows|]].
  - destruct (equipment_with _ s) as [|e l] eqn:Heq; [discriminate|].
    assert (In e (equipment_with (Py.strip (completion_bfm_var form)) s)) as Hin
      by (rewrite Heq; by left).
    apply filter_In in Hin as [Hin Hmatch].
    exists (set_run_to_failure e). split.
    + apply in_map_iff. exists e. by rewrite Hmatch.
    + by apply String.eqb_eq in Hmatch.
  - intros s2 Hreach flt today roster target wsv T s3 ws r Hgen Hparse Hin Hbfm.
    destruct (generated_entries_active _ _ _ _ _ _ _ _ _ _ Hgen Hparse Hin)
      as (e & He & Hactive & Hbe & _).
    assert (not_active (Py.strip (completion_bfm_var form)) s2) as Hna.
    { eapply reachable_not_active; [exact Hreach|].
      intros e' He' Hb'.
      cbn [update_equipment insert_run_to_failure snd equipment] in He'.
      destruct (Hrows e' He' Hb') as [-> _]. done. }
    apply (Hna e He); congruence.
Qed.

Lemma C9_run_to_failure_witness :
  let e1 :=
    mk_equipment "E-0100" "Press" "Bay 1" true false true
      None None None None None None "Active" in
  let e2 :=
    mk_equipment "E-0200" "Lathe" "Bay 2" true false false
      None None None None None None "Active" in
  let s := mk_db [e1; e2] [] [] [] [] in
  let form :=
    mk_form "E-0100" "Run to Failure" "Jon Hymel" 1 30 "2025-02-01" "" "worn" "" in
  let env := mk_env (PyDate.mkdate 2025 2 3) true (fun _ => 0) 0 no_faults in
  let s1 := store (submit_pm_completion env form s) in
  pm_type_var form = "Run to Failure"
  /\ length (equipment_with "E-0100" s) = 1%nat
  /\ committed (result (submit_pm_completion env form s)) = true
  /\ (forall total_pms s3 r,
        generate_weekly_assignments no_faults (PyDate.mkdate 2025 2 10)
          technicians weekly_pm_target "2025-02-10" s1
        = Generated total_pms s3 ->
        In r (week_entries "2025-02-10" s3) ->
        ws_bfm_equipment_no r <> "E-0100")
  /\ exists s3,
       generate_weekly_assignments no_faults (PyDate.mkdate 2025 2 10)
         technicians weekly_pm_target "2025-02-10" s1
       = Generated 1 s3
       /\ map ws_bfm_equipment_no (week_entries "2025-02-10" s3) = ["E-0200"].
Proof.
  intros e1 e2 s form env s1.
  assert (pm_type_var form = "Run to Failure") as H1 by reflexivity.
  assert (Py.truthy (completion_bfm_var form) = true) as H2 by reflexivity.
  assert (Py.truthy (completion_tech_var form) = true) as H3 by reflexivity.
  assert (length (equipment_with (Py.strip (completion_bfm_var form)) s) = 1%nat)
    as H4 by reflexivity.
  assert (proceed_anyway env = true) as H5 by reflexivity.
  assert (forall k, failing env k = false) as H6 by (intros k; reflexivity).
  destruct (C9_run_to_failure_leaves_schedule env form s H1 H2 H3 H4
              (or_intror H5) H6) as (Hc & _ & _ & _ & Hnever).
  split; [exact H1|]. split; [exact H4|]. split; [exact Hc|]. split.
  - intros T s3 r Hgen Hin.
    exact (Hnever s1 (rtc_refl _ _) no_faults (PyDate.mkdate 2025 2 10)
             technicians weekly_pm_target "2025-02-10" T s3
             (PyDate.mkdate 2025 2 10) r Hgen eq_refl Hin).
  - eexists. split; vm_compute; reflexivity.
Defined.

(** ** The three cycles *)

Section Cycles.

Lemma map_field_update {B} (field : equipment_row -> B) bfm_no upd l :
  (forall e, field (upd e) = field e) ->
  map field
    (map (fun e => if String.eqb (bfm_equipment_no e) bfm_no then upd e else e) l)
  = map field l.
Proof.
  intros H. rewrite map_map. apply map_ext. intros e. by case_match.
Qed.

Lemma completion_dt_total completion_date today :
  exists d,
    except_ValueError (PyDate.strptime completion_date "%Y-%m-%d") (Ok today)
    = Ok d.
Proof.
  destruct (PyDate.strptime completion_date "%Y-%m-%d") as [d|e] eqn:H;
    [by exists d|].
  apply strptime_raises in H as ->. by exists today.
Qed.

Lemma auto_next_annual_not_annual env bfm_no pm_type completion_date next r :
  pm_type <> "Annual" ->
  auto_next_annual env bfm_no pm_type completion_date next = Ok r -> r = next.
Proof.
  intros Hne. unfold auto_next_annual. apply String.eqb_neq in Hne.
  case_match; [|by intros [= <-]].
  destruct (completion_dt_total completion_date (today env)) as [d ->].
  cbn [mbind res_bind]. rewrite Hne. by intros [= <-].
Qed.

(** What a submission leaves alone, by PM type: a Six Month completion,
    the Monthly and Annual dates; an Annual completion, the Monthly and
    Six Month dates; a Monthly completion, the Six Month dates and the
    last Annual date, and the next Annual date too when the "Next Annual
    PM Date" field of the form is blank. *)
Lemma completion_cycles_frame env form s :
  let pm_type := pm_type_var form in
  let before := equipment s in
  let after := equipment (store (submit_pm_completion env form s)) in
  (pm_type = "Six Month" ->
     map last_monthly_pm after = map last_monthly_pm before
     /\ map next_monthly_pm after = map next_monthly_pm before
     /\ map last_annual_pm after = map last_annual_pm before
     /\ map next_annual_pm after = map next_annual_pm before)
  /\ (pm_type = "Annual" ->
     map last_monthly_pm after = map last_monthly_pm before
     /\ map next_monthly_pm after = map next_monthly_pm before
     /\ map last_six_month_pm after = map last_six_month_pm before
     /\ map next_six_month_pm after = map next_six_month_pm before)
  /\ (pm_type = "Monthly" ->
     map last_six_month_pm after = map last_six_month_pm before
     /\ map next_six_month_pm after = map next_six_month_pm before
     /\ map last_annual_pm after = map last_annual_pm before
     /\ (Py.strip (next_annual_pm_var form) = "" ->
         map next_annual_pm after = map next_annual_pm before)).
Proof.
  cbv zeta.
  destruct (submit_equipment_update env form s) as (upd & -> & Hupd).
  assert (pm_type_var form = "Six Month" ->
          forall e,
            last_monthly_pm (upd e) = last_monthly_pm e
            /\ next_monthly_pm (upd e) = next_monthly_pm e
            /\ last_annual_pm (upd e) = last_annual_pm e
            /\ next_annual_pm (upd e) = next_annual_pm e) as Hsix.
  { intros Hpm e.
    destruct Hupd as [-> | [[? ->] | [[? ->] | (? & ? & next & Hnext & ->)]]];
      try done. by rewrite Hpm. }
  assert (pm_type_var form = "Annual" ->
          forall e,
            last_monthly_pm (upd e) = last_monthly_pm e
            /\ next_monthly_pm (upd e) = next_monthly_pm e
            /\ last_six_month_pm (upd e) = last_six_month_pm e
            /\ next_six_month_pm (upd e) = next_six_month_pm e) as Hannual.
  { intros Hpm e.
    destruct Hupd as [-> | [[? ->] | [[? ->] | (? & ? & next & Hnext & ->)]]];
      try done. by rewrite Hpm. }
  assert (pm_type_var form = "Monthly" ->
          forall e,
            last_six_month_pm (upd e) = last_six_month_pm e
            /\ next_six_month_pm (upd e) = next_six_month_pm e
            /\ last_annual_pm (upd e) = last_annual_pm e
            /\ (Py.strip (next_annual_pm_var form) = "" ->
                next_annual_pm (upd e) = next_annual_pm e)) as Hmonthly.
  { intros Hpm e.
    destruct Hupd as [-> | [[? ->] | [[? ->] | (? & ? & next & Hnext & ->)]]];
      try done.
    rewrite Hpm in *. unfold normal_update. cbn [String.eqb Ascii.eqb Bool.eqb].
    repeat split; try by destruct (Py.truthy next).
    intros Hblank. apply auto_next_annual_not_annual in Hnext; [|done].
    rewrite Hblank in Hnext. by subst next. }
  split; [|split]; intros Hpm; repeat split; try intros Hblank;
    apply map_field_update; intros e.
  - apply (Hsix Hpm e).
  - apply (Hsix Hpm e).
  - apply (Hsix Hpm e).
  - apply (Hsix Hpm e).
  - apply (Hannual Hpm e).
  - apply (Hannual Hpm e).
  - apply (Hannual Hpm e).
  - apply (Hannual Hpm e).
  - apply (Hmonthly Hpm e).
  - apply (Hmonthly Hpm e).
  - apply (Hmonthly Hpm e).
  - by apply (Hmonthly Hpm e).
Qed.

End Cycles.

(** C2, at the input where the program departs from it.  A Monthly
    completion submitted while the "Next Annual PM Date" field of the
    form holds a date writes that date into [next_annual_pm] of the
    equipment.  The field may hold a date the user never typed: an
    Annual submission that is rolled back leaves its auto-calculated
    date in the form, and the Monthly submission that follows, here for
    another equipment, stores it. *)
Theorem C2_monthly_completion_overwrites_next_annual :
  let e1 :=
    mk_equipment "E-0100" "Press" "Bay 1" true false true
      (Some "2025-01-01") None (Some "2024-06-01") (Some "2025-01-31") None
      (Some "2025-06-01") "Active" in
  let s := mk_db [e1] [] [] [] [] in
  let env := mk_env (PyDate.mkdate 2025 2 3) true (fun _ => 0) 0 no_faults in
  let typed :=
    mk_form "E-0100" "Monthly" "Jon Hymel" 1 30 "2025-02-01" "" "ok" "2026-01-15" in
  let annual_unknown :=
    mk_form "E-0900" "Annual" "Jon Hymel" 1 30 "2025-02-01" "" "ok" "" in
  let left_over := form_after (submit_pm_completion env annual_unknown s) in
  let monthly_next :=
    mk_form "E-0100" "Monthly" "Jon Hymel" 1 30 "2025-02-01" "" "ok"
      (next_annual_pm_var left_over) in
  result (submit_pm_completion env typed s) = Verified
  /\ map next_annual_pm (equipment s) = [Some "2025-06-01"]
  /\ equipment (store (submit_pm_completion env typed s))
     = [ mk_equipment "E-0100" "Press" "Bay 1" true false true
           (Some "2025-02-01") None (Some "2024-06-01") (Some "2025-03-03") None
           (Some "2026-01-15") "Active" ]
  /\ result (submit_pm_completion env annual_unknown s) = RolledBack
  /\ next_annual_pm_var left_over = "2026-02-17"
  /\ result (submit_pm_completion env monthly_next s) = Verified
  /\ map next_annual_pm (equipment (store (submit_pm_completion env monthly_next s)))
     = [Some "2026-02-17"].
Proof. vm_compute. repeat split; reflexivity. Qed.

(** ** Validation *)

Section Validation.

Lemma make_date_bounds y m d r :
  PyDate.make_date y m d = Ok r ->
  r = PyDate.mkdate y m d /\ 1 <= y <= 9999 /\ 1 <= m <= 12
  /\ 1 <= d <= PyDate.days_in_month y m.
Proof.
  unfold PyDate.make_date, PyDate.MINYEAR, PyDate.MAXYEAR.
  case_match eqn:Hb; [|discriminate].
  intros [= <-]. repeat (apply andb_true_iff in Hb as [Hb ?]).
  rewrite ?Z.leb_le in *. split; [done|lia].
Qed.

Lemma day_of_year_bound y m d :
  1 <= m <= 12 -> d <= PyDate.days_in_month y m ->
  PyDate.days_before_month y m + d <= 365 + (if PyDate.is_leap y then 1 else 0).
Proof.
  intros Hm Hd.
  assert (m = 1 \/ m = 2 \/ m = 3 \/ m = 4 \/ m = 5 \/ m = 6 \/ m = 7
          \/ m = 8 \/ m = 9 \/ m = 10 \/ m = 11 \/ m = 12) as Hcases by lia.
  unfold PyDate.days_before_month, PyDate.days_in_month in *.
  repeat (destruct Hcases as [-> | Hcases];
          [match goal with
           | |- context [PyDate.DAYS_BEFORE_MONTH ?k] =>
               let v := eval vm_compute in (PyDate.DAYS_BEFORE_MONTH k) in
               change (PyDate.DAYS_BEFORE_MONTH k) with v
           end;
           cbn in *; destruct (PyDate.is_leap y); lia|]).
  subst m. change (PyDate.DAYS_BEFORE_MONTH 12) with 334.
  cbn in *. destruct (PyDate.is_leap y); lia.
Qed.

Lemma toordinal_max y m d r :
  PyDate.make_date y m d = Ok r -> PyDate.toordinal r <= PyDate.MAXORDINAL.
Proof.
  intros H. apply make_date_bounds in H as (-> & Hy & Hm & Hd).
  unfold PyDate.toordinal, PyDate.ymd2ord, PyDate.MAXORDINAL. cbn [PyDate.year
    PyDate.month PyDate.day].
  pose proof (day_of_year_bound y m d Hm (proj2 Hd)) as Hdoy.
  destruct (Z.eq_dec y 9999) as [-> | Hne].
  - change (PyDate.is_leap 9999) with false in Hdoy. cbv iota in Hdoy.
    change (PyDate.days_before_year 9999) with 3651694. lia.
  - assert (PyDate.days_before_year y <= 3651428).
    { unfold PyDate.days_before_year. cbv zeta.
      Z.to_euclidean_division_equations. lia. }
    destruct (PyDate.is_leap y); lia.
Qed.

Lemma strptime_toordinal_max data format r :
  PyDate.strptime data format = Ok r -> PyDate.toordinal r <= PyDate.MAXORDINAL.
Proof.
  unfold PyDate.strptime. repeat case_match; try discriminate.
  apply toordinal_max.
Qed.

Lemma get_week_start_ok d :
  1 <= PyDate.toordinal d <= PyDate.MAXORDINAL ->
  exists w, get_week_start d = Ok w.
Proof.
  intros Hd. unfold get_week_start, PyDate.add_days, PyDate.weekday.
  assert (0 <= (PyDate.toordinal d + 6) mod 7 <= PyDate.toordinal d - 1).
  { Z.to_euclidean_division_equations. lia. }
  case_match eqn:Hb; [eauto|].
  apply andb_false_iff in Hb as [Hb|Hb]; rewrite Z.leb_gt in Hb; lia.
Qed.

(** Check 4 raises only when the completion date does not parse. *)
Lemma week_start_of_ok completion_date d :
  PyDate.strptime completion_date "%Y-%m-%d" = Ok d ->
  exists w, week_start_of completion_date = Ok w.
Proof.
  intros H. unfold week_start_of. rewrite H. cbn [mbind res_bind].
  destruct (get_week_start_ok d) as [w ->]; [|by eauto].
  split; [by eapply strptime_toordinal|by eapply strptime_toordinal_max].
Qed.

Lemma validation_with_issue s bfm_no pm_type technician completion_date d
    issues1 :
  PyDate.strptime completion_date "%Y-%m-%d" = Ok d ->
  check_recent_duplicate s bfm_no pm_type completion_date = Ok issues1 ->
  exists issues,
    validate_pm_completion s bfm_no pm_type technician completion_date
    = (match issues with [] => ValidationPassed | _ => IssuesFound issues end)
    /\ (forall i, In i issues1 -> In i issues)
    /\ (forall i, In i (check_same_technician s bfm_no technician completion_date)
                  -> In i issues).
Proof.
  intros Hd H1. unfold validate_pm_completion, check_scheduled.
  destruct (week_start_of_ok _ _ Hd) as [w ->]. rewrite H1.
  cbn [mbind res_bind]. eexists. split; [reflexivity|]. split.
  - intros i Hi. apply in_or_app. by left.
  - intros i Hi. apply in_or_app. right. apply in_or_app. by left.
Qed.

End Validation.

(** C4 (as the program has it).  Validation compares the report with one
    record only: the completion of the same equipment and PM type whose
    date text is the greatest.  When the report is dated less than the
    minimum interval of the PM type (25 days Monthly, 150 Six Month, 300
    Annual) after that record, validation fails and its issues give the
    number of days, the minimum interval, and the date and technician of
    that record. *)
Theorem C4_duplicate_names_latest_completion s bfm_no pm_type technician
    completion_date recent last_date current_date :
  latest_completion bfm_no pm_type s = Some recent ->
  PyDate.strptime (pc_completion_date recent) "%Y-%m-%d" = Ok last_date ->
  PyDate.strptime completion_date "%Y-%m-%d" = Ok current_date ->
  PyDate.days_between current_date last_date < min_days pm_type ->
  (exists issues,
      validate_pm_completion s bfm_no pm_type technician completion_date
      = IssuesFound issues
      /\ In (DuplicateDetected pm_type bfm_no
               (PyDate.days_between current_date last_date)) issues
      /\ In (PreviousCompletion (pc_completion_date recent)
               (pc_technician_name recent)) issues
      /\ In (MinimumInterval pm_type (min_days pm_type)) issues)
  /\ valid (validate_pm_completion s bfm_no pm_type technician completion_date)
     = false
  /\ min_days "Monthly" = 25 /\ min_days "Six Month" = 150
  /\ min_days "Annual" = 300.
Proof.
  intros Hrecent Hlast Hcur Hdays.
  assert (check_recent_duplicate s bfm_no pm_type completion_date
          = Ok [ DuplicateDetected pm_type bfm_no
                   (PyDate.days_between current_date last_date);
                 PreviousCompletion (pc_completion_date recent)
                   (pc_technician_name recent);
                 MinimumInterval pm_type (min_days pm_type) ]) as H1.
  { unfold check_recent_duplicate. rewrite Hrecent, Hlast, Hcur.
    cbn [mbind res_bind except_ValueError].
    apply Z.ltb_lt in Hdays. by rewrite Hdays. }
  destruct (validation_with_issue s bfm_no pm_type technician completion_date
              current_date _ Hcur H1) as (issues & Hv & Hin & _).
  assert (exists i l, issues = i :: l) as (i & l & ->).
  { destruct issues as [|i l]; [|eauto].
    destruct (Hin _ (or_introl eq_refl)). }
  rewrite Hv. split; [|by repeat split].
  eexists. split; [reflexivity|].
  repeat split; apply Hin; cbn; auto.
Qed.

Lemma C4_duplicate_witness :
  let first :=
    mk_completion 1 "E-0100" "Monthly" "Jon Hymel" "2025-03-01" 1 0
      "2025-03-01" "" "" "" in
  let s :=
    mk_db
      [ mk_equipment "E-0100" "Press" "Bay 1" true false true
          (Some "2025-03-01") None None (Some "2025-03-31") None None "Active" ]
      [first] [] [] [] in
  latest_completion "E-0100" "Monthly" s = Some first
  /\ PyDate.days_between (PyDate.mkdate 2025 3 10) (PyDate.mkdate 2025 3 1)
     < min_days "Monthly"
  /\ exists issues,
       validate_pm_completion s "E-0100" "Monthly" "Wayne Dunnam" "2025-03-10"
       = IssuesFound issues
       /\ In (PreviousCompletion "2025-03-01" "Jon Hymel") issues.
Proof.
  intros first s.
  assert (latest_completion "E-0100" "Monthly" s = Some first) as H1
    by reflexivity.
  assert (PyDate.strptime (pc_completion_date first) "%Y-%m-%d"
          = Ok (PyDate.mkdate 2025 3 1)) as H2 by reflexivity.
  assert (PyDate.strptime "2025-03-10" "%Y-%m-%d" = Ok (PyDate.mkdate 2025 3 10))
    as H3 by reflexivity.
  assert (PyDate.days_between (PyDate.mkdate 2025 3 10) (PyDate.mkdate 2025 3 1)
          < min_days "Monthly") as H4 by (vm_compute; reflexivity).
  split; [exact H1|]. split; [exact H4|].
  destruct (C4_duplicate_names_latest_completion s "E-0100" "Monthly"
              "Wayne Dunnam" "2025-03-10" first _ _ H1 H2 H3 H4)
    as ((issues & Hv & _ & Hprev & _) & _).
  exists issues. split; [exact Hv|exact Hprev].
Defined.

(** Two Monthly reports for one equipment dated nine days apart, the
    first recorded, while a later-dated Monthly completion is on file.
    Validating the second report fails, but the record named is the
    later-dated one, not the first report. *)
Lemma C4_names_another_completion_counterexample :
  let later :=
    mk_completion 1 "E-0100" "Monthly" "Nick Whisenant" "2025-03-20" 1 0
      "2025-03-20" "" "" "" in
  let first :=
    mk_completion 2 "E-0100" "Monthly" "Jon Hymel" "2025-03-01" 1 0
      "2025-03-01" "" "" "" in
  let s :=
    mk_db
      [ mk_equipment "E-0100" "Press" "Bay 1" true false true
          (Some "2025-03-01") None None (Some "2025-03-31") None None "Active" ]
      [later; first] [] [] [] in
  PyDate.days_between (PyDate.mkdate 2025 3 10) (PyDate.mkdate 2025 3 1) = 9
  /\ validate_pm_completion s "E-0100" "Monthly" "Wayne Dunnam" "2025-03-10"
     = IssuesFound
         [ DuplicateDetected "Monthly" "E-0100" (-10);
           PreviousCompletion "2025-03-20" "Nick Whisenant";
           MinimumInterval "Monthly" 25;
           NoScheduledPM ]
  /\ ~ In (PreviousCompletion "2025-03-01" "Jon Hymel")
         [ DuplicateDetected "Monthly" "E-0100" (-10);
           PreviousCompletion "2025-03-20" "Nick Whisenant";
           MinimumInterval "Monthly" 25;
           NoScheduledPM ].
Proof.
  cbv zeta. split; [vm_compute; reflexivity|]. split; [vm_compute; reflexivity|].
  intros [H|[H|[H|[H|[]]]]]; discriminate.
Qed.




(** ** Worked examples *)

(** The example of the specification: equipment E-0100 with
    [last_monthly = 2025-01-01] and [last_annual = 2024-06-01]; a
    Monthly completion dated 2025-02-01 is recorded and verified, sets
    [last_monthly = 2025-02-01] and [next_monthly = 2025-03-03], and
    leaves the Annual dates alone. *)
Example monthly_completion_of_E0100 :
  let e :=
    mk_equipment "E-0100" "Press" "Bay 1" true false true
      (Some "2025-01-01") None (Some "2024-06-01") (Some "2025-01-31") None
      (Some "2025-06-01") "Active" in
  let env := mk_env (PyDate.mkdate 2025 2 3) true (fun _ => 0) 0 no_faults in
  let form := mk_form "E-0100" "Monthly" "Jon Hymel" 1 30 "2025-02-01" "" "ok" "" in
  let sub := submit_pm_completion env form (mk_db [e] [] [] [] []) in
  result sub = Verified
  /\ equipment (store sub)
     = [ mk_equipment "E-0100" "Press" "Bay 1" true false true
           (Some "2025-02-01") None (Some "2024-06-01") (Some "2025-03-03") None
           (Some "2025-06-01") "Active" ].
Proof. vm_compute. split; reflexivity. Qed.

(** An Annual completion stores the next Annual date with the
    equipment's offset in the completion record (100 mod 61 - 30 = 9
    days), and the plain date 365 days on in the equipment row. *)
Example annual_completion_of_E0100 :
  let e :=
    mk_equipment "E-0100" "Press" "Bay 1" true false true
      (Some "2025-01-01") None (Some "2024-06-01") (Some "2025-01-31") None
      (Some "2025-06-01") "Active" in
  let env := mk_env (PyDate.mkdate 2025 2 3) true (fun _ => 0) 0 no_faults in
  let form := mk_form "E-0100" "Annual" "Jon Hymel" 4 0 "2025-02-01" "" "ok" "" in
  let sub := submit_pm_completion env form (mk_db [e] [] [] [] []) in
  result sub = Verified
  /\ map pc_next_annual_pm_date (pm_completions (store sub)) = ["2026-02-10"]
  /\ map next_annual_pm (equipment (store sub)) = [Some "2026-02-01"].
Proof. vm_compute. repeat split; reflexivity. Qed.

(** A Run to Failure report that is committed is announced as "saved
    but verification failed": the verification looks for a row of
    [pm_completions], which this processor does not write. *)
Example run_to_failure_is_saved_unverified :
  let e :=
    mk_equipment "E-0100" "Press" "Bay 1" true false true
      None None None None None None "Active" in
  let env := mk_env (PyDate.mkdate 2025 2 3) true (fun _ => 0) 0 no_faults in
  let form :=
    mk_form "E-0100" "Run to Failure" "Jon Hymel" 1 30 "2025-02-01" "" "worn" "" in
  result (submit_pm_completion env form (mk_db [e] [] [] [] []))
  = SavedUnverified RecordNotFound.
Proof. vm_compute. reflexivity. Qed.

(** The cross-cycle thresholds of the program are those of the
    scheduling-time check: three days after a Monthly completion it
    blocks the Annual PM, ten days after an Annual completion the
    Monthly one. *)
Example cross_cycle_rules_of_the_scheduling_check :
  let today := PyDate.mkdate 2025 3 10 in
  let e :=
    mk_equipment "E-0100" "Press" "Bay 1" true false true
      None None None None None None "Active" in
  let monthly_done :=
    mk_completion 1 "E-0100" "Monthly" "Jon Hymel" "2025-03-07" 1 0
      "2025-03-07" "" "" "" in
  let annual_done :=
    mk_completion 1 "E-0100" "Annual" "Jon Hymel" "2025-02-28" 4 0
      "2025-02-28" "" "" "" in
  check_pm_scheduling_status_comprehensive today
    (mk_db [e] [monthly_done] [] [] []) "E-0100" "Annual" None 365
  = conflict_status (AnnualBlockedByMonthly 3 "Jon Hymel") None None
  /\ check_pm_scheduling_status_comprehensive today
       (mk_db [e] [annual_done] [] [] []) "E-0100" "Monthly" None 30
     = conflict_status (MonthlyBlockedByAnnual 10 "Jon Hymel") None None.
Proof. vm_compute. split; reflexivity. Qed.

(** Two-digit years follow [strptime]: 00-68 are 20xx, 69-99 are 19xx;
    the adjustment of years below 1950 only meets four-digit years. *)
Example two_digit_years :
  DateStandardizer.parse_date_flexible "1/2/68" = Ok (Some "2068-01-02")
  /\ DateStandardizer.parse_date_flexible "1/2/69" = Ok (Some "1969-01-02")
  /\ DateStandardizer.parse_date_flexible "01/02/0030" = Ok (Some "2030-01-02")
  /\ DateStandardizer.parse_date_flexible "02/29/0400" = Ok None.
Proof. vm_compute. repeat split; reflexivity. Qed.

(** The latest completion is the one with the greatest date text.  The
    form accepts the date "2025-1-1", which [strptime] reads, and the
    program stores it as typed; as text it is greater than "2025-03-20".
    With both Six Month completions recorded through the form, a third
    report dated 87 days after the one of March passes validation. *)
Example date_text_order_hides_a_recent_completion :
  let e :=
    mk_equipment "E-0100" "Press" "Bay 1" false true false
      None None None None None None "Active" in
  let env := mk_env (PyDate.mkdate 2025 6 16) true (fun _ => 0) 0 no_faults in
  let march :=
    mk_form "E-0100" "Six Month" "Jon Hymel" 2 0 "2025-03-20" "" "" "" in
  let january :=
    mk_form "E-0100" "Six Month" "Nick Whisenant" 2 0 "2025-1-1" "" "" "" in
  let s1 := store (submit_pm_completion env march (mk_db [e] [] [] [] [])) in
  let s2 := store (submit_pm_completion env january s1) in
  map pc_completion_date (pm_completions s2) = ["2025-03-20"; "2025-1-1"]
  /\ PyDate.days_between (PyDate.mkdate 2025 6 15) (PyDate.mkdate 2025 3 20) = 87
  /\ validate_pm_completion s2 "E-0100" "Six Month" "Wayne Dunnam" "2025-06-15"
     = ValidationPassed.
Proof. vm_compute. repeat split; reflexivity. Qed.

(** * Further properties of the engine *)

(** ** The proleptic Gregorian calendar *)

Lemma month_day_checked leapyear n :
  0 <= n <= 364 -> month_day_ok leapyear n = true.
Proof.
  intros Hn.
  assert (H : forallb (fun k => month_day_ok true (Z.of_nat k)
                                && month_day_ok false (Z.of_nat k)) (seq 0 365)
              = true) by (vm_compute; reflexivity).
  rewrite forallb_forall in H.
  specialize (H (Z.to_nat n)).
  rewrite Z2Nat.id in H by lia.
  assert (Hin : In (Z.to_nat n) (seq 0 365)) by (apply in_seq; lia).
  apply H in Hin. apply andb_prop in Hin as [H1 H2].
  destruct leapyear; assumption.
Qed.

Lemma ord2ymd_unfold n :
  PyDate.ord2ymd n
  = let n0 := n - 1 in
    let n400 := n0 / 146097 in
    let r1 := n0 mod 146097 in
    let n100 := r1 / 36524 in
    let r2 := r1 mod 36524 in
    let n4 := r2 / 1461 in
    let r3 := r2 mod 1461 in
    let n1 := r3 / 365 in
    let r4 := r3 mod 365 in
    let y := n400 * 400 + 1 + n100 * 100 + n4 * 4 + n1 in
    if (n1 =? 4) || (n100 =? 4) then PyDate.mkdate (y - 1) 12 31
    else
      let leapyear := (n1 =? 3) && (negb (n4 =? 24) || (n100 =? 3)) in
      PyDate.mkdate y (month_day leapyear r4).1 (month_day leapyear r4).2.
Proof.
  unfold PyDate.ord2ymd, month_day. cbv zeta.
  destruct (_ || _); [reflexivity|].
  destruct (_ <? _); reflexivity.
Qed.

Lemma is_leap_spec y :
  PyDate.is_leap y = true <-> (y mod 4 = 0 /\ (y mod 100 <> 0 \/ y mod 400 = 0)).
Proof.
  unfold PyDate.is_leap.
  rewrite andb_true_iff, orb_true_iff, negb_true_iff, !Z.eqb_eq, Z.eqb_neq.
  reflexivity.
Qed.

Lemma is_leap_of_parts a b c d :
  0 <= b <= 3 -> 0 <= c <= 24 -> 0 <= d <= 3 ->
  PyDate.is_leap (a * 400 + 1 + b * 100 + c * 4 + d)
  = (d =? 3) && (negb (c =? 24) || (b =? 3)).
Proof.
  intros Hb Hc Hd.
  set (y := a * 400 + 1 + b * 100 + c * 4 + d).
  assert (H4 : y mod 4 = (d + 1) mod 4).
  { replace y with (d + 1 + (a * 100 + b * 25 + c) * 4) by (subst y; ring).
    apply Z_mod_plus_full. }
  assert (H100 : y mod 100 = (c * 4 + d + 1) mod 100).
  { replace y with (c * 4 + d + 1 + (a * 4 + b) * 100) by (subst y; ring).
    apply Z_mod_plus_full. }
  assert (H400 : y mod 400 = (b * 100 + c * 4 + d + 1) mod 400).
  { replace y with (b * 100 + c * 4 + d + 1 + a * 400) by (subst y; ring).
    apply Z_mod_plus_full. }
  apply eq_true_iff_eq.
  rewrite is_leap_spec, H4, H100, H400.
  rewrite andb_true_iff, orb_true_iff, negb_true_iff, !Z.eqb_eq, Z.eqb_neq.
  clearbody y. clear H4 H100 H400.
  Z.to_euclidean_division_equations. lia.
Qed.

Lemma days_before_year_of_parts a b c d :
  0 <= b <= 3 -> 0 <= c <= 24 -> 0 <= d <= 3 ->
  PyDate.days_before_year (a * 400 + 1 + b * 100 + c * 4 + d)
  = 146097 * a + 36524 * b + 1461 * c + 365 * d.
Proof.
  intros Hb Hc Hd. unfold PyDate.days_before_year. cbv zeta.
  Z.to_euclidean_division_equations; lia.
Qed.

Lemma ord2ymd_spec n :
  1 <= n <= PyDate.MAXORDINAL ->
  let d := PyDate.ord2ymd n in
  PyDate.make_date (PyDate.year d) (PyDate.month d) (PyDate.day d) = Ok d
  /\ PyDate.toordinal d = n.
Proof.
  intros Hn. unfold PyDate.MAXORDINAL in Hn. cbv zeta.
  rewrite ord2ymd_unfold. cbv zeta.
  set (n0 := n - 1).
  set (n400 := n0 / 146097). set (r1 := n0 mod 146097).
  set (n100 := r1 / 36524). set (r2 := r1 mod 36524).
  set (n4 := r2 / 1461). set (r3 := r2 mod 1461).
  set (n1 := r3 / 365). set (r4 := r3 mod 365).
  assert (H0 : n0 = 146097 * n400 + r1 /\ 0 <= r1 < 146097 /\ 0 <= n400 <= 24)
    by (subst n400 r1 n0; Z.to_euclidean_division_equations; lia).
  assert (H1 : r1 = 36524 * n100 + r2 /\ 0 <= r2 < 36524 /\ 0 <= n100 <= 4)
    by (subst n100 r2; Z.to_euclidean_division_equations; lia).
  assert (H2 : r2 = 1461 * n4 + r3 /\ 0 <= r3 < 1461 /\ 0 <= n4 <= 24)
    by (subst n4 r3; Z.to_euclidean_division_equations; lia).
  assert (H3 : r3 = 365 * n1 + r4 /\ 0 <= r4 < 365 /\ 0 <= n1 <= 4)
    by (subst n1 r4; Z.to_euclidean_division_equations; lia).
  clearbody n400 r1 n100 r2 n4 r3 n1 r4. subst n0.
  destruct ((n1 =? 4) || (n100 =? 4)) eqn:Hlast.
  - (* the last day of a leap year *)
    apply orb_true_iff in Hlast. rewrite !Z.eqb_eq in Hlast.
    cbn [PyDate.year PyDate.month PyDate.day].
    assert (Hy : exists a b c,
               n400 * 400 + 1 + n100 * 100 + n4 * 4 + n1 - 1
               = a * 400 + 1 + b * 100 + c * 4 + 3
               /\ 0 <= a <= 24 /\ 0 <= b <= 3 /\ 0 <= c <= 24
               /\ (c = 24 -> b = 3)
               /\ n = 146097 * a + 36524 * b + 1461 * c + 365 * 3 + 366
               /\ a * 400 + 1 + b * 100 + c * 4 + 3 <= 9999).
    { destruct Hlast as [-> | ->].
      - destruct (Z.eq_dec n100 4) as [-> | ].
        + exists n400, 3, 24. lia.
        + exists n400, n100, n4. lia.
      - exists n400, 3, 24. lia. }
    destruct Hy as (a & b & c & -> & Ha & Hb & Hc & Hcb & -> & Hmax).
    assert (Hleap : PyDate.is_leap (a * 400 + 1 + b * 100 + c * 4 + 3) = true).
    { rewrite is_leap_of_parts by lia.
      destruct (Z.eq_dec c 24) as [Hc24|Hc24].
      - rewrite (Hcb Hc24). subst c. reflexivity.
      - apply Z.eqb_neq in Hc24. rewrite Hc24. reflexivity. }
    split.
    + unfold PyDate.make_date, PyDate.days_in_month, PyDate.MINYEAR, PyDate.MAXYEAR.
      cbn -[Z.mul Z.add].
      replace (1 <=? a * 400 + 1 + b * 100 + c * 4 + 3) with true
        by (symmetry; apply Z.leb_le; lia).
      replace (a * 400 + 1 + b * 100 + c * 4 + 3 <=? 9999) with true
        by (symmetry; apply Z.leb_le; lia).
      reflexivity.
    + unfold PyDate.toordinal, PyDate.ymd2ord, PyDate.days_before_month.
      cbn [PyDate.year PyDate.month PyDate.day].
      rewrite Hleap, days_before_year_of_parts by lia.
      change (PyDate.DAYS_BEFORE_MONTH 12) with 334.
      change ((2 <? 12) && true) with true. cbv iota. lia.
  - apply orb_false_iff in Hlast. rewrite !Z.eqb_neq in Hlast.
    destruct Hlast as [Hn1 Hn100].
    cbv zeta. cbn [PyDate.year PyDate.month PyDate.day].
    set (leapyear := (n1 =? 3) && (negb (n4 =? 24) || (n100 =? 3))).
    assert (Hleap : PyDate.is_leap (n400 * 400 + 1 + n100 * 100 + n4 * 4 + n1)
                    = leapyear)
      by (apply is_leap_of_parts; lia).
    pose proof (month_day_checked leapyear r4 ltac:(lia)) as Hmd.
    unfold month_day_ok in Hmd.
    destruct (month_day leapyear r4) as [m d] eqn:Emd.
    cbn [fst snd].
    rewrite !andb_true_iff, !Z.leb_le, Z.eqb_eq in Hmd.
    destruct Hmd as ((((Hm1 & Hm2) & Hd1) & Hd2) & Hsum).
    split.
    + unfold PyDate.make_date, PyDate.days_in_month, PyDate.MINYEAR, PyDate.MAXYEAR.
      rewrite Hleap.
      replace (1 <=? n400 * 400 + 1 + n100 * 100 + n4 * 4 + n1) with true
        by (symmetry; apply Z.leb_le; lia).
      replace (n400 * 400 + 1 + n100 * 100 + n4 * 4 + n1 <=? 9999) with true
        by (symmetry; apply Z.leb_le; lia).
      replace (1 <=? m) with true by (symmetry; apply Z.leb_le; lia).
      replace (m <=? 12) with true by (symmetry; apply Z.leb_le; lia).
      replace (1 <=? d) with true by (symmetry; apply Z.leb_le; lia).
      cbn [andb].
      match goal with |- (if ?c then _ else _) = _ =>
        replace c with true by (symmetry; apply Z.leb_le; exact Hd2) end.
      reflexivity.
    + unfold PyDate.toordinal, PyDate.ymd2ord, PyDate.days_before_month.
      cbn [PyDate.year PyDate.month PyDate.day].
      rewrite Hleap, days_before_year_of_parts by lia.
      lia.
Qed.

(** ** Digits, [strftime] and [strptime] *)

Lemma digit_char_spec n :
  Py.is_digit (Py.digit_char n) = true
  /\ Py.digit_val (Py.digit_char n) = n mod 10
  /\ Py.is_space (Py.digit_char n) = false.
Proof.
  unfold Py.digit_char.
  assert (H : 0 <= n mod 10 < 10) by (apply Z.mod_pos_bound; lia).
  set (k := n mod 10) in *. clearbody k.
  assert (Hk : k = 0 \/ k = 1 \/ k = 2 \/ k = 3 \/ k = 4 \/ k = 5 \/ k = 6
               \/ k = 7 \/ k = 8 \/ k = 9) by lia.
  repeat destruct Hk as [->|Hk]; try subst k; vm_compute; auto.
Qed.

Lemma is_digit_not_space c : Py.is_digit c = true -> Py.is_space c = false.
Proof.
  unfold Py.is_digit, Py.is_space.
  rewrite andb_true_iff, !Z.leb_le. intros [H1 H2].
  apply orb_false_iff. split; apply andb_false_iff.
  - right. apply Z.leb_gt. lia.
  - right. apply Z.leb_gt. lia.
Qed.

Lemma zero_pad_4 n :
  Py.zero_pad 4 n
  = [Py.digit_char (n / 10 / 10 / 10); Py.digit_char (n / 10 / 10);
     Py.digit_char (n / 10); Py.digit_char n].
Proof. reflexivity. Qed.

Lemma zero_pad_2 n : Py.zero_pad 2 n = [Py.digit_char (n / 10); Py.digit_char n].
Proof. reflexivity. Qed.

Lemma int_of_zero_pad_4 n :
  0 <= n <= 9999 -> Py.int_of_digits (Py.zero_pad 4 n) = n.
Proof.
  intros Hn. rewrite zero_pad_4. unfold Py.int_of_digits. cbn [fold_left].
  rewrite !(proj1 (proj2 (digit_char_spec _))).
  Z.to_euclidean_division_equations. lia.
Qed.

Lemma strftime_chars d :
  String.list_ascii_of_string (PyDate.strftime_ymd d)
  = Py.zero_pad 4 (PyDate.year d) ++ ["-"%char]
    ++ Py.zero_pad 2 (PyDate.month d) ++ ["-"%char]
    ++ Py.zero_pad 2 (PyDate.day d).
Proof. apply String.list_ascii_of_string_of_list_ascii. Qed.

Lemma is_iso_shape_strftime d :
  DateStandardizer.is_iso_shape (PyDate.strftime_ymd d) = true.
Proof.
  unfold DateStandardizer.is_iso_shape.
  rewrite strftime_chars, zero_pad_4, !zero_pad_2. cbn [app forallb].
  rewrite !(proj1 (digit_char_spec _)). reflexivity.
Qed.

(** A string of the shape [dddd-dd-dd] has no blank at either end. *)
Lemma strip_iso_shape c :
  DateStandardizer.is_iso_shape c = true -> Py.strip c = c.
Proof.
  unfold DateStandardizer.is_iso_shape, Py.strip.
  destruct (String.list_ascii_of_string c)
    as [|y1 [|y2 [|y3 [|y4 [|s1 [|m1 [|m2 [|s2 [|d1 [|d2 [|x l]]]]]]]]]]] eqn:E;
    try discriminate.
  cbn [forallb]. intros H.
  rewrite !andb_true_iff in H.
  assert (Hd2 : Py.is_digit d2 = true) by tauto.
  assert (Hy : Py.is_digit y1 = true) by tauto.
  cbn [Py.lstrip]. rewrite (is_digit_not_space _ Hy).
  cbn [rev app Py.lstrip]. rewrite (is_digit_not_space _ Hd2).
  cbn [rev app]. rewrite <- E. apply String.string_of_list_ascii_of_string.
Qed.

Lemma truthy_iso_shape c :
  DateStandardizer.is_iso_shape c = true -> Py.truthy c = true.
Proof. destruct c; [discriminate|reflexivity]. Qed.

(** The part of ['%Y-%m-%d'] after the year, on a zero-padded month
    and day. *)
Lemma match_month_day y m d :
  1 <= m <= 12 -> 1 <= d <= 31 ->
  exists more,
    PyDate.match_format
      [PyDate.D_lit "-"; PyDate.D_m; PyDate.D_lit "-"; PyDate.D_d]
      (["-"%char] ++ Py.zero_pad 2 m ++ ["-"%char] ++ Py.zero_pad 2 d)
      (y, 1, 1)
    = ((y, m, d), []) :: more.
Proof.
  intros Hm Hd.
  assert (Im : In m (map Z.of_nat (seq 1 12))) by (cbn; lia).
  assert (Id : In d (map Z.of_nat (seq 1 31))) by (cbn; lia).
  cbn in Im, Id.
  repeat (destruct Im as [<-|Im]; [|try contradiction]);
    repeat (destruct Id as [<-|Id]; [|try contradiction]);
    eexists; vm_compute; reflexivity.
Qed.

Lemma days_in_month_max y m : PyDate.days_in_month y m <= 31.
Proof. unfold PyDate.days_in_month. repeat case_match; lia. Qed.

Lemma match_format_Y f c1 c2 c3 c4 r acc :
  Py.is_digit c1 = true -> Py.is_digit c2 = true ->
  Py.is_digit c3 = true -> Py.is_digit c4 = true ->
  PyDate.match_format (PyDate.D_Y :: f) (c1 :: c2 :: c3 :: c4 :: r) acc
  = PyDate.match_format f r (Py.int_of_digits [c1; c2; c3; c4], acc.1.2, acc.2).
Proof.
  intros H1 H2 H3 H4. cbn [PyDate.match_format PyDate.re_Y].
  rewrite H1, H2, H3, H4. cbn [andb flat_map]. apply app_nil_r.
Qed.

Lemma strptime_strftime y m dd d :
  PyDate.make_date y m dd = Ok d ->
  PyDate.strptime (PyDate.strftime_ymd d) "%Y-%m-%d" = Ok d.
Proof.
  intros Hd.
  destruct (make_date_bounds _ _ _ _ Hd) as (-> & Hy & Hm & Hdd).
  pose proof (days_in_month_max y m) as Hmax.
  unfold PyDate.strptime.
  change (PyDate.compile_format (String.list_ascii_of_string "%Y-%m-%d"))
    with (Some [PyDate.D_Y; PyDate.D_lit "-"; PyDate.D_m; PyDate.D_lit "-";
                PyDate.D_d]).
  rewrite strftime_chars. cbn [PyDate.year PyDate.month PyDate.day].
  pose proof (int_of_zero_pad_4 y ltac:(lia)) as Hint.
  rewrite zero_pad_4 in *. cbn [app].
  rewrite match_format_Y by apply digit_char_spec.
  rewrite Hint.
  destruct (match_month_day y m dd Hm ltac:(lia)) as [more Hmore].
  cbn [app] in Hmore. cbn [fst snd]. rewrite Hmore.
  exact Hd.
Qed.

Lemma strptime_valid data format r :
  PyDate.strptime data format = Ok r ->
  PyDate.make_date (PyDate.year r) (PyDate.month r) (PyDate.day r) = Ok r.
Proof.
  unfold PyDate.strptime. intros H.
  repeat case_match; try discriminate.
  destruct (make_date_bounds _ _ _ _ H) as (-> & _). exact H.
Qed.

Lemma parse_date_flexible_iso c d :
  DateStandardizer.is_iso_shape c = true ->
  PyDate.strptime c "%Y-%m-%d" = Ok d ->
  DateStandardizer.parse_date_flexible c = Ok (Some c).
Proof.
  intros Hiso Hd. unfold DateStandardizer.parse_date_flexible.
  rewrite (strip_iso_shape _ Hiso), (truthy_iso_shape _ Hiso), Hiso, Hd.
  destruct c; [discriminate|]. reflexivity.
Qed.

Lemma try_format_canonical date_str date_format r :
  DateStandardizer.try_format date_str date_format = Ok r ->
  exists d,
    r = PyDate.strftime_ymd d
    /\ PyDate.make_date (PyDate.year d) (PyDate.month d) (PyDate.day d) = Ok d
    /\ 1950 <= PyDate.year d.
Proof.
  unfold DateStandardizer.try_format. intros H.
  destruct (PyDate.strptime date_str date_format) as [p|] eqn:Hp; [|discriminate].
  cbn [mbind res_bind] in H.
  pose proof (strptime_valid _ _ _ Hp) as Hv.
  destruct (PyDate.year p <? 1950) eqn:Hy.
  - apply Z.ltb_lt in Hy.
    destruct (PyDate.year p <? 50) eqn:Hy50;
      [apply Z.ltb_lt in Hy50|apply Z.ltb_ge in Hy50];
      unfold PyDate.replace_year in H;
      match type of H with context [PyDate.make_date ?y ?m ?d] =>
        destruct (PyDate.make_date y m d) as [p'|] eqn:Hp'; [|discriminate];
        destruct (make_date_bounds _ _ _ _ Hp') as (Ep' & Hb)
      end;
      injection H as <-; exists p'; subst p';
      cbn [PyDate.year PyDate.month PyDate.day] in *;
      (split; [reflexivity|split; [exact Hp'|]]);
      destruct (make_date_bounds _ _ _ _ Hv) as (_ & Hb' & _); lia.
  - apply Z.ltb_ge in Hy. injection H as <-. exists p. auto.
Qed.

Lemma try_formats_some date_str formats c :
  DateStandardizer.try_formats date_str formats = Ok (Some c) ->
  exists date_format,
    In date_format formats
    /\ DateStandardizer.try_format date_str date_format = Ok c.
Proof.
  induction formats as [|f fs IH]; cbn [DateStandardizer.try_formats].
  - discriminate.
  - destruct (DateStandardizer.try_format date_str f) as [r|e] eqn:Hf.
    + cbn. intros [= ->]. exists f. split; [left; reflexivity|exact Hf].
    + rewrite (try_format_raises _ _ _ Hf). cbn.
      intros H. destruct (IH H) as (g & Hin & Hg). exists g. split; [right|]; auto.
Qed.

(** What [parse_date_flexible] returns is a [YYYY-MM-DD] text of a
    calendar date, and is its own normal form. *)
Lemma parse_date_flexible_canonical date_str c :
  DateStandardizer.parse_date_flexible date_str = Ok (Some c) ->
  DateStandardizer.is_iso_shape c = true
  /\ (exists d, PyDate.strptime c "%Y-%m-%d" = Ok d)
  /\ DateStandardizer.parse_date_flexible c = Ok (Some c).
Proof.
  unfold DateStandardizer.parse_date_flexible at 1.
  destruct (negb (Py.truthy date_str) || String.eqb (Py.strip date_str) "");
    [discriminate|].
  cbv zeta.
  assert (Hformats :
    DateStandardizer.try_formats (Py.strip date_str) DateStandardizer.date_formats
    = Ok (Some c) ->
    DateStandardizer.is_iso_shape c = true
    /\ (exists d, PyDate.strptime c "%Y-%m-%d" = Ok d)
    /\ DateStandardizer.parse_date_flexible c = Ok (Some c)).
  { intros H. destruct (try_formats_some _ _ _ H) as (f & _ & Hf).
    destruct (try_format_canonical _ _ _ Hf) as (d & -> & Hv & _).
    pose proof (strptime_strftime _ _ _ _ Hv) as Hs.
    pose proof (is_iso_shape_strftime d) as Hi.
    split; [exact Hi|split; [eauto|]].
    exact (parse_date_flexible_iso _ _ Hi Hs). }
  destruct (DateStandardizer.is_iso_shape (Py.strip date_str)) eqn:Hiso.
  - destruct (PyDate.strptime (Py.strip date_str) "%Y-%m-%d") as [d|e] eqn:Hd.
    + cbn. intros [= <-].
      split; [exact Hiso|split; [eauto|]].
      exact (parse_date_flexible_iso _ _ Hiso Hd).
    + rewrite (strptime_raises _ _ _ Hd). cbn. exact Hformats.
  - cbn. exact Hformats.
Qed.

(** ** Canonical date texts *)

Lemma digit_cases c :
  Py.is_digit c = true ->
  c = Py.digit_char (Py.digit_val c) /\ 0 <= Py.digit_val c <= 9.
Proof.
  destruct c as [b0 b1 b2 b3 b4 b5 b6 b7].
  destruct b0, b1, b2, b3, b4, b5, b6, b7; vm_compute;
    first [discriminate | intros _; split; [reflexivity|split; discriminate]].
Qed.

Lemma digit_char_mod n k : n mod 10 = k mod 10 -> Py.digit_char n = Py.digit_char k.
Proof. unfold Py.digit_char. intros ->. reflexivity. Qed.

Lemma digit_val_range a :
  0 <= a <= 9 ->
  a = 0 \/ a = 1 \/ a = 2 \/ a = 3 \/ a = 4 \/ a = 5 \/ a = 6 \/ a = 7 \/ a = 8
  \/ a = 9.
Proof. lia. Qed.

Lemma re_m_digits a b r :
  0 <= a <= 9 -> 0 <= b <= 9 ->
  PyDate.re_m (Py.digit_char a :: Py.digit_char b :: r)
  = (if (1 <=? 10 * a + b) && (10 * a + b <=? 12) then [(10 * a + b, r)] else [])
    ++ (if 1 <=? a then [(a, Py.digit_char b :: r)] else []).
Proof.
  intros Ha Hb.
  destruct (digit_val_range a Ha) as [->|[->|[->|[->|[->|[->|[->|[->|[->| ->]]]]]]]]];
  destruct (digit_val_range b Hb) as [->|[->|[->|[->|[->|[->|[->|[->|[->| ->]]]]]]]]];
  vm_compute; reflexivity.
Qed.

Lemma dash_not_digit c : Py.is_digit c = true -> Ascii.eqb "-" c = false.
Proof.
  intros H. destruct (Ascii.eqb_spec "-" c) as [<-|]; [|reflexivity].
  vm_compute in H. discriminate.
Qed.

Lemma match_format_month f m1 m2 r acc :
  Py.is_digit m1 = true -> Py.is_digit m2 = true ->
  PyDate.match_format (PyDate.D_m :: PyDate.D_lit "-" :: f)
    (m1 :: m2 :: "-"%char :: r) acc
  = if (1 <=? PyDate.two_digits m1 m2) && (PyDate.two_digits m1 m2 <=? 12)
    then PyDate.match_format f r (acc.1.1, PyDate.two_digits m1 m2, acc.2)
    else [].
Proof.
  intros H1 H2.
  destruct (digit_cases _ H1) as [E1 R1]. destruct (digit_cases _ H2) as [E2 R2].
  unfold PyDate.two_digits.
  set (a := Py.digit_val m1) in *. set (b := Py.digit_val m2) in *.
  clearbody a b. subst m1 m2.
  change (PyDate.match_format (PyDate.D_m :: PyDate.D_lit "-" :: f)
            (Py.digit_char a :: Py.digit_char b :: "-"%char :: r) acc)
    with (flat_map
            (fun '(v, r') =>
               PyDate.match_format (PyDate.D_lit "-" :: f) r' (acc.1.1, v, acc.2))
            (PyDate.re_m (Py.digit_char a :: Py.digit_char b :: "-"%char :: r))).
  rewrite re_m_digits by assumption.
  rewrite flat_map_app.
  assert (Hsnd :
    flat_map
      (fun '(v, r') =>
         PyDate.match_format (PyDate.D_lit "-" :: f) r' (acc.1.1, v, acc.2))
      (if 1 <=? a then [(a, Py.digit_char b :: "-"%char :: r)] else []) = []).
  { destruct (1 <=? a); [|reflexivity].
    cbn [flat_map PyDate.match_format]. rewrite (dash_not_digit _ H2). reflexivity. }
  rewrite Hsnd, app_nil_r.
  destruct ((1 <=? 10 * a + b) && (10 * a + b <=? 12)); [|reflexivity].
  cbn [flat_map PyDate.match_format]. rewrite app_nil_r. reflexivity.
Qed.

Lemma match_format_day_end e f acc :
  0 <= e <= 9 -> 0 <= f <= 9 ->
  match PyDate.match_format [PyDate.D_d] [Py.digit_char e; Py.digit_char f] acc with
  | (x, []) :: _ => x = (acc.1.1, acc.1.2, 10 * e + f)
  | _ => True
  end.
Proof.
  intros He Hf.
  destruct (digit_val_range e He) as [->|[->|[->|[->|[->|[->|[->|[->|[->| ->]]]]]]]]];
  destruct (digit_val_range f Hf) as [->|[->|[->|[->|[->|[->|[->|[->|[->| ->]]]]]]]]];
  vm_compute; first [reflexivity | exact I].
Qed.

Lemma zero_pad_2_digits a b :
  0 <= a <= 9 -> 0 <= b <= 9 ->
  Py.zero_pad 2 (10 * a + b) = [Py.digit_char a; Py.digit_char b].
Proof.
  intros Ha Hb. rewrite zero_pad_2. f_equal; [|f_equal].
  - apply digit_char_mod. Z.to_euclidean_division_equations; lia.
  - apply digit_char_mod. Z.to_euclidean_division_equations; lia.
Qed.

Lemma zero_pad_4_digits a b c d :
  0 <= a <= 9 -> 0 <= b <= 9 -> 0 <= c <= 9 -> 0 <= d <= 9 ->
  Py.zero_pad 4
    (Py.int_of_digits
       [Py.digit_char a; Py.digit_char b; Py.digit_char c; Py.digit_char d])
  = [Py.digit_char a; Py.digit_char b; Py.digit_char c; Py.digit_char d].
Proof.
  intros Ha Hb Hc Hd. unfold Py.int_of_digits. cbn [fold_left].
  rewrite !(proj1 (proj2 (digit_char_spec _))).
  rewrite zero_pad_4.
  f_equal; [|f_equal; [|f_equal; [|f_equal]]];
    apply digit_char_mod; Z.to_euclidean_division_equations; lia.
Qed.

Lemma match_format_lit c f r acc :
  PyDate.match_format (PyDate.D_lit c :: f) (c :: r) acc
  = PyDate.match_format f r acc.
Proof. cbn [PyDate.match_format]. rewrite Ascii.eqb_refl. reflexivity. Qed.

(** A [YYYY-MM-DD] text is the rendering of the date it denotes. *)
Lemma strftime_strptime_iso c d :
  DateStandardizer.is_iso_shape c = true ->
  PyDate.strptime c "%Y-%m-%d" = Ok d ->
  PyDate.strftime_ymd d = c.
Proof.
  unfold DateStandardizer.is_iso_shape, PyDate.strptime.
  change (PyDate.compile_format (String.list_ascii_of_string "%Y-%m-%d"))
    with (Some [PyDate.D_Y; PyDate.D_lit "-"; PyDate.D_m; PyDate.D_lit "-";
                PyDate.D_d]).
  destruct (String.list_ascii_of_string c)
    as [|y1 [|y2 [|y3 [|y4 [|s1 [|m1 [|m2 [|s2 [|d1 [|d2 [|x l]]]]]]]]]]] eqn:E;
    try discriminate.
  cbn [forallb]. intros H. rewrite !andb_true_iff in H.
  destruct H as ((Hd & Hs1) & Hs2).
  destruct Hd as (Hy1 & Hy2 & Hy3 & Hy4 & Hm1 & Hm2 & Hd1 & Hd2 & _).
  apply Ascii.eqb_eq in Hs1, Hs2. subst s1 s2.
  rewrite match_format_Y by assumption.
  rewrite match_format_lit, match_format_month by assumption.
  destruct ((1 <=? PyDate.two_digits m1 m2) && (PyDate.two_digits m1 m2 <=? 12));
    [|discriminate].
  destruct (digit_cases _ Hy1) as [Ey1 Ry1]. destruct (digit_cases _ Hy2) as [Ey2 Ry2].
  destruct (digit_cases _ Hy3) as [Ey3 Ry3]. destruct (digit_cases _ Hy4) as [Ey4 Ry4].
  destruct (digit_cases _ Hm1) as [Em1 Rm1]. destruct (digit_cases _ Hm2) as [Em2 Rm2].
  destruct (digit_cases _ Hd1) as [Ed1 Rd1]. destruct (digit_cases _ Hd2) as [Ed2 Rd2].
  cbn [fst snd].
  pose proof (match_format_day_end (Py.digit_val d1) (Py.digit_val d2)
                (Py.int_of_digits [y1; y2; y3; y4], PyDate.two_digits m1 m2, 1)
                Rd1 Rd2) as Hday.
  rewrite <- Ed1, <- Ed2 in Hday.
  destruct (PyDate.match_format [PyDate.D_d] [d1; d2] _) as [|[x rest] more];
    [intros; discriminate|].
  destruct rest; [|destruct x as [[? ?] ?]; intros; discriminate].
  subst x. cbn [fst snd]. intros Hmk.
  destruct (make_date_bounds _ _ _ _ Hmk) as (-> & _).
  unfold PyDate.strftime_ymd. cbn [PyDate.year PyDate.month PyDate.day].
  rewrite <- (String.string_of_list_ascii_of_string c), E. f_equal.
  unfold PyDate.two_digits.
  rewrite Ey1, Ey2, Ey3, Ey4 at 1.
  rewrite zero_pad_4_digits, !zero_pad_2_digits by assumption.
  rewrite <- Ey1, <- Ey2, <- Ey3, <- Ey4, <- Em1, <- Em2, <- Ed1, <- Ed2.
  reflexivity.
Qed.

Lemma make_date_ordinal y m dd d :
  PyDate.make_date y m dd = Ok d -> 1 <= PyDate.toordinal d <= PyDate.MAXORDINAL.
Proof.
  intros H. split.
  - destruct (make_date_ok _ _ _ _ H) as (-> & ? & ? & ?).
    apply toordinal_min; cbn; lia.
  - exact (toordinal_max _ _ _ _ H).
Qed.

(** X1: [get_week_start] returns the Monday of the week. *)
Theorem get_week_start_is_monday y m dd d :
  PyDate.make_date y m dd = Ok d ->
  exists w,
    get_week_start d = Ok w
    /\ PyDate.weekday w = 0
    /\ PyDate.toordinal d - 6 <= PyDate.toordinal w <= PyDate.toordinal d
    /\ PyDate.make_date (PyDate.year w) (PyDate.month w) (PyDate.day w) = Ok w
    /\ get_week_start w = Ok w.
Proof.
  intros Hd. pose proof (make_date_ordinal _ _ _ _ Hd) as Ho.
  unfold get_week_start, PyDate.add_days, PyDate.weekday in *.
  set (o := PyDate.toordinal d) in *.
  assert (Hw : 0 <= (o + 6) mod 7 < 7) by (apply Z.mod_pos_bound; lia).
  assert (Hlow : 1 <= o + - ((o + 6) mod 7)).
  { clearbody o. Z.to_euclidean_division_equations. lia. }
  assert (Hb : (1 <=? o + - ((o + 6) mod 7))
               && (o + - ((o + 6) mod 7) <=? PyDate.MAXORDINAL) = true).
  { apply andb_true_iff. rewrite !Z.leb_le. lia. }
  rewrite Hb.
  destruct (ord2ymd_spec (o + - ((o + 6) mod 7)) ltac:(lia)) as [Hv Hord].
  cbv zeta in Hv, Hord.
  exists (PyDate.ord2ymd (o + - ((o + 6) mod 7))).
  rewrite Hord.
  assert (Hmon : (o + - ((o + 6) mod 7) + 6) mod 7 = 0).
  { clearbody o. Z.to_euclidean_division_equations. lia. }
  rewrite Hmon. replace (o + - ((o + 6) mod 7) + - 0) with (o + - ((o + 6) mod 7)) by lia.
  rewrite Hb. repeat split; try assumption; lia.
Qed.

Lemma get_week_start_is_monday_witness :
  exists w,
    get_week_start (PyDate.mkdate 2025 2 6) = Ok w
    /\ PyDate.weekday w = 0
    /\ w = PyDate.mkdate 2025 2 3.
Proof.
  destruct (get_week_start_is_monday 2025 2 6 (PyDate.mkdate 2025 2 6) eq_refl)
    as (w & Hw & Hmon & _).
  exists w. split; [exact Hw|split; [exact Hmon|]].
  vm_compute in Hw. injection Hw as <-. reflexivity.
Defined.

(** X2: the date normaliser returns canonical texts and is idempotent. *)
Theorem parse_date_flexible_idempotent date_str c :
  DateStandardizer.parse_date_flexible date_str = Ok (Some c) ->
  DateStandardizer.is_iso_shape c = true
  /\ (exists d, PyDate.strptime c "%Y-%m-%d" = Ok d /\ PyDate.strftime_ymd d = c)
  /\ Py.strip c = c
  /\ DateStandardizer.parse_date_flexible c = Ok (Some c).
Proof.
  intros H.
  destruct (parse_date_flexible_canonical _ _ H) as (Hiso & (d & Hd) & Hc).
  split; [exact Hiso|]. split.
  - exists d. split; [exact Hd|]. exact (strftime_strptime_iso _ _ Hiso Hd).
  - split; [exact (strip_iso_shape _ Hiso)|exact Hc].
Qed.

Lemma parse_date_flexible_idempotent_witness :
  DateStandardizer.parse_date_flexible " 3/5/25 " = Ok (Some "2025-03-05")
  /\ DateStandardizer.parse_date_flexible "2025-03-05" = Ok (Some "2025-03-05").
Proof.
  assert (H : DateStandardizer.parse_date_flexible " 3/5/25 "
              = Ok (Some "2025-03-05")) by (vm_compute; reflexivity).
  split; [exact H|].
  exact (proj2 (proj2 (proj2 (parse_date_flexible_idempotent _ _ H)))).
Defined.

(** X3: a spelling other than [YYYY-MM-DD] is never read as a date
    before 1950. *)
Theorem parse_date_flexible_century_window date_str c d :
  DateStandardizer.parse_date_flexible date_str = Ok (Some c) ->
  PyDate.strptime c "%Y-%m-%d" = Ok d ->
  (1 <= PyDate.year d <= 9999)
  /\ (PyDate.year d < 1950 ->
      c = Py.strip date_str
      /\ DateStandardizer.is_iso_shape (Py.strip date_str) = true).
Proof.
  intros H Hd. split.
  { pose proof (strptime_valid _ _ _ Hd) as Hv.
    destruct (make_date_bounds _ _ _ _ Hv) as (_ & Hy & _). exact Hy. }
  intros Hy. revert H.
  unfold DateStandardizer.parse_date_flexible.
  destruct (negb (Py.truthy date_str) || String.eqb (Py.strip date_str) "");
    [discriminate|].
  cbv zeta.
  assert (Hformats :
    DateStandardizer.try_formats (Py.strip date_str) DateStandardizer.date_formats
    = Ok (Some c) -> False).
  { intros H. destruct (try_formats_some _ _ _ H) as (f & _ & Hf).
    destruct (try_format_canonical _ _ _ Hf) as (d' & -> & Hv & Hy').
    rewrite (strptime_strftime _ _ _ _ Hv) in Hd. injection Hd as ->. lia. }
  destruct (DateStandardizer.is_iso_shape (Py.strip date_str)) eqn:Hiso.
  - destruct (PyDate.strptime (Py.strip date_str) "%Y-%m-%d") as [d0|e] eqn:Hd0.
    + cbn. intros [= <-]. split; reflexivity.
    + rewrite (strptime_raises _ _ _ Hd0). cbn. intros H. destruct (Hformats H).
  - cbn. intros H. destruct (Hformats H).
Qed.

Lemma parse_date_flexible_century_window_witness :
  DateStandardizer.parse_date_flexible "0030-01-02" = Ok (Some "0030-01-02")
  /\ DateStandardizer.parse_date_flexible "01/02/0030" = Ok (Some "2030-01-02")
  /\ DateStandardizer.parse_date_flexible "06/15/1949" = Ok (Some "3849-06-15")
  /\ "0030-01-02" = Py.strip "0030-01-02".
Proof.
  assert (H : DateStandardizer.parse_date_flexible "0030-01-02"
              = Ok (Some "0030-01-02")) by (vm_compute; reflexivity).
  assert (Hd : PyDate.strptime "0030-01-02" "%Y-%m-%d" = Ok (PyDate.mkdate 30 1 2))
    by (vm_compute; reflexivity).
  split; [exact H|]. split; [vm_compute; reflexivity|].
  split; [vm_compute; reflexivity|].
  exact (proj1 (proj2 (parse_date_flexible_century_window _ _ _ H Hd)
                  ltac:(cbn; lia))).
Defined.

Lemma is_pm_overdue_of_parse today last c frequency_days :
  Py.truthy last = true ->
  DateStandardizer.parse_date_flexible last = Ok (Some c) ->
  is_pm_overdue today (Some last) frequency_days
  = is_pm_overdue today (Some c) frequency_days.
Proof.
  intros Ht H.
  destruct (parse_date_flexible_canonical _ _ H) as (Hiso & _ & Hc).
  unfold is_pm_overdue. rewrite Ht, (truthy_iso_shape _ Hiso), H, Hc.
  reflexivity.
Qed.

(** X4: the standardisation pass is idempotent and does not change
    what is displayed or scheduled. *)
Theorem standardized_dates_are_stable original new :
  standardized_update (Some original) = Ok (Some new) ->
  new <> original
  /\ standardized_update (Some new) = Ok None
  /\ format_date_display (Some original) = new
  /\ format_date_display (Some new) = new
  /\ (forall today frequency_days,
        is_pm_overdue today (Some original) frequency_days
        = is_pm_overdue today (Some new) frequency_days).
Proof.
  unfold standardized_update. cbn [Py.truthy_opt default from_option id].
  destruct (Py.truthy original) eqn:Ht; [|discriminate].
  destruct (DateStandardizer.parse_date_flexible original) as [[c|]|] eqn:Hp;
    cbn; try discriminate.
  destruct (Py.truthy c) eqn:Htc; cbn; [|discriminate].
  destruct (String.eqb_spec c original) as [|Hne]; cbn; [discriminate|].
  intros [= <-].
  destruct (parse_date_flexible_canonical _ _ Hp) as (Hiso & _ & Hc).
  split; [exact Hne|]. split.
  { rewrite Htc, Hc. cbn. rewrite Htc, String.eqb_refl. reflexivity. }
  split.
  { unfold format_date_display. cbn [Py.truthy_opt default from_option id].
    rewrite Ht, Hp. cbn. rewrite Htc. reflexivity. }
  split.
  { unfold format_date_display. cbn [Py.truthy_opt default from_option id].
    rewrite Htc, Hc. cbn. rewrite Htc. reflexivity. }
  intros today frequency_days. exact (is_pm_overdue_of_parse _ _ _ _ Ht Hp).
Qed.

Lemma standardized_dates_are_stable_witness :
  standardized_update (Some "3/5/25") = Ok (Some "2025-03-05")
  /\ standardized_update (Some "2025-03-05") = Ok None
  /\ format_date_display (Some "3/5/25") = "2025-03-05".
Proof.
  assert (H : standardized_update (Some "3/5/25") = Ok (Some "2025-03-05"))
    by (vm_compute; reflexivity).
  destruct (standardized_dates_are_stable _ _ H) as (_ & H1 & H2 & _).
  split; [exact H|]. split; [exact H1|exact H2].
Defined.

Lemma days_until_date_floor d now :
  0 <= dt_microseconds now < 86400000000 ->
  days_until_date d now
  = PyDate.toordinal d - PyDate.toordinal (dt_date now)
    - (if 0 <? dt_microseconds now then 1 else 0).
Proof.
  intros Hu. unfold days_until_date.
  destruct (Z.ltb_spec 0 (dt_microseconds now));
    Z.to_euclidean_division_equations; lia.
Qed.

Lemma status_of_days_until d now :
  0 <= dt_microseconds now < 86400000000 ->
  (let days_until := days_until_date d now in
   ((if days_until <? 0 then StOverdue (Z.abs days_until)
     else if days_until <=? 7 then StDueSoon days_until
     else if days_until <=? 30 then StDueIn days_until
     else StCurrent days_until),
    Some days_until))
  = status_of_days
      (PyDate.toordinal d - PyDate.toordinal (dt_date now)
       - (if 0 <? dt_microseconds now then 1 else 0)).
Proof.
  intros Hu. cbv zeta. rewrite (days_until_date_floor _ _ Hu).
  unfold status_of_days.
  destruct (Z.ltb_spec
              (PyDate.toordinal d - PyDate.toordinal (dt_date now)
               - (if 0 <? dt_microseconds now then 1 else 0)) 0);
    [|reflexivity].
  rewrite Z.abs_neq by lia. reflexivity.
Qed.

(** X5: [calculate_pm_status] counts whole days from the present
    moment to the midnight of the due date; the stored next date takes
    precedence over the last date. *)
Theorem calculate_pm_status_counts_from_now last_pm_date next_pm_date
    frequency_days current_date next_due :
  Py.truthy_opt next_pm_date = true ->
  PyDate.strptime (default "" next_pm_date) "%Y-%m-%d" = Ok next_due ->
  0 <= dt_microseconds current_date < 86400000000 ->
  calculate_pm_status last_pm_date next_pm_date frequency_days current_date
  = status_of_days
      (PyDate.toordinal next_due - PyDate.toordinal (dt_date current_date)
       - (if 0 <? dt_microseconds current_date then 1 else 0))
  /\ (PyDate.toordinal next_due = PyDate.toordinal (dt_date current_date) ->
      0 < dt_microseconds current_date ->
      calculate_pm_status last_pm_date next_pm_date frequency_days current_date
      = (StOverdue 1, Some (-1))).
Proof.
  intros Hn Hd Hu.
  assert (Hcalc :
    calculate_pm_status last_pm_date next_pm_date frequency_days current_date
    = status_of_days
        (PyDate.toordinal next_due - PyDate.toordinal (dt_date current_date)
         - (if 0 <? dt_microseconds current_date then 1 else 0))).
  { unfold calculate_pm_status. rewrite Hn, andb_false_r, Hd. cbn.
    exact (status_of_days_until _ _ Hu). }
  split; [exact Hcalc|].
  intros Heq Hpos. rewrite Hcalc, Heq.
  apply Z.ltb_lt in Hpos. rewrite Hpos.
  replace (PyDate.toordinal (dt_date current_date)
           - PyDate.toordinal (dt_date current_date) - 1) with (-1) by lia.
  reflexivity.
Qed.

Lemma calculate_pm_status_counts_from_now_witness :
  (* due on 2025-02-03, looked up at 08:00 on 2025-02-03 *)
  calculate_pm_status (Some "2020-01-01") (Some "2025-02-03") 30
    (mk_datetime (PyDate.mkdate 2025 2 3) 28800000000)
  = (StOverdue 1, Some (-1)).
Proof.
  refine (proj2 (calculate_pm_status_counts_from_now (Some "2020-01-01")
                   (Some "2025-02-03") 30
                   (mk_datetime (PyDate.mkdate 2025 2 3) 28800000000)
                   (PyDate.mkdate 2025 2 3) _ _ _) _ _);
    cbn; first [reflexivity | lia].
Defined.

(** X6: without a stored next date the due date is the last date
    plus the frequency. *)
Theorem calculate_pm_status_from_last_date last_pm_date next_pm_date
    frequency_days current_date last_date :
  Py.truthy_opt next_pm_date = false ->
  Py.truthy_opt last_pm_date = true ->
  PyDate.strptime (default "" last_pm_date) "%Y-%m-%d" = Ok last_date ->
  0 <= dt_microseconds current_date < 86400000000 ->
  calculate_pm_status last_pm_date next_pm_date frequency_days current_date
  = if (1 <=? PyDate.toordinal last_date + frequency_days)
       && (PyDate.toordinal last_date + frequency_days <=? PyDate.MAXORDINAL)
    then
      status_of_days
        (PyDate.toordinal last_date + frequency_days
         - PyDate.toordinal (dt_date current_date)
         - (if 0 <? dt_microseconds current_date then 1 else 0))
    else (StError, None).
Proof.
  intros Hn Hl Hd Hu.
  unfold calculate_pm_status. rewrite Hn, Hl, Hd. cbn [negb andb].
  cbn [mbind res_bind]. unfold PyDate.add_days.
  destruct ((1 <=? PyDate.toordinal last_date + frequency_days)
            && (PyDate.toordinal last_date + frequency_days <=? PyDate.MAXORDINAL))
    eqn:Hb; [|reflexivity].
  apply andb_true_iff in Hb. rewrite !Z.leb_le in Hb.
  destruct (ord2ymd_spec (PyDate.toordinal last_date + frequency_days) Hb)
    as [_ Hord].
  cbv zeta in Hord. cbn [mbind res_bind].
  rewrite (status_of_days_until _ _ Hu), Hord. reflexivity.
Qed.

Lemma calculate_pm_status_from_last_date_witness :
  calculate_pm_status (Some "2025-01-20") None 30
    (mk_datetime (PyDate.mkdate 2025 2 3) 0)
  = (StDueIn 16, Some 16).
Proof.
  rewrite (calculate_pm_status_from_last_date (Some "2025-01-20") None 30
             (mk_datetime (PyDate.mkdate 2025 2 3) 0) (PyDate.mkdate 2025 1 20));
    first [reflexivity | cbn; lia].
Defined.

(** X7: what [calculate_pm_status] answers when it has no day count. *)
Theorem calculate_pm_status_without_days last_pm_date next_pm_date frequency_days
    current_date :
  let r :=
    calculate_pm_status last_pm_date next_pm_date frequency_days current_date in
  r.1 <> StNotScheduled
  /\ (r.1 = StNeverDone <->
      Py.truthy_opt last_pm_date = false /\ Py.truthy_opt next_pm_date = false)
  /\ (r.2 = None <-> r.1 = StNeverDone \/ r.1 = StDateError \/ r.1 = StError)
  /\ (Py.truthy_opt next_pm_date = true ->
      (r.1 = StDateError <->
       exists e, PyDate.strptime (default "" next_pm_date) "%Y-%m-%d" = Raise e)
      /\ r.1 <> StError)
  /\ (r.1 = StError ->
      exists last_date,
        PyDate.strptime (default "" last_pm_date) "%Y-%m-%d" = Ok last_date
        /\ ~ (1 <= PyDate.toordinal last_date + frequency_days
              <= PyDate.MAXORDINAL)).
Proof.
  cbv zeta. unfold calculate_pm_status, PyDate.add_days.
  destruct (Py.truthy_opt last_pm_date) eqn:Hl;
    destruct (Py.truthy_opt next_pm_date) eqn:Hn; cbn [negb andb].
  all: repeat
         match goal with
         | |- context [PyDate.strptime ?a ?b] =>
             let H := fresh "Hp" in
             destruct (PyDate.strptime a b) as [?d|?e] eqn:H;
             [|rewrite (strptime_raises _ _ _ H) in *]
         end;
       cbn [mbind res_bind fst snd].
  all: try match goal with
         | |- context [(1 <=? ?a) && (?a <=? PyDate.MAXORDINAL)] =>
             let H := fresh "Hb" in
             destruct ((1 <=? a) && (a <=? PyDate.MAXORDINAL)) eqn:H;
             cbn [mbind res_bind fst snd]
         end.
  all: repeat match goal with
         | |- context [if ?c then _ else _] => destruct c
         end; cbn [fst snd].
  all: repeat split; try discriminate; try tauto; try (intros; discriminate).
  all: try (intros [? | [? | ?]]; discriminate).
  all: try (intros _; eexists; reflexivity).
  all: try (intros [? ?]; discriminate).
  all: try (intros _; eexists; split; [reflexivity|];
            apply andb_false_iff in Hb; rewrite !Z.leb_gt in Hb; lia).
  all: try (intros; auto).
Qed.

Section GeneratedWeek.

(** What a successful generation leaves in the database. *)
Lemma generated_database flt today roster target week_start_var s total_pms s' :
  generate_weekly_assignments flt today roster target week_start_var s
  = Generated total_pms s' ->
  exists week_start,
    PyDate.strptime week_start_var "%Y-%m-%d" = Ok week_start
    /\ PyDate.toordinal week_start + 6 <= PyDate.MAXORDINAL
    /\ roster <> []
    /\ total_pms = Z.min target (Z.of_nat (length (pm_candidates today s)))
    /\ s' = mk_db (equipment s) (pm_completions s)
              (other_weeks (PyDate.strftime_ymd week_start) s
               ++ planned_rows week_start (pm_candidates today s)
                    (total_pms / Z.of_nat (length roster))
                    (total_pms mod Z.of_nat (length roster)) roster 0 0)
              (cannot_find_assets s) (run_to_failure_assets s)
    /\ week_entries (PyDate.strftime_ymd week_start) s'
       = planned_rows week_start (pm_candidates today s)
           (total_pms / Z.of_nat (length roster))
           (total_pms mod Z.of_nat (length roster)) roster 0 0
    /\ length (week_entries (PyDate.strftime_ymd week_start) s')
       = Z.to_nat total_pms.
Proof.
  intros H.
  destruct (generate_weekly_assignments_inv _ _ _ _ _ _ _ _ H)
    as (week_start & Hws & Hmax & Hroster & Hgen).
  rewrite (generate_weekly_assignments_ok today roster target week_start_var
             week_start s Hroster Hws Hmax) in Hgen.
  injection Hgen as HT Hs'.
  exists week_start. split; [exact Hws|]. split; [exact Hmax|].
  split; [exact Hroster|]. split; [symmetry; exact HT|].
  rewrite HT in Hs'. split; [symmetry; exact Hs'|].
  assert (Hweek :
    week_entries (PyDate.strftime_ymd week_start) s'
    = planned_rows week_start (pm_candidates today s)
        (total_pms / Z.of_nat (length roster))
        (total_pms mod Z.of_nat (length roster)) roster 0 0).
  { rewrite <- Hs'. unfold other_weeks. apply week_entries_generated.
    intros r Hr. exact (proj1 (planned_inv _ _ _ _ _ _ _ _ Hr)). }
  split; [exact Hweek|].
  rewrite Hweek, length_planned.
  - pose proof (planned_count_total total_pms (length roster)
                  (roster_length_pos _ Hroster)) as Hc.
    apply Nat2Z.inj. rewrite Hc. lia.
  - rewrite <- HT. exact (planned_fits today roster target s Hroster).
Qed.

End GeneratedWeek.

Lemma planned_rows_lookup week_start cands per extra roster :
  forall tech_index idx i r,
    (idx + planned_count per extra (length roster) tech_index <= length cands)%nat ->
    planned_rows week_start cands per extra roster tech_index idx !! i = Some r ->
    exists a technician,
      cands !! (idx + i)%nat = Some a
      /\ In technician roster
      /\ r = schedule_row week_start technician (idx + i) a.
Proof.
  induction roster as [|t rest IH]; intros tech_index idx i r Hfit Hr.
  - discriminate.
  - cbn [planned_rows] in Hr. cbn [length planned_count] in Hfit.
    apply lookup_app_Some in Hr as [Hr|[Hlen Hr]].
    + unfold rows_of in Hr. rewrite list_lookup_imap in Hr.
      destruct (take _ _ !! i) as [a|] eqn:Ha; [|discriminate].
      injection Hr as <-.
      apply lookup_take_Some in Ha as [Ha _]. rewrite lookup_drop in Ha.
      exists a, t. split; [exact Ha|]. split; [left; reflexivity|reflexivity].
    + assert (Hc : (idx + tech_pm_count per extra tech_index <= length cands)%nat) by lia.
      rewrite (length_rows_of _ _ _ _ _ Hc) in Hlen, Hr.
      destruct (IH (tech_index + 1) (idx + tech_pm_count per extra tech_index)%nat
                  _ r ltac:(lia) Hr) as (a & tech & Ha & Hin & ->).
      replace (idx + tech_pm_count per extra tech_index
               + (i - tech_pm_count per extra tech_index))%nat
        with (idx + i)%nat in * by lia.
      exists a, tech. split; [exact Ha|]. split; [right; exact Hin|reflexivity].
Qed.

(** X8: the week holds the first candidates, in their order, spread
    over five consecutive days. *)
Theorem generated_week_takes_first_candidates flt today roster target
    week_start_var s total_pms s' :
  generate_weekly_assignments flt today roster target week_start_var s
  = Generated total_pms s' ->
  exists week_start,
    PyDate.strptime week_start_var "%Y-%m-%d" = Ok week_start
    /\ let week := week_entries (PyDate.strftime_ymd week_start) s' in
       let cands := pm_candidates today s in
       total_pms = Z.min target (Z.of_nat (length cands))
       /\ length week = Z.to_nat total_pms
       /\ forall i r,
            week !! i = Some r ->
            exists a scheduled,
              cands !! i = Some a
              /\ ws_bfm_equipment_no r = a.1.1
              /\ ws_pm_type r = a.1.2
              /\ In (ws_assigned_technician r) roster
              /\ ws_status r = "Scheduled"
              /\ ws_scheduled_date r = PyDate.strftime_ymd scheduled
              /\ PyDate.toordinal scheduled
                 = PyDate.toordinal week_start + Z.of_nat i mod 5
              /\ PyDate.weekday scheduled
                 = (PyDate.weekday week_start + Z.of_nat i mod 5) mod 7.
Proof.
  intros H.
  destruct (generated_database _ _ _ _ _ _ _ _ H)
    as (week_start & Hws & Hmax & Hroster & HT & _ & Hweek & Hlen).
  exists week_start. split; [exact Hws|]. cbv zeta.
  split; [exact HT|]. split; [exact Hlen|].
  intros i r Hr. rewrite Hweek in Hr.
  assert (Hfit :
    (0 + planned_count (total_pms / Z.of_nat (length roster))
           (total_pms mod Z.of_nat (length roster)) (length roster) 0
     <= length (pm_candidates today s))%nat).
  { rewrite HT. exact (planned_fits today roster target s Hroster). }
  destruct (planned_rows_lookup _ _ _ _ _ _ _ _ _ Hfit Hr)
    as (a & tech & Ha & Hin & ->).
  cbn [Nat.add] in *.
  pose proof (strptime_toordinal _ _ _ Hws) as Hmin.
  assert (Hk : 0 <= Z.of_nat i mod 5 < 5) by (apply Z.mod_pos_bound; lia).
  destruct (ord2ymd_spec (PyDate.toordinal week_start + Z.of_nat i mod 5)
              ltac:(unfold PyDate.MAXORDINAL in *; lia)) as [_ Hord].
  cbv zeta in Hord.
  exists a, (PyDate.ord2ymd (PyDate.toordinal week_start + Z.of_nat i mod 5)).
  split; [exact Ha|]. cbn [schedule_row ws_bfm_equipment_no ws_pm_type
    ws_assigned_technician ws_status ws_scheduled_date].
  repeat (split; [first [reflexivity | assumption]|]).
  unfold PyDate.weekday. rewrite Hord.
  generalize dependent (PyDate.toordinal week_start). intros o **.
  generalize dependent (Z.of_nat i mod 5). intros k **.
  Z.to_euclidean_division_equations. lia.
Qed.

Lemma generated_week_takes_first_candidates_witness :
  let s :=
    mk_db
      [ mk_equipment "E-0300" "Crane" "Bay 3" false false true
          None None None None None None "Active";
        mk_equipment "E-0100" "Press" "Bay 1" true false true
          None None None None None None "Active";
        mk_equipment "E-0200" "Lathe" "Bay 2" true false false
          None None None None None None "Active" ]
      [] [] [] [] in
  exists s',
    generate_weekly_assignments no_faults (PyDate.mkdate 2025 2 3) technicians 2
      "2025-02-03" s
    = Generated 2 s'
    /\ map ws_bfm_equipment_no (week_entries "2025-02-03" s')
       = ["E-0100"; "E-0200"]
    /\ length (week_entries "2025-02-03" s') = 2%nat.
Proof.
  cbv zeta. eexists. split; [vm_compute; reflexivity|].
  split; [vm_compute; reflexivity|].
  match goal with
  | |- length (week_entries _ ?s') = _ =>
      destruct (generated_week_takes_first_candidates no_faults
                  (PyDate.mkdate 2025 2 3) technicians 2 "2025-02-03"
                  (mk_db
                     [ mk_equipment "E-0300" "Crane" "Bay 3" false false true
                         None None None None None None "Active";
                       mk_equipment "E-0100" "Press" "Bay 1" true false true
                         None None None None None None "Active";
                       mk_equipment "E-0200" "Lathe" "Bay 2" true false false
                         None None None None None None "Active" ]
                     [] [] [] []) 2 s' ltac:(vm_compute; reflexivity))
        as (w & Hw & _ & Hlen & _)
  end.
  vm_compute in Hw. injection Hw as <-. exact Hlen.
Defined.

Section Duplicates.

Lemma count_of_NoDup {A} (f : A -> string) (l : list A) y :
  List.NoDup (map f l) -> In y (map f l) ->
  length (List.filter (fun r => String.eqb (f r) y) l) = 1%nat.
Proof.
  induction l as [|x l IH]; cbn [map List.filter]; intros Hnd Hin.
  - destruct Hin.
  - inversion Hnd as [|? ? Hx Hl]; subst.
    destruct (String.eqb_spec (f x) y) as [E|E].
    + subst y. cbn [length]. f_equal.
      rewrite filter_none; [reflexivity|].
      intros r Hr. apply String.eqb_neq. intros E. apply Hx. rewrite <- E.
      apply in_map. exact Hr.
    + destruct Hin as [Hin|Hin]; [contradiction|]. exact (IH Hl Hin).
Qed.

Lemma NoDup_of_counts {A} (f : A -> string) (l : list A) :
  (forall y, In y (map f l) ->
     (length (List.filter (fun r => String.eqb (f r) y) l) <= 1)%nat) ->
  List.NoDup (map f l).
Proof.
  induction l as [|x l IH]; cbn [map]; intros H.
  - constructor.
  - constructor.
    + intros Hin. specialize (H (f x) (or_introl eq_refl)).
      cbn [List.filter] in H. rewrite String.eqb_refl in H. cbn [length] in H.
      apply in_map_iff in Hin as (r & Hr & Hin).
      assert (Hr' : In r (List.filter (fun r => String.eqb (f r) (f x)) l)).
      { apply filter_In. split; [exact Hin|]. rewrite Hr. apply String.eqb_refl. }
      destruct (List.filter _ l); [destruct Hr'|cbn [length] in H; lia].
    + apply IH. intros y Hy. specialize (H y (or_intror Hy)).
      cbn [List.filter] in H. destruct (String.eqb (f x) y); cbn [length] in H; lia.
Qed.

Lemma duplicate_assignments_nil week_start s :
  duplicate_assignments week_start s = []
  <-> List.NoDup (map ws_bfm_equipment_no (week_entries week_start s)).
Proof.
  unfold duplicate_assignments. fold (week_entries week_start s).
  set (week := week_entries week_start s).
  split.
  - intros H. apply NoDup_of_counts. intros y Hy.
    destruct (Nat.le_gt_cases
                (length (List.filter
                           (fun r => String.eqb (ws_bfm_equipment_no r) y) week)) 1)
      as [Hle|Hgt]; [exact Hle|exfalso].
    assert (Hin :
      In (y, Z.of_nat (length (List.filter
                                 (fun r => String.eqb (ws_bfm_equipment_no r) y)
                                 week)))
         (List.filter (fun g : string * Z => 1 <? g.2)
            (map (fun bfm_no =>
                    (bfm_no,
                     Z.of_nat
                       (length
                          (List.filter
                             (fun r => String.eqb (ws_bfm_equipment_no r) bfm_no)
                             week))))
               (remove_dups (map ws_bfm_equipment_no week))))).
    { apply filter_In. split.
      - apply in_map_iff. exists y. split; [reflexivity|].
        rewrite <- list_elem_of_In, elem_of_remove_dups, list_elem_of_In. exact Hy.
      - cbn [snd]. apply Z.ltb_lt. lia. }
    rewrite H in Hin. destruct Hin.
  - intros Hnd. apply filter_none. intros g Hg.
    apply in_map_iff in Hg as (y & <- & Hy). cbn [snd].
    rewrite <- list_elem_of_In, elem_of_remove_dups, list_elem_of_In in Hy.
    rewrite (count_of_NoDup _ _ _ Hnd Hy). reflexivity.
Qed.

End Duplicates.

(** X9: [verify_no_duplicates] answers [True] exactly when no
    equipment has two entries in the week. *)
Theorem verify_no_duplicates_iff flt week_start_var s :
  verify_no_duplicates flt week_start_var s = true
  <-> flt 0%nat = false
      /\ List.NoDup (map ws_bfm_equipment_no (week_entries week_start_var s)).
Proof.
  unfold verify_no_duplicates, execute.
  destruct (flt 0%nat).
  - split; [discriminate|intros [? _]; discriminate].
  - rewrite <- duplicate_assignments_nil.
    destruct (duplicate_assignments week_start_var s).
    + split; auto.
    + split; [discriminate|intros [_ ?]; discriminate].
Qed.



(** X11: the exceptions [generate_weekly_assignments] reports. *)
Theorem generation_failures flt today roster target week_start_var s :
  (forall e,
      PyDate.strptime week_start_var "%Y-%m-%d" = Raise e ->
      generate_weekly_assignments flt today roster target week_start_var s
      = GenerationFailed ValueError)
  /\ (forall week_start,
        PyDate.strptime week_start_var "%Y-%m-%d" = Ok week_start ->
        (PyDate.MAXORDINAL < PyDate.toordinal week_start + 6 ->
         generate_weekly_assignments flt today roster target week_start_var s
         = GenerationFailed OverflowError)
        /\ (PyDate.toordinal week_start + 6 <= PyDate.MAXORDINAL ->
            (flt 0%nat = true ->
             generate_weekly_assignments flt today roster target week_start_var s
             = GenerationFailed OperationalError)
            /\ (flt 0%nat = false -> flt 1%nat = false -> roster = [] ->
                generate_weekly_assignments flt today roster target
                  week_start_var s
                = GenerationFailed ZeroDivisionError))).
Proof.
  unfold generate_weekly_assignments. split.
  - intros e He. rewrite He, (strptime_raises _ _ _ He). reflexivity.
  - intros week_start Hws. rewrite Hws. cbn [mbind res_bind].
    pose proof (strptime_toordinal _ _ _ Hws) as Hmin.
    unfold PyDate.add_days. split.
    + intros Hmax.
      replace ((1 <=? PyDate.toordinal week_start + 6)
               && (PyDate.toordinal week_start + 6 <=? PyDate.MAXORDINAL))
        with false; [reflexivity|].
      symmetry. apply andb_false_iff. right. apply Z.leb_gt. lia.
    + intros Hmax.
      replace ((1 <=? PyDate.toordinal week_start + 6)
               && (PyDate.toordinal week_start + 6 <=? PyDate.MAXORDINAL))
        with true
        by (symmetry; apply andb_true_iff; rewrite !Z.leb_le; lia).
      cbn [mbind res_bind]. split.
      * intros H0. unfold mbind, tx_bind, execute. rewrite H0. reflexivity.
      * intros H0 H1 ->. unfold mbind, tx_bind, execute. rewrite H0.
        cbn [delete_week]. rewrite H1. reflexivity.
Qed.

Lemma planned_rows_nil week_start per extra roster :
  forall tech_index idx,
    planned_rows week_start [] per extra roster tech_index idx = [].
Proof.
  induction roster as [|t rest IH]; intros tech_index idx; [reflexivity|].
  cbn [planned_rows]. rewrite IH. unfold rows_of.
  rewrite drop_nil, take_nil. reflexivity.
Qed.

(** X12: generating a week with nothing due empties the week. *)
Theorem generation_without_candidates today roster target week_start_var
    week_start s :
  roster <> [] ->
  PyDate.strptime week_start_var "%Y-%m-%d" = Ok week_start ->
  PyDate.toordinal week_start + 6 <= PyDate.MAXORDINAL ->
  pm_candidates today s = [] ->
  generate_weekly_assignments no_faults today roster target week_start_var s
  = Generated (Z.min target 0)
      (mk_db (equipment s) (pm_completions s)
         (other_weeks (PyDate.strftime_ymd week_start) s)
         (cannot_find_assets s) (run_to_failure_assets s))
  /\ week_entries (PyDate.strftime_ymd week_start)
       (mk_db (equipment s) (pm_completions s)
          (other_weeks (PyDate.strftime_ymd week_start) s)
          (cannot_find_assets s) (run_to_failure_assets s))
     = [].
Proof.
  intros Hroster Hws Hmax Hc.
  rewrite (generate_weekly_assignments_ok today roster target week_start_var
             week_start s Hroster Hws Hmax).
  rewrite Hc, planned_rows_nil, app_nil_r. cbn [length].
  split; [reflexivity|].
  unfold week_entries, other_weeks. cbn [weekly_pm_schedules].
  apply filter_none. intros r Hr. apply filter_In in Hr as [_ Hr].
  apply negb_true_iff in Hr. exact Hr.
Qed.

Lemma generation_without_candidates_witness :
  let done :=
    mk_schedule "2025-02-03" "E-0100" "Monthly" "Jon Hymel" "Completed"
      "2025-02-04" (Some "2025-02-04") None None in
  let s :=
    mk_db
      [ mk_equipment "E-0100" "Press" "Bay 1" true false false
          (Some "2025-02-04") None None None None None "Active" ]
      [] [done] [] [] in
  generate_weekly_assignments no_faults (PyDate.mkdate 2025 2 5) technicians
    weekly_pm_target "2025-02-03" s
  = Generated 0 (mk_db (equipment s) [] [] [] []).
Proof.
  intros done s.
  exact (proj1 (generation_without_candidates (PyDate.mkdate 2025 2 5) technicians
                  weekly_pm_target "2025-02-03" (PyDate.mkdate 2025 2 3) s
                  ltac:(discriminate) eq_refl ltac:(vm_compute; discriminate)
                  eq_refl)).
Defined.

Section CommittedStore.

Variable env : environment.
Variable form : completion_form.
Variable s : db.

Let bfm_no := Py.strip (completion_bfm_var form).
Let pm_type := pm_type_var form.
Let technician := completion_tech_var form.
Let pm_due_date := Py.strip (pm_due_date_var form).
Let completion_date :=
  if Py.truthy pm_due_date then pm_due_date else PyDate.strftime_ymd (today env).
Let sub := submit_pm_completion env form s.

(** The database a committed submission leaves, by PM type. *)
Lemma committed_store :
  committed (result sub) = true ->
  result sub
  = (let v := verify_pm_completion_saved (store sub) bfm_no pm_type technician
                completion_date in
     if verified v then Verified else SavedUnverified v)
  /\ ((pm_type = "CANNOT FIND"
       /\ length (equipment_with bfm_no s) = 1%nat
       /\ store sub
          = (update_equipment bfm_no set_missing
               (insert_cannot_find
                  (mk_cannot_find bfm_no (equipment_info bfm_no s).1
                     (equipment_info bfm_no s).2 technician completion_date
                     (notes_text form) "Missing") s).2).2)
      \/ (pm_type = "Run to Failure"
          /\ length (equipment_with bfm_no s) = 1%nat
          /\ store sub
             = (update_equipment bfm_no set_run_to_failure
                  (insert_run_to_failure
                     (mk_run_to_failure bfm_no (equipment_info bfm_no s).1
                        (equipment_info bfm_no s).2 technician completion_date
                        (labor_hours_var form + labor_minutes_var form / 60)%Q
                        (notes_text form)) s).2).2)
      \/ (pm_type <> "CANNOT FIND" /\ pm_type <> "Run to Failure"
          /\ exists next_annual week_start,
              auto_next_annual env bfm_no pm_type completion_date
                (Py.strip (next_annual_pm_var form)) = Ok next_annual
              /\ week_start_of completion_date = Ok week_start
              /\ (is_normal_pm pm_type = true ->
                  length (equipment_with bfm_no s) = 1%nat)
              /\ store sub
                 = (complete_schedule bfm_no pm_type technician week_start
                      completion_date
                      (labor_hours_var form + labor_minutes_var form / 60)%Q
                      (notes_text form)
                      (update_equipment bfm_no
                         (normal_update pm_type completion_date next_annual)
                         (insert_completion
                            (fun id =>
                               mk_completion id bfm_no pm_type technician
                                 completion_date (labor_hours_var form)
                                 (labor_minutes_var form) pm_due_date
                                 (special_equipment_var form) (notes_text form)
                                 next_annual) s).2).2).2)).
Proof.
  intros Hc.
  destruct (submit_committed env form s Hc)
    as (next_annual & k & s' & _ & _ & _ & _ & Hauto & _ & Hatt & _ & Hstore & Hres).
  fold bfm_no pm_type technician pm_due_date completion_date
    in Hauto, Hatt, Hstore, Hres.
  fold sub in Hstore, Hres.
  rewrite Hstore. split; [exact Hres|].
  unfold attempt in Hatt.
  destruct (process_pm _ _ _ _ _ _ _ _ _ _ _ _ _) as [[[] st]|] eqn:Hp;
    [|discriminate].
  injection Hatt as ->.
  unfold process_pm in Hp.
  destruct (String.eqb_spec pm_type "CANNOT FIND") as [Hcf|Hcf].
  { left. destruct (process_cannot_find_success _ _ _ _ _ _ _ _ Hp) as [Hlen Hs].
    cbn [fst snd] in Hs. auto. }
  destruct (String.eqb_spec pm_type "Run to Failure") as [Hrtf|Hrtf].
  { right; left.
    destruct (process_run_to_failure_success _ _ _ _ _ _ _ _ _ Hp) as [Hlen Hs].
    cbn [fst snd] in Hs. auto. }
  right; right. split; [exact Hcf|]. split; [exact Hrtf|].
  destruct (process_normal_success _ _ _ _ _ _ _ _ _ _ _ _ _ _ Hp)
    as (week_start & Hws & Hlen & Hs).
  cbn [fst snd] in Hs.
  exists next_annual, week_start. auto.
Qed.

End CommittedStore.

Section ScheduleClosing.

Variables bfm_no pm_type technician week_start completion_date notes : string.
Variable hours : Q.

Local Abbreviation close_row :=
  (fun r => if closes bfm_no pm_type technician week_start r
            then completed_row completion_date hours notes r else r).

Lemma complete_schedule_rows s :
  weekly_pm_schedules
    (complete_schedule bfm_no pm_type technician week_start completion_date
       hours notes s).2
  = map close_row (weekly_pm_schedules s).
Proof. reflexivity. Qed.

Lemma close_key r : schedule_key (close_row r) = schedule_key r.
Proof. cbv beta; destruct (closes bfm_no pm_type technician week_start r); reflexivity. Qed.

Lemma close_matches b p t w r :
  schedule_matches b p t w (close_row r) = schedule_matches b p t w r.
Proof. cbv beta; destruct (closes bfm_no pm_type technician week_start r); reflexivity. Qed.

Lemma filter_matches_close b p t w l :
  List.filter (schedule_matches b p t w) (map close_row l)
  = map close_row (List.filter (schedule_matches b p t w) l).
Proof.
  induction l as [|r l IH]; [reflexivity|].
  cbn [map List.filter]. rewrite close_matches, IH.
  destruct (schedule_matches b p t w r); reflexivity.
Qed.

Lemma close_status r :
  ws_status (close_row r)
  = if closes bfm_no pm_type technician week_start r then "Completed"
    else ws_status r.
Proof. cbv beta; destruct (closes bfm_no pm_type technician week_start r); reflexivity. Qed.

End ScheduleClosing.

Lemma week_start_of_monday completion_date week_start :
  week_start_of completion_date = Ok week_start ->
  exists d w,
    PyDate.strptime completion_date "%Y-%m-%d" = Ok d
    /\ get_week_start d = Ok w
    /\ week_start = PyDate.strftime_ymd w.
Proof.
  unfold week_start_of. intros H.
  destruct (PyDate.strptime completion_date "%Y-%m-%d") as [d|] eqn:Hd;
    [|discriminate].
  cbn [mbind res_bind] in H.
  destruct (get_week_start d) as [w|] eqn:Hw; [|discriminate].
  injection H as <-. eauto.
Qed.

(** X13: what a committed completion does to the weekly schedule. *)
Theorem completion_closes_scheduled_entries env form s :
  let bfm_no := Py.strip (completion_bfm_var form) in
  let pm_type := pm_type_var form in
  let technician := completion_tech_var form in
  let pm_due_date := Py.strip (pm_due_date_var form) in
  let completion_date :=
    if Py.truthy pm_due_date then pm_due_date
    else PyDate.strftime_ymd (today env) in
  let hours := (labor_hours_var form + labor_minutes_var form / 60)%Q in
  let sub := submit_pm_completion env form s in
  committed (result sub) = true ->
  pm_type <> "CANNOT FIND" -> pm_type <> "Run to Failure" ->
  exists d monday,
    PyDate.strptime completion_date "%Y-%m-%d" = Ok d
    /\ get_week_start d = Ok monday
    /\ PyDate.weekday monday = 0
    /\ PyDate.toordinal d - 6 <= PyDate.toordinal monday <= PyDate.toordinal d
    /\ weekly_pm_schedules (store sub)
       = map (fun r =>
                if closes bfm_no pm_type technician (PyDate.strftime_ymd monday) r
                then completed_row completion_date hours (notes_text form) r
                else r)
           (weekly_pm_schedules s)
    /\ (forall r,
          In r (weekly_pm_schedules (store sub)) ->
          schedule_matches bfm_no pm_type technician
            (PyDate.strftime_ymd monday) r = true ->
          ws_status r <> "Scheduled").
Proof.
  cbv zeta. intros Hc Hcf Hrtf.
  destruct (committed_store env form s Hc) as [_ [H|[H|H]]];
    [destruct H as [H _]; contradiction|destruct H as [H _]; contradiction|].
  destruct H as (_ & _ & next_annual & week_start & _ & Hws & _ & Hstore).
  destruct (week_start_of_monday _ _ Hws) as (d & w & Hd & Hw & ->).
  pose proof (strptime_valid _ _ _ Hd) as Hv.
  destruct (get_week_start_ok d) as [w' Hw'].
  { split; [exact (strptime_toordinal _ _ _ Hd)
           |exact (strptime_toordinal_max _ _ _ Hd)]. }
  exists d, w. split; [exact Hd|]. split; [exact Hw|].
  assert (Hmon : PyDate.weekday w = 0
                 /\ PyDate.toordinal d - 6 <= PyDate.toordinal w
                    <= PyDate.toordinal d).
  { pose proof (strptime_toordinal _ _ _ Hd) as Hmin.
    pose proof (strptime_toordinal_max _ _ _ Hd) as Hmax.
    unfold get_week_start, PyDate.add_days, PyDate.weekday in *.
    set (o := PyDate.toordinal d) in *.
    assert (Hwd : 0 <= (o + 6) mod 7 < 7) by (apply Z.mod_pos_bound; lia).
    assert (Hlow : 1 <= o + - ((o + 6) mod 7)).
    { clearbody o. Z.to_euclidean_division_equations. lia. }
    destruct ((1 <=? o + - ((o + 6) mod 7))
              && (o + - ((o + 6) mod 7) <=? PyDate.MAXORDINAL));
      [|discriminate].
    injection Hw as <-.
    destruct (ord2ymd_spec (o + - ((o + 6) mod 7)) ltac:(lia)) as [_ Hord].
    cbv zeta in Hord. rewrite Hord.
    split; [|lia].
    clearbody o. Z.to_euclidean_division_equations. lia. }
  destruct Hmon as [Hmon Hrange].
  split; [exact Hmon|]. split; [exact Hrange|].
  rewrite Hstore, complete_schedule_rows.
  cbn [update_equipment insert_completion snd weekly_pm_schedules].
  split; [reflexivity|].
  intros r Hin Hm. apply in_map_iff in Hin as (r0 & <- & _).
  rewrite close_matches in Hm. rewrite close_status.
  unfold closes. rewrite Hm. cbn [andb].
  destruct (String.eqb_spec (ws_status r0) "Scheduled"); [discriminate|assumption].
Qed.

Lemma completion_closes_scheduled_entries_witness :
  let planned :=
    mk_schedule "2025-02-03" "E-0100" "Monthly" "Jon Hymel" "Scheduled"
      "2025-02-04" None None None in
  let other :=
    mk_schedule "2025-02-03" "E-0100" "Monthly" "Wayne Dunnam" "Scheduled"
      "2025-02-04" None None None in
  let s :=
    mk_db
      [ mk_equipment "E-0100" "Press" "Bay 1" true false true
          None None None None None None "Active" ]
      [] [planned; other] [] [] in
  let form := mk_form "E-0100" "Monthly" "Jon Hymel" 1 30 "2025-02-06" "" "ok" "" in
  let env := mk_env (PyDate.mkdate 2025 2 7) true (fun _ => 0) 0 no_faults in
  weekly_pm_schedules (store (submit_pm_completion env form s))
  = [ mk_schedule "2025-02-03" "E-0100" "Monthly" "Jon Hymel" "Completed"
        "2025-02-04" (Some "2025-02-06") (Some (1 + 30 / 60)%Q) (Some "ok");
      other ].
Proof.
  intros planned other s form env.
  destruct (completion_closes_scheduled_entries env form s
              ltac:(vm_compute; reflexivity) ltac:(discriminate)
              ltac:(discriminate))
    as (d & monday & Hd & Hmonday & _ & _ & Hrows & _).
  vm_compute in Hd. injection Hd as <-.
  vm_compute in Hmonday. injection Hmonday as <-.
  rewrite Hrows. reflexivity.
Defined.

Section VerificationOfNormal.

Variable s : db.
Variables bfm_no pm_type technician completion_date week_start : string.
Variables labor_hours labor_minutes : Q.
Variables pm_due_date special_equipment notes next_annual : string.

Let row := fun id =>
  mk_completion id bfm_no pm_type technician completion_date labor_hours
    labor_minutes pm_due_date special_equipment notes next_annual.

Let s' :=
  (complete_schedule bfm_no pm_type technician week_start completion_date
     (labor_hours + labor_minutes / 60)%Q notes
     (update_equipment bfm_no (normal_update pm_type completion_date next_annual)
        (insert_completion row s).2).2).2.

Hypothesis week_start_known : week_start_of completion_date = Ok week_start.
Hypothesis one_row :
  is_normal_pm pm_type = true -> length (equipment_with bfm_no s) = 1%nat.

(** The verification of the database a normal completion leaves. *)
Lemma verify_after_normal_completion :
  verify_pm_completion_saved s' bfm_no pm_type technician completion_date
  = match
      List.filter (schedule_matches bfm_no pm_type technician week_start)
        (weekly_pm_schedules s)
    with
    | r :: _ =>
        if String.eqb (ws_status r) "Scheduled"
           || String.eqb (ws_status r) "Completed"
        then AllChecksPassed (next_completion_id s)
        else ScheduleNotCompleted (ws_status r)
    | [] => AllChecksPassed (next_completion_id s)
    end.
Proof.
  unfold verify_pm_completion_saved.
  (* Check 1 *)
  assert (Hpc : pm_completions s' = pm_completions s ++ [row (next_completion_id s)])
    by reflexivity.
  rewrite Hpc, List.filter_app. cbn [List.filter].
  unfold row at 1 2 3 4.
  cbn [pc_bfm_equipment_no pc_pm_type pc_technician_name pc_completion_date].
  rewrite !String.eqb_refl. cbn [andb]. rewrite rev_unit.
  (* Check 2 *)
  assert (Hmis :
    (if is_normal_pm pm_type then
       match equipment_with bfm_no s' with
       | e :: _ =>
           if bool_decide (last_pm_field pm_type e = Some completion_date)
           then None else Some (last_pm_field pm_type e)
       | [] => None
       end
     else None) = None).
  { destruct (is_normal_pm pm_type) eqn:Hn; [|reflexivity].
    assert (He : equipment_with bfm_no s'
                 = map (normal_update pm_type completion_date next_annual)
                     (equipment_with bfm_no s)).
    { unfold equipment_with, s'.
      cbn [complete_schedule update_equipment insert_completion snd equipment].
      apply filter_map_update. intros e. apply normal_update_bfm. }
    rewrite He.
    destruct (equipment_with bfm_no s) as [|e l]; [reflexivity|].
    cbn [map]. rewrite (last_pm_field_normal_update _ _ _ _ Hn).
    rewrite bool_decide_eq_true_2 by reflexivity. reflexivity. }
  rewrite Hmis.
  (* Check 3 *)
  rewrite week_start_known.
  assert (Hws : weekly_pm_schedules s'
                = map (fun r =>
                         if closes bfm_no pm_type technician week_start r
                         then completed_row completion_date
                                (labor_hours + labor_minutes / 60)%Q notes r
                         else r)
                    (weekly_pm_schedules s)) by reflexivity.
  rewrite Hws, filter_matches_close.
  destruct (List.filter (schedule_matches bfm_no pm_type technician week_start)
              (weekly_pm_schedules s)) as [|r l] eqn:Hf; [reflexivity|].
  assert (Hm : schedule_matches bfm_no pm_type technician week_start r = true).
  { assert (Hin : In r (List.filter
                          (schedule_matches bfm_no pm_type technician week_start)
                          (weekly_pm_schedules s)))
      by (rewrite Hf; left; reflexivity).
    apply filter_In in Hin as [_ Hin]. exact Hin. }
  cbn [map]. unfold closes. rewrite Hm. cbn [andb].
  destruct (String.eqb (ws_status r) "Scheduled"); reflexivity.
Qed.

End VerificationOfNormal.

(** X14: whether a committed completion of a normal PM type is
    reported as verified. *)
Theorem committed_completion_verification env form s :
  let bfm_no := Py.strip (completion_bfm_var form) in
  let pm_type := pm_type_var form in
  let technician := completion_tech_var form in
  let pm_due_date := Py.strip (pm_due_date_var form) in
  let completion_date :=
    if Py.truthy pm_due_date then pm_due_date
    else PyDate.strftime_ymd (today env) in
  let sub := submit_pm_completion env form s in
  committed (result sub) = true ->
  pm_type <> "CANNOT FIND" -> pm_type <> "Run to Failure" ->
  exists week_start,
    week_start_of completion_date = Ok week_start
    /\ result sub
       = match
           List.filter (schedule_matches bfm_no pm_type technician week_start)
             (weekly_pm_schedules s)
         with
         | r :: _ =>
             if String.eqb (ws_status r) "Scheduled"
                || String.eqb (ws_status r) "Completed"
             then Verified
             else SavedUnverified (ScheduleNotCompleted (ws_status r))
         | [] => Verified
         end
    /\ (result sub = Verified -> form_after sub = cleared_form).
Proof.
  cbv zeta. intros Hc Hcf Hrtf.
  destruct (committed_store env form s Hc) as [Hres [H|[H|H]]];
    [destruct H as [H _]; contradiction|destruct H as [H _]; contradiction|].
  destruct H as (_ & _ & next_annual & week_start & _ & Hws & Hlen & Hstore).
  exists week_start. split; [exact Hws|].
  cbv zeta in Hres.
  assert (Hv :
    result (submit_pm_completion env form s)
    = match
        List.filter
          (schedule_matches (Py.strip (completion_bfm_var form)) (pm_type_var form)
             (completion_tech_var form) week_start)
          (weekly_pm_schedules s)
      with
      | r :: _ =>
          if String.eqb (ws_status r) "Scheduled"
             || String.eqb (ws_status r) "Completed"
          then Verified
          else SavedUnverified (ScheduleNotCompleted (ws_status r))
      | [] => Verified
      end).
  { rewrite Hres, Hstore.
    rewrite (verify_after_normal_completion s _ _ _ _ _ _ _ _ _ _ _ Hws Hlen).
    destruct (List.filter _ (weekly_pm_schedules s)) as [|r l]; [reflexivity|].
    destruct (String.eqb (ws_status r) "Scheduled"
              || String.eqb (ws_status r) "Completed"); reflexivity. }
  split; [exact Hv|].
  intros Hver. clear Hv Hres Hstore.
  unfold submit_pm_completion in *.
  repeat match goal with
         | H : context [if ?c then _ else _] |- _ =>
             destruct c; cbn [result form_after] in *; try discriminate
         | H : context [match ?x with _ => _ end] |- _ =>
             destruct x; cbn [result form_after] in *; try discriminate
         end; reflexivity.
Qed.

Lemma committed_completion_verification_witness :
  let held :=
    mk_schedule "2025-02-03" "E-0100" "Monthly" "Jon Hymel" "On Hold"
      "2025-02-04" None None None in
  let s :=
    mk_db
      [ mk_equipment "E-0100" "Press" "Bay 1" true false true
          None None None None None None "Active" ]
      [] [held] [] [] in
  let form := mk_form "E-0100" "Monthly" "Jon Hymel" 1 30 "2025-02-06" "" "ok" "" in
  let env := mk_env (PyDate.mkdate 2025 2 7) true (fun _ => 0) 0 no_faults in
  result (submit_pm_completion env form s)
  = SavedUnverified (ScheduleNotCompleted "On Hold")
  /\ length (pm_completions (store (submit_pm_completion env form s))) = 1%nat.
Proof.
  intros held s form env.
  destruct (committed_completion_verification env form s
              ltac:(vm_compute; reflexivity) ltac:(discriminate)
              ltac:(discriminate))
    as (week_start & Hws & Hres & _).
  vm_compute in Hws. injection Hws as <-.
  split; [exact Hres|vm_compute; reflexivity].
Defined.

Section Records.

(** The three record tables after a submission. *)
Lemma submit_records env form s :
  let pm_type := pm_type_var form in
  let sub := submit_pm_completion env form s in
  (pm_completions (store sub) = pm_completions s
   \/ (pm_type <> "CANNOT FIND" /\ pm_type <> "Run to Failure"
       /\ exists row,
           pm_completions (store sub) = pm_completions s ++ [row]
           /\ pc_pm_type row = pm_type
           /\ pc_id row = next_completion_id s))
  /\ (cannot_find_assets (store sub) = cannot_find_assets s
      \/ exists row, cannot_find_assets (store sub) = cannot_find_assets s ++ [row])
  /\ (run_to_failure_assets (store sub) = run_to_failure_assets s
      \/ exists row,
          run_to_failure_assets (store sub) = run_to_failure_assets s ++ [row]).
Proof.
  cbv zeta.
  destruct (committed (result (submit_pm_completion env form s))) eqn:Hc.
  - destruct (committed_store env form s Hc) as [_ [H|[H|H]]].
    + destruct H as (_ & _ & ->).
      cbn [update_equipment insert_cannot_find snd pm_completions
             cannot_find_assets run_to_failure_assets].
      split; [left; reflexivity|].
      split; [right; eexists; reflexivity|left; reflexivity].
    + destruct H as (_ & _ & ->).
      cbn [update_equipment insert_run_to_failure snd pm_completions
             cannot_find_assets run_to_failure_assets].
      split; [left; reflexivity|].
      split; [left; reflexivity|right; eexists; reflexivity].
    + destruct H as (Hcf & Hrtf & next_annual & week_start & _ & _ & _ & ->).
      cbn [complete_schedule update_equipment insert_completion snd pm_completions
             cannot_find_assets run_to_failure_assets].
      split; [right|auto]. split; [exact Hcf|]. split; [exact Hrtf|].
      eexists. split; [reflexivity|]. split; reflexivity.
  - rewrite (submit_uncommitted env form s Hc). auto.
Qed.

Lemma generate_records flt today roster target week_start_var s total_pms s' :
  generate_weekly_assignments flt today roster target week_start_var s
  = Generated total_pms s' ->
  equipment s' = equipment s
  /\ pm_completions s' = pm_completions s
  /\ cannot_find_assets s' = cannot_find_assets s
  /\ run_to_failure_assets s' = run_to_failure_assets s.
Proof.
  intros H.
  destruct (generated_database _ _ _ _ _ _ _ _ H)
    as (week_start & _ & _ & _ & _ & -> & _).
  repeat split.
Qed.

Lemma engine_step_no_pseudo s s' :
  engine_step s s' -> no_pseudo_completions s -> no_pseudo_completions s'.
Proof.
  intros Hstep Hinv. destruct Hstep as [env form s|? ? ? ? ? s T s' Hgen].
  - unfold no_pseudo_completions in *.
    destruct (submit_records env form s) as [[->|H] _]; [exact Hinv|].
    destruct H as (Hcf & Hrtf & row & -> & Hty & _).
    intros r Hr. apply in_app_or in Hr as [Hr|[<-|[]]]; [exact (Hinv r Hr)|].
    rewrite Hty. auto.
  - destruct (generate_records _ _ _ _ _ _ _ _ Hgen) as (_ & Hpc & _).
    unfold no_pseudo_completions. rewrite Hpc. exact Hinv.
Qed.

Lemma reachable_no_pseudo s s' :
  rtc engine_step s s' -> no_pseudo_completions s -> no_pseudo_completions s'.
Proof.
  induction 1 as [|x y z Hxy _ IH]; [auto|].
  intros Hinv. apply IH. exact (engine_step_no_pseudo _ _ Hxy Hinv).
Qed.

End Records.

(** X15: a committed report of one of the two pseudo PM types is
    always announced as saved but not verified. *)
Theorem pseudo_reports_fail_verification s0 env form s :
  let pm_type := pm_type_var form in
  let sub := submit_pm_completion env form s in
  no_pseudo_completions s0 ->
  rtc engine_step s0 s ->
  pm_type = "CANNOT FIND" \/ pm_type = "Run to Failure" ->
  committed (result sub) = true ->
  result sub = SavedUnverified RecordNotFound
  /\ pm_completions (store sub) = pm_completions s
  /\ weekly_pm_schedules (store sub) = weekly_pm_schedules s
  /\ no_pseudo_completions (store sub).
Proof.
  cbv zeta. intros H0 Hreach Hpseudo Hc.
  pose proof (reachable_no_pseudo _ _ Hreach H0) as Hinv.
  destruct (committed_store env form s Hc) as [Hres Hcases].
  assert (Hpc : pm_completions (store (submit_pm_completion env form s))
                = pm_completions s
                /\ weekly_pm_schedules (store (submit_pm_completion env form s))
                   = weekly_pm_schedules s).
  { destruct Hcases as [H|[H|H]].
    - destruct H as (_ & _ & ->). split; reflexivity.
    - destruct H as (_ & _ & ->). split; reflexivity.
    - destruct H as (Hcf & Hrtf & _). destruct Hpseudo; contradiction. }
  destruct Hpc as [Hpc Hws].
  assert (Hnone :
    verify_pm_completion_saved (store (submit_pm_completion env form s))
      (Py.strip (completion_bfm_var form)) (pm_type_var form)
      (completion_tech_var form)
      (if Py.truthy (Py.strip (pm_due_date_var form))
       then Py.strip (pm_due_date_var form)
       else PyDate.strftime_ymd (today env))
    = RecordNotFound).
  { unfold verify_pm_completion_saved. rewrite Hpc.
    rewrite filter_none; [reflexivity|].
    intros r Hr. destruct (Hinv r Hr) as [Hcf Hrtf].
    destruct (String.eqb_spec (pc_pm_type r) (pm_type_var form)) as [E|E].
    - destruct Hpseudo as [Hp|Hp]; rewrite Hp in E; contradiction.
    - rewrite andb_false_r. reflexivity. }
  cbv zeta in Hres. rewrite Hnone in Hres. cbn [verified] in Hres.
  split; [exact Hres|]. split; [exact Hpc|]. split; [exact Hws|].
  unfold no_pseudo_completions. rewrite Hpc. exact Hinv.
Qed.

Lemma pseudo_reports_fail_verification_witness :
  let s :=
    mk_db
      [ mk_equipment "E-0100" "Press" "Bay 1" true false true
          None None None None None None "Active" ]
      [] [] [] [] in
  let form :=
    mk_form "E-0100" "CANNOT FIND" "Jon Hymel" 0 0 "2025-02-06" "" "not in bay" "" in
  let env := mk_env (PyDate.mkdate 2025 2 7) true (fun _ => 0) 0 no_faults in
  result (submit_pm_completion env form s) = SavedUnverified RecordNotFound
  /\ map status (equipment (store (submit_pm_completion env form s))) = ["Missing"].
Proof.
  intros s form env. split; [|vm_compute; reflexivity].
  refine (proj1 (pseudo_reports_fail_verification s env form s _ (rtc_refl _ _)
                   (or_introl eq_refl) _)).
  - intros r Hr. destruct Hr.
  - vm_compute. reflexivity.
Defined.

Section AppendOnly.

Lemma max_id_bound (l : list Z) x : In x l -> x <= fold_right Z.max 0 l.
Proof.
  induction l as [|y l IH]; cbn [fold_right]; intros Hin; [destruct Hin|].
  destruct Hin as [->|Hin]; [lia|]. specialize (IH Hin). lia.
Qed.

Lemma engine_step_records s s' :
  engine_step s s' ->
  (exists l, pm_completions s' = pm_completions s ++ l)
  /\ (exists l, cannot_find_assets s' = cannot_find_assets s ++ l)
  /\ (exists l, run_to_failure_assets s' = run_to_failure_assets s ++ l)
  /\ (List.NoDup (map pc_id (pm_completions s)) ->
      List.NoDup (map pc_id (pm_completions s'))).
Proof.
  intros Hstep. destruct Hstep as [env form s|? ? ? ? ? s T s' Hgen].
  - destruct (submit_records env form s) as (Hpc & Hcf & Hrtf).
    split; [|split; [|split]].
    + destruct Hpc as [->|(_ & _ & row & -> & _)];
        [exists []; symmetry; apply app_nil_r|eauto].
    + destruct Hcf as [->|(row & ->)];
        [exists []; symmetry; apply app_nil_r|eauto].
    + destruct Hrtf as [->|(row & ->)];
        [exists []; symmetry; apply app_nil_r|eauto].
    + destruct Hpc as [->|(_ & _ & row & -> & _ & Hid)]; [auto|].
      intros Hnd. rewrite map_app. cbn [map].
      apply NoDup_append; [exact Hnd|repeat constructor; intros []|].
      intros x Hx [<-|[]]. rewrite Hid in Hx. unfold next_completion_id in Hx.
      apply max_id_bound in Hx. lia.
  - destruct (generate_records _ _ _ _ _ _ _ _ Hgen) as (_ & -> & -> & ->).
    repeat split; try (exists []; symmetry; apply app_nil_r). auto.
Qed.

End AppendOnly.

(** X16: the engine only ever appends to the three record tables. *)
Theorem records_are_append_only s s' :
  rtc engine_step s s' ->
  (exists l, pm_completions s' = pm_completions s ++ l)
  /\ (exists l, cannot_find_assets s' = cannot_find_assets s ++ l)
  /\ (exists l, run_to_failure_assets s' = run_to_failure_assets s ++ l)
  /\ (List.NoDup (map pc_id (pm_completions s)) ->
      List.NoDup (map pc_id (pm_completions s'))).
Proof.
  induction 1 as [s|s1 s2 s3 Hstep _ IH].
  - repeat split; try (exists []; symmetry; apply app_nil_r). auto.
  - destruct (engine_step_records _ _ Hstep)
      as ((l1 & H1) & (l2 & H2) & (l3 & H3) & H4).
    destruct IH as ((m1 & I1) & (m2 & I2) & (m3 & I3) & I4).
    split; [|split; [|split]].
    + exists (l1 ++ m1). rewrite I1, H1, app_assoc. reflexivity.
    + exists (l2 ++ m2). rewrite I2, H2, app_assoc. reflexivity.
    + exists (l3 ++ m3). rewrite I3, H3, app_assoc. reflexivity.
    + auto.
Qed.

Lemma records_are_append_only_witness :
  let s :=
    mk_db
      [ mk_equipment "E-0100" "Press" "Bay 1" true false true
          None None None None None None "Active" ]
      [ mk_completion 7 "E-0100" "Annual" "Jon Hymel" "2024-06-01" 4 0
          "2024-06-01" "" "" "" ]
      [] [] [] in
  let form := mk_form "E-0100" "Monthly" "Jon Hymel" 1 30 "2025-02-06" "" "ok" "" in
  let env := mk_env (PyDate.mkdate 2025 2 7) true (fun _ => 0) 0 no_faults in
  let s' := store (submit_pm_completion env form s) in
  map pc_id (pm_completions s') = [7; 8]
  /\ List.NoDup (map pc_id (pm_completions s')).
Proof.
  intros s form env s'.
  split; [vm_compute; reflexivity|].
  refine (proj2 (proj2 (proj2 (records_are_append_only s s'
                                 (rtc_once _ _ (step_submit env form s))))) _).
  cbn. repeat constructor. intros [].
Defined.

Section Catalogue.

Lemma same_asset_refl e : same_asset e e.
Proof. unfold same_asset. tauto. Qed.

Lemma same_asset_trans e1 e2 e3 :
  same_asset e1 e2 -> same_asset e2 e3 -> same_asset e1 e3.
Proof.
  unfold same_asset.
  intros (A1 & A2 & A3 & A4 & A5 & A6 & A7) (B1 & B2 & B3 & B4 & B5 & B6 & B7).
  repeat split; try congruence; auto.
  destruct B7 as [B7|B7]; [rewrite B7; exact A7|tauto].
Qed.

Lemma same_asset_normal_update pm_type completion_date next_annual e :
  same_asset e (normal_update pm_type completion_date next_annual e).
Proof.
  unfold normal_update, same_asset.
  repeat case_match; cbn; tauto.
Qed.

Lemma Forall2_update (R : equipment_row -> equipment_row -> Prop) bfm_no upd l :
  (forall e, R e e) -> (forall e, R e (upd e)) ->
  Forall2 R l
    (map (fun e => if String.eqb (bfm_equipment_no e) bfm_no then upd e else e) l).
Proof.
  intros Hrefl Hupd. induction l as [|e l IH]; cbn [map]; constructor; [|exact IH].
  destruct (String.eqb (bfm_equipment_no e) bfm_no); auto.
Qed.

Lemma Forall2_same_asset_trans l1 : forall l2 l3,
  Forall2 same_asset l1 l2 -> Forall2 same_asset l2 l3 ->
  Forall2 same_asset l1 l3.
Proof.
  induction l1 as [|e l1 IH]; intros l2 l3 H12 H23.
  - inversion H12; subst. inversion H23; subst. constructor.
  - inversion H12 as [|? e2 ? l2' He Hl]; subst.
    inversion H23 as [|? e3 ? l3' He' Hl']; subst.
    constructor; [exact (same_asset_trans _ _ _ He He')|exact (IH _ _ Hl Hl')].
Qed.

Lemma Forall2_same_asset_refl l : Forall2 same_asset l l.
Proof. induction l; constructor; [apply same_asset_refl|assumption]. Qed.

Lemma engine_step_catalogue s s' :
  engine_step s s' -> Forall2 same_asset (equipment s) (equipment s').
Proof.
  intros Hstep. destruct Hstep as [env form s|? ? ? ? ? s T s' Hgen].
  - destruct (submit_equipment_update env form s) as (upd & -> & Hupd).
    apply Forall2_update; [apply same_asset_refl|].
    intros e.
    destruct Hupd as [->|[[_ ->]|[[_ ->]|(_ & _ & next_annual & _ & ->)]]].
    + apply same_asset_refl.
    + unfold same_asset. cbn. tauto.
    + unfold same_asset. cbn. repeat split; try discriminate. tauto.
    + apply same_asset_normal_update.
  - rewrite (generate_equipment _ _ _ _ _ _ _ _ Hgen).
    apply Forall2_same_asset_refl.
Qed.

End Catalogue.

(** X17: the engine keeps the equipment catalogue: the same assets in
    the same order, no PM cycle switched on, no status set back. *)
Theorem catalogue_is_preserved s s' :
  rtc engine_step s s' ->
  Forall2 same_asset (equipment s) (equipment s')
  /\ map bfm_equipment_no (equipment s') = map bfm_equipment_no (equipment s)
  /\ length (equipment s') = length (equipment s).
Proof.
  intros Hreach.
  assert (H : Forall2 same_asset (equipment s) (equipment s')).
  { induction Hreach as [s|s1 s2 s3 Hstep _ IH].
    - apply Forall2_same_asset_refl.
    - exact (Forall2_same_asset_trans _ _ _ (engine_step_catalogue _ _ Hstep) IH). }
  split; [exact H|].
  induction H as [|e e' l l' He _ IH]; [split; reflexivity|].
  destruct IH as [IH1 IH2]. cbn [map length].
  destruct He as (-> & _). rewrite IH1, IH2. split; reflexivity.
Qed.

Lemma catalogue_is_preserved_witness :
  let s :=
    mk_db
      [ mk_equipment "E-0100" "Press" "Bay 1" true false true
          None None None None None None "Active";
        mk_equipment "E-0200" "Lathe" "Bay 2" true true false
          None None None None None None "Active" ]
      [] [] [] [] in
  let form :=
    mk_form "E-0200" "Run to Failure" "Jon Hymel" 1 0 "2025-02-06" "" "worn" "" in
  let env := mk_env (PyDate.mkdate 2025 2 7) true (fun _ => 0) 0 no_faults in
  let s' := store (submit_pm_completion env form s) in
  map bfm_equipment_no (equipment s') = ["E-0100"; "E-0200"]
  /\ map status (equipment s') = ["Active"; "Run to Failure"].
Proof.
  intros s form env s'. split; [|vm_compute; reflexivity].
  exact (proj1 (proj2 (catalogue_is_preserved s s'
                         (rtc_once _ _ (step_submit env form s))))).
Defined.

Section AssetLists.



Lemma In_updated bfm_no (f : equipment_row -> equipment_row) l e' :
  (forall e, bfm_equipment_no (f e) = bfm_equipment_no e) ->
  In e' (map (fun e => if String.eqb (bfm_equipment_no e) bfm_no then f e else e) l) ->
  bfm_equipment_no e' = bfm_no ->
  exists e, In e l /\ bfm_equipment_no e = bfm_no /\ e' = f e.
Proof.
  intros Hf Hin Hb. apply in_map_iff in Hin as (e & He & Hin).
  destruct (String.eqb_spec (bfm_equipment_no e) bfm_no) as [E|E].
  - exists e. auto.
  - subst e'. contradiction.
Qed.

End AssetLists.

(** X18: a committed CANNOT FIND report records the asset as missing
    and takes it out of the weekly generation. *)
Theorem cannot_find_report_suspends_asset env form s :
  let bfm_no := Py.strip (completion_bfm_var form) in
  let technician := completion_tech_var form in
  let pm_due_date := Py.strip (pm_due_date_var form) in
  let completion_date :=
    if Py.truthy pm_due_date then pm_due_date
    else PyDate.strftime_ymd (today env) in
  let sub := submit_pm_completion env form s in
  pm_type_var form = "CANNOT FIND" ->
  committed (result sub) = true ->
  (exists e, equipment_with bfm_no s = [e]
             /\ cannot_find_assets (store sub)
                = cannot_find_assets s
                  ++ [mk_cannot_find bfm_no (description e) (location e)
                        technician completion_date (notes_text form) "Missing"])
  /\ equipment (store sub)
     = map (fun e => if String.eqb (bfm_equipment_no e) bfm_no
                     then set_missing e else e) (equipment s)
  /\ pm_completions (store sub) = pm_completions s
  /\ weekly_pm_schedules (store sub) = weekly_pm_schedules s
  /\ run_to_failure_assets (store sub) = run_to_failure_assets s
  /\ (forall s2,
        rtc engine_step (store sub) s2 ->
        forall flt today roster target week_start_var total_pms s3 week_start r,
          generate_weekly_assignments flt today roster target week_start_var s2
          = Generated total_pms s3 ->
          PyDate.strptime week_start_var "%Y-%m-%d" = Ok week_start ->
          In r (week_entries (PyDate.strftime_ymd week_start) s3) ->
          ws_bfm_equipment_no r <> bfm_no).
Proof.
  cbv zeta. intros Hpm Hc.
  destruct (committed_store env form s Hc) as [_ [H|[H|H]]].
  2: { destruct H as (H & _). rewrite Hpm in H. discriminate. }
  2: { destruct H as (H & _). contradiction. }
  destruct H as (_ & Hlen & Hstore). rewrite Hstore.
  cbn [update_equipment insert_cannot_find snd cannot_find_assets equipment
         pm_completions weekly_pm_schedules run_to_failure_assets].
  split.
  { unfold equipment_info.
    destruct (equipment_with _ s) as [|e [|e' l]]; try discriminate.
    exists e. split; reflexivity. }
  repeat (split; [reflexivity|]).
  intros s2 Hreach flt today roster target wsv T s3 ws r Hgen Hparse Hin Hbfm.
  destruct (generated_entries_active _ _ _ _ _ _ _ _ _ _ Hgen Hparse Hin)
    as (e & He & Hactive & Hbe & _).
  assert (Hna : not_active (Py.strip (completion_bfm_var form)) s2).
  { eapply reachable_not_active; [exact Hreach|].
    intros e' He' Hb'.
    cbn [update_equipment insert_cannot_find snd equipment] in He'.
    destruct (In_updated _ set_missing _ _ ltac:(reflexivity) He' Hb')
      as (e0 & _ & _ & ->).
    discriminate. }
  apply (Hna e He); congruence.
Qed.

Lemma cannot_find_report_suspends_asset_witness :
  let s :=
    mk_db
      [ mk_equipment "E-0100" "Press" "Bay 1" true false true
          None None None None None None "Active";
        mk_equipment "E-0200" "Lathe" "Bay 2" true false false
          None None None None None None "Active" ]
      [] [] [] [] in
  let form :=
    mk_form "E-0100" "CANNOT FIND" "Jon Hymel" 0 0 "2025-02-06" "" "not in bay" "" in
  let env := mk_env (PyDate.mkdate 2025 2 7) true (fun _ => 0) 0 no_faults in
  let s1 := store (submit_pm_completion env form s) in
  cannot_find_assets s1
  = [mk_cannot_find "E-0100" "Press" "Bay 1" "Jon Hymel" "2025-02-06"
       "not in bay" "Missing"]
  /\ exists s3,
       generate_weekly_assignments no_faults (PyDate.mkdate 2025 2 10)
         technicians weekly_pm_target "2025-02-10" s1
       = Generated 1 s3
       /\ map ws_bfm_equipment_no (week_entries "2025-02-10" s3) = ["E-0200"].
Proof.
  intros s form env s1.
  destruct (cannot_find_report_suspends_asset env form s eq_refl
              ltac:(vm_compute; reflexivity)) as ((e & He & Hcf) & _).
  vm_compute in He. injection He as <-.
  split; [exact Hcf|].
  eexists. split; vm_compute; reflexivity.
Defined.





Section ValidationErrors.

Lemma check_recent_duplicate_total s bfm_no pm_type completion_date :
  exists issues,
    check_recent_duplicate s bfm_no pm_type completion_date = Ok issues.
Proof.
  unfold check_recent_duplicate.
  destruct (latest_completion bfm_no pm_type s) as [recent|]; [|eauto].
  destruct (PyDate.strptime (pc_completion_date recent) "%Y-%m-%d")
    as [last_date|e] eqn:Hl.
  - destruct (PyDate.strptime completion_date "%Y-%m-%d") as [d|e] eqn:Hd.
    + cbn. eauto.
    + rewrite (strptime_raises _ _ _ Hd). cbn. eauto.
  - rewrite (strptime_raises _ _ _ Hl). cbn. eauto.
Qed.

Lemma week_start_of_raises completion_date e :
  PyDate.strptime completion_date "%Y-%m-%d" = Raise e ->
  week_start_of completion_date = Raise ValueError.
Proof.
  intros H. unfold week_start_of. rewrite H, (strptime_raises _ _ _ H).
  reflexivity.
Qed.

End ValidationErrors.

(** X21: [validate_pm_completion] ends in its error branch exactly
    when the completion date is not a [%Y-%m-%d] date. *)
Theorem validation_error_iff_unparseable_date s bfm_no pm_type technician
    completion_date :
  ((exists e,
       validate_pm_completion s bfm_no pm_type technician completion_date
       = ValidationError e)
   <-> exists e, PyDate.strptime completion_date "%Y-%m-%d" = Raise e)
  /\ (forall e,
        validate_pm_completion s bfm_no pm_type technician completion_date
        = ValidationError e -> e = ValueError)
  /\ (forall d,
        PyDate.strptime completion_date "%Y-%m-%d" = Ok d ->
        exists issues,
          validate_pm_completion s bfm_no pm_type technician completion_date
          = match issues with
            | [] => ValidationPassed
            | _ => IssuesFound issues
            end
          /\ forall i,
               In i (check_same_technician s bfm_no technician completion_date
                     ++ check_equipment s bfm_no pm_type) ->
               In i issues).
Proof.
  destruct (check_recent_duplicate_total s bfm_no pm_type completion_date)
    as [issues1 H1].
  assert (Hbad : forall e,
             PyDate.strptime completion_date "%Y-%m-%d" = Raise e ->
             validate_pm_completion s bfm_no pm_type technician completion_date
             = ValidationError ValueError).
  { intros e He. unfold validate_pm_completion, check_scheduled.
    rewrite H1, (week_start_of_raises _ _ He). reflexivity. }
  assert (Hgood : forall d,
             PyDate.strptime completion_date "%Y-%m-%d" = Ok d ->
             exists issues,
               validate_pm_completion s bfm_no pm_type technician completion_date
               = match issues with
                 | [] => ValidationPassed
                 | _ => IssuesFound issues
                 end
               /\ forall i,
                    In i (check_same_technician s bfm_no technician completion_date
                          ++ check_equipment s bfm_no pm_type) ->
                    In i issues).
  { intros d Hd. destruct (week_start_of_ok _ _ Hd) as [w Hw].
    unfold validate_pm_completion, check_scheduled. rewrite H1, Hw.
    cbn [mbind res_bind].
    match goal with
    | |- context [match ?l with [] => ValidationPassed | _ => _ end] =>
        exists l
    end.
    split.
    - destruct (issues1 ++ _); reflexivity.
    - intros i Hi. apply in_or_app. right.
      apply in_app_or in Hi as [Hi|Hi]; apply in_or_app; [left; exact Hi|].
      right. apply in_or_app. left. exact Hi. }
  split; [split|split].
  - intros [e He].
    destruct (PyDate.strptime completion_date "%Y-%m-%d") as [d|e'] eqn:Hd;
      [|eauto].
    destruct (Hgood d eq_refl) as (issues & Hv & _). rewrite Hv in He.
    destruct issues; discriminate.
  - intros [e He]. exists ValueError. exact (Hbad e He).
  - intros e He.
    destruct (PyDate.strptime completion_date "%Y-%m-%d") as [d|e'] eqn:Hd.
    + destruct (Hgood d eq_refl) as (issues & Hv & _). rewrite Hv in He.
      destruct issues; discriminate.
    + rewrite (Hbad e' eq_refl) in He. congruence.
  - exact Hgood.
Qed.

(** X22: a completion of a normal PM type whose date does not parse
    is never committed. *)
Theorem unparseable_date_is_never_committed env form s e :
  let pm_type := pm_type_var form in
  let pm_due_date := Py.strip (pm_due_date_var form) in
  let completion_date :=
    if Py.truthy pm_due_date then pm_due_date
    else PyDate.strftime_ymd (today env) in
  let sub := submit_pm_completion env form s in
  PyDate.strptime completion_date "%Y-%m-%d" = Raise e ->
  pm_type <> "CANNOT FIND" -> pm_type <> "Run to Failure" ->
  committed (result sub) = false
  /\ store sub = s
  /\ (Py.truthy (completion_bfm_var form) = true ->
      Py.truthy pm_type = true ->
      Py.truthy (completion_tech_var form) = true ->
      proceed_anyway env = false ->
      result sub = Cancelled).
Proof.
  cbv zeta. intros He Hcf Hrtf.
  assert (Hc : committed (result (submit_pm_completion env form s)) = false).
  { destruct (committed (result (submit_pm_completion env form s))) eqn:Hc;
      [exfalso|reflexivity].
    destruct (committed_store env form s Hc) as [_ [H|[H|H]]];
      [destruct H as [H _]; contradiction|destruct H as [H _]; contradiction|].
    destruct H as (_ & _ & next_annual & week_start & _ & Hws & _).
    rewrite (week_start_of_raises _ _ He) in Hws. discriminate. }
  split; [exact Hc|]. split; [exact (submit_uncommitted env form s Hc)|].
  intros Hb Hp Ht Hno.
  unfold submit_pm_completion. rewrite Hb, Hp, Ht. cbn [negb orb].
  unfold validate_pm_completion, check_scheduled.
  destruct (check_recent_duplicate_total s (Py.strip (completion_bfm_var form))
              (pm_type_var form)
              (if Py.truthy (Py.strip (pm_due_date_var form))
               then Py.strip (pm_due_date_var form)
               else PyDate.strftime_ymd (today env))) as [issues1 H1].
  rewrite H1, (week_start_of_raises _ _ He), Hno. reflexivity.
Qed.

Lemma unparseable_date_is_never_committed_witness :
  let s :=
    mk_db
      [ mk_equipment "E-0100" "Press" "Bay 1" true false true
          None None None None None None "Active" ]
      [] [] [] [] in
  let form := mk_form "E-0100" "Monthly" "Jon Hymel" 1 30 "02/06/2025" "" "ok" "" in
  let accepted := mk_env (PyDate.mkdate 2025 2 7) true (fun _ => 0) 0 no_faults in
  let declined := mk_env (PyDate.mkdate 2025 2 7) false (fun _ => 0) 0 no_faults in
  store (submit_pm_completion accepted form s) = s
  /\ result (submit_pm_completion accepted form s) = RolledBack
  /\ result (submit_pm_completion declined form s) = Cancelled.
Proof.
  intros s form accepted declined.
  split; [|split; [vm_compute; reflexivity|]].
  - exact (proj1 (proj2 (unparseable_date_is_never_committed accepted form s
                           ValueError ltac:(vm_compute; reflexivity)
                           ltac:(discriminate) ltac:(discriminate)))).
  - exact (proj2 (proj2 (unparseable_date_is_never_committed declined form s
                           ValueError ltac:(vm_compute; reflexivity)
                           ltac:(discriminate) ltac:(discriminate)))
             eq_refl eq_refl eq_refl eq_refl).
Defined.

Section SqliteDates.

Lemma two_digits_zero_pad n :
  0 <= n <= 99 ->
  PyDate.two_digits (Py.digit_char (n / 10)) (Py.digit_char n) = n.
Proof.
  intros Hn. unfold PyDate.two_digits.
  rewrite !(proj1 (proj2 (digit_char_spec _))).
  Z.to_euclidean_division_equations. lia.
Qed.

Lemma parse_ymd_strftime y m dd d :
  PyDate.make_date y m dd = Ok d ->
  Sqlite.parse_ymd (PyDate.strftime_ymd d) = Some (y, m, dd).
Proof.
  intros Hd.
  destruct (make_date_bounds _ _ _ _ Hd) as (-> & Hy & Hm & Hdd).
  pose proof (days_in_month_max y m) as Hmax.
  unfold Sqlite.parse_ymd. rewrite strftime_chars.
  cbn [PyDate.year PyDate.month PyDate.day].
  pose proof (int_of_zero_pad_4 y ltac:(lia)) as Hint.
  rewrite zero_pad_4 in *. rewrite !zero_pad_2. cbn [app forallb].
  rewrite !(proj1 (digit_char_spec _)), Hint.
  rewrite !two_digits_zero_pad by lia.
  cbn [andb]. change (Ascii.eqb "-" "-") with true. cbn [andb].
  replace (1 <=? m) with true by (symmetry; apply Z.leb_le; lia).
  replace (m <=? 12) with true by (symmetry; apply Z.leb_le; lia).
  replace (1 <=? dd) with true by (symmetry; apply Z.leb_le; lia).
  replace (dd <=? 31) with true by (symmetry; apply Z.leb_le; lia).
  reflexivity.
Qed.

Lemma parse_ymd_iso_shape c r :
  Sqlite.parse_ymd c = Some r -> DateStandardizer.is_iso_shape c = true.
Proof.
  unfold Sqlite.parse_ymd, DateStandardizer.is_iso_shape.
  destruct (String.list_ascii_of_string c)
    as [|y1 [|y2 [|y3 [|y4 [|s1 [|m1 [|m2 [|s2 [|d1 [|d2 [|x l]]]]]]]]]]];
    try discriminate.
  destruct (forallb Py.is_digit _ && Ascii.eqb s1 "-" && Ascii.eqb s2 "-");
    [reflexivity|discriminate].
Qed.

(** [DATE(c, '+n days')] on a canonical date text. *)
Lemma date_add_iso c d n :
  DateStandardizer.is_iso_shape c = true ->
  PyDate.strptime c "%Y-%m-%d" = Ok d ->
  1 <= PyDate.toordinal d + n <= PyDate.MAXORDINAL ->
  Sqlite.date_add c n
  = Some (PyDate.strftime_ymd (PyDate.ord2ymd (PyDate.toordinal d + n))).
Proof.
  intros Hiso Hd Hn.
  rewrite <- (strftime_strptime_iso _ _ Hiso Hd).
  pose proof (strptime_valid _ _ _ Hd) as Hv.
  unfold Sqlite.date_add. rewrite (parse_ymd_strftime _ _ _ _ Hv).
  fold (PyDate.toordinal d).
  destruct (ord2ymd_spec _ Hn) as [Hr _]. cbv zeta in Hr.
  destruct (make_date_bounds _ _ _ _ Hr) as (_ & Hy & _).
  replace (0 <=? PyDate.year (PyDate.ord2ymd (PyDate.toordinal d + n)))
    with true by (symmetry; apply Z.leb_le; lia).
  replace (PyDate.year (PyDate.ord2ymd (PyDate.toordinal d + n)) <=? 9999)
    with true by (symmetry; apply Z.leb_le; lia).
  reflexivity.
Qed.

Lemma date_add_not_iso c n :
  DateStandardizer.is_iso_shape c = false -> Sqlite.date_add c n = None.
Proof.
  intros H. unfold Sqlite.date_add.
  destruct (Sqlite.parse_ymd c) as [r|] eqn:Hp; [|reflexivity].
  rewrite (parse_ymd_iso_shape _ _ Hp) in H. discriminate.
Qed.

Lemma next_pm_field_normal_update pm_type completion_date next_annual e :
  is_normal_pm pm_type = true ->
  next_pm_field pm_type (normal_update pm_type completion_date next_annual e)
  = Sqlite.date_add completion_date (cycle_days pm_type).
Proof.
  unfold is_normal_pm, next_pm_field, normal_update, cycle_days.
  destruct (String.eqb pm_type "Monthly").
  - intros _. destruct (Py.truthy next_annual); reflexivity.
  - destruct (String.eqb pm_type "Six Month"); [reflexivity|].
    destruct (String.eqb pm_type "Annual"); [reflexivity|discriminate].
Qed.

End SqliteDates.

Section CommittedEquipment.

(** The equipment row a committed normal completion leaves. *)
Lemma committed_normal_equipment env form s :
  let bfm_no := Py.strip (completion_bfm_var form) in
  let pm_type := pm_type_var form in
  let pm_due_date := Py.strip (pm_due_date_var form) in
  let completion_date :=
    if Py.truthy pm_due_date then pm_due_date
    else PyDate.strftime_ymd (today env) in
  let sub := submit_pm_completion env form s in
  committed (result sub) = true ->
  is_normal_pm pm_type = true ->
  exists e0 next_annual d row,
    equipment_with bfm_no s = [e0]
    /\ auto_next_annual env bfm_no pm_type completion_date
         (Py.strip (next_annual_pm_var form)) = Ok next_annual
    /\ PyDate.strptime completion_date "%Y-%m-%d" = Ok d
    /\ equipment_with bfm_no (store sub)
       = [normal_update pm_type completion_date next_annual e0]
    /\ pm_completions (store sub) = pm_completions s ++ [row]
    /\ pc_next_annual_pm_date row = next_annual
    /\ pc_completion_date row = completion_date.
Proof.
  cbv zeta. intros Hc Hn.
  destruct (committed_store env form s Hc) as [_ [H|[H|H]]].
  1: { destruct H as (H & _). rewrite H in Hn. discriminate. }
  1: { destruct H as (H & _). rewrite H in Hn. discriminate. }
  destruct H as (_ & _ & next_annual & week_start & Hauto & Hws & Hlen & Hstore).
  specialize (Hlen Hn).
  destruct (week_start_of_monday _ _ Hws) as (d & w & Hd & _).
  destruct (equipment_with (Py.strip (completion_bfm_var form)) s)
    as [|e0 [|e1 l]] eqn:He; try discriminate.
  exists e0, next_annual, d. eexists.
  split; [reflexivity|]. split; [exact Hauto|]. split; [exact Hd|].
  rewrite Hstore. split.
  - unfold equipment_with in *.
    cbn [complete_schedule update_equipment insert_completion snd equipment].
    rewrite filter_map_update by (intros e; apply normal_update_bfm).
    rewrite He. reflexivity.
  - cbn [complete_schedule update_equipment insert_completion snd pm_completions].
    split; [reflexivity|]. split; reflexivity.
Qed.

End CommittedEquipment.

(** X23: the next-due date a committed completion stores. *)
Theorem completion_sets_next_due_date env form s :
  let bfm_no := Py.strip (completion_bfm_var form) in
  let pm_type := pm_type_var form in
  let pm_due_date := Py.strip (pm_due_date_var form) in
  let completion_date :=
    if Py.truthy pm_due_date then pm_due_date
    else PyDate.strftime_ymd (today env) in
  let sub := submit_pm_completion env form s in
  committed (result sub) = true ->
  is_normal_pm pm_type = true ->
  exists e d,
    equipment_with bfm_no (store sub) = [e]
    /\ PyDate.strptime completion_date "%Y-%m-%d" = Ok d
    /\ last_pm_field pm_type e = Some completion_date
    /\ (DateStandardizer.is_iso_shape completion_date = false ->
        next_pm_field pm_type e = None)
    /\ (DateStandardizer.is_iso_shape completion_date = true ->
        PyDate.toordinal d + cycle_days pm_type <= PyDate.MAXORDINAL ->
        exists next_due,
          next_pm_field pm_type e = Some (PyDate.strftime_ymd next_due)
          /\ PyDate.strptime (PyDate.strftime_ymd next_due) "%Y-%m-%d"
             = Ok next_due
          /\ PyDate.toordinal next_due
             = PyDate.toordinal d + cycle_days pm_type).
Proof.
  cbv zeta. intros Hc Hn.
  destruct (committed_normal_equipment env form s Hc Hn)
    as (e0 & next_annual & d & row & _ & _ & Hd & He & _).
  eexists. exists d. split; [exact He|]. split; [exact Hd|].
  split; [exact (last_pm_field_normal_update _ _ _ _ Hn)|].
  rewrite (next_pm_field_normal_update _ _ _ _ Hn).
  split; [apply date_add_not_iso|].
  intros Hiso Hmax.
  pose proof (strptime_toordinal _ _ _ Hd) as Hmin.
  assert (Hcyc : 30 <= cycle_days (pm_type_var form) <= 365).
  { unfold cycle_days. repeat case_match; lia. }
  destruct (ord2ymd_spec (PyDate.toordinal d + cycle_days (pm_type_var form))
              ltac:(lia)) as [Hv Hord].
  cbv zeta in Hv, Hord.
  eexists. split; [apply (date_add_iso _ _ _ Hiso Hd); lia|].
  split; [exact (strptime_strftime _ _ _ _ Hv)|exact Hord].
Qed.

Lemma completion_sets_next_due_date_witness :
  let s :=
    mk_db
      [ mk_equipment "E-0100" "Press" "Bay 1" true true true
          None None None None None None "Active" ]
      [] [] [] [] in
  let env := mk_env (PyDate.mkdate 2025 2 7) true (fun _ => 0) 0 no_faults in
  let padded :=
    mk_form "E-0100" "Six Month" "Jon Hymel" 1 30 "2025-02-06" "" "ok" "" in
  let bare :=
    mk_form "E-0100" "Six Month" "Jon Hymel" 1 30 "2025-2-6" "" "ok" "" in
  map next_six_month_pm (equipment (store (submit_pm_completion env padded s)))
  = [Some "2025-08-05"]
  /\ result (submit_pm_completion env bare s) = Verified
  /\ map next_six_month_pm (equipment (store (submit_pm_completion env bare s)))
     = [None].
Proof.
  intros s env padded bare.
  split; [vm_compute; reflexivity|]. split; [vm_compute; reflexivity|].
  destruct (completion_sets_next_due_date env bare s
              ltac:(vm_compute; reflexivity) eq_refl)
    as (e & d & He & _ & _ & Hnone & _).
  specialize (Hnone eq_refl).
  assert (Hall : equipment (store (submit_pm_completion env bare s)) = [e]).
  { rewrite <- He. vm_compute. reflexivity. }
  rewrite Hall. cbn [map]. f_equal. exact Hnone.
Defined.

Section AnnualOffset.

Lemma annual_offset_range hash bfm_no : -30 <= annual_offset hash bfm_no <= 30.
Proof.
  unfold annual_offset.
  destruct (last (Py.findall_digits bfm_no)) as [n|].
  - pose proof (Z.mod_pos_bound (Py.int_of_digits n) 61 ltac:(lia)). lia.
  - pose proof (Z.mod_pos_bound (hash bfm_no) 61 ltac:(lia)). lia.
Qed.

Lemma annual_offset_of_digits hash hash' bfm_no :
  Py.findall_digits bfm_no <> [] ->
  annual_offset hash bfm_no = annual_offset hash' bfm_no.
Proof.
  intros H. unfold annual_offset.
  destruct (last (Py.findall_digits bfm_no)) as [n|] eqn:Hl; [reflexivity|].
  apply last_None in Hl. contradiction.
Qed.

Lemma add_days_ok d n :
  1 <= PyDate.toordinal d + n <= PyDate.MAXORDINAL ->
  PyDate.add_days d n = Ok (PyDate.ord2ymd (PyDate.toordinal d + n)).
Proof.
  intros H. unfold PyDate.add_days. cbv zeta.
  destruct (Z.leb_spec 1 (PyDate.toordinal d + n)); [|lia].
  destruct (Z.leb_spec (PyDate.toordinal d + n) PyDate.MAXORDINAL); [|lia].
  reflexivity.
Qed.

Lemma auto_next_annual_unfold env bfm_no completion_date :
  auto_next_annual env bfm_no "Annual" completion_date ""
  = (completion_dt ←
       except_ValueError (PyDate.strptime completion_date "%Y-%m-%d")
         (Ok (today env));
     next_annual_dt ← PyDate.add_days completion_dt 365;
     next_annual_dt ←
       match PyDate.add_days next_annual_dt
               (annual_offset (str_hash env) bfm_no) with
       | Ok d => Ok d
       | Raise _ => PyDate.add_days next_annual_dt (random_offset env)
       end;
     Ok (PyDate.strftime_ymd next_annual_dt)).
Proof. reflexivity. Qed.

Lemma auto_next_annual_of_annual env bfm_no completion_date d :
  PyDate.strptime completion_date "%Y-%m-%d" = Ok d ->
  PyDate.toordinal d + 395 <= PyDate.MAXORDINAL ->
  auto_next_annual env bfm_no "Annual" completion_date ""
  = Ok (PyDate.strftime_ymd
          (PyDate.ord2ymd
             (PyDate.toordinal d + 365 + annual_offset (str_hash env) bfm_no))).
Proof.
  intros Hd Hmax.
  pose proof (strptime_toordinal _ _ _ Hd) as Hmin.
  pose proof (annual_offset_range (str_hash env) bfm_no) as Hoff.
  unfold PyDate.MAXORDINAL in Hmax.
  destruct (ord2ymd_spec (PyDate.toordinal d + 365)
              ltac:(unfold PyDate.MAXORDINAL; lia)) as [_ Hord].
  cbv zeta in Hord.
  rewrite auto_next_annual_unfold, Hd.
  unfold except_ValueError, mbind, res_bind.
  rewrite (add_days_ok d 365) by (unfold PyDate.MAXORDINAL; lia).
  rewrite add_days_ok by (rewrite Hord; unfold PyDate.MAXORDINAL; lia).
  rewrite Hord. reflexivity.
Qed.

End AnnualOffset.

(** X24: after an Annual completion the spread next date is in the
    completion record while the equipment row gets the plain
    anniversary. *)
Theorem annual_completion_spreads_only_the_record env form s d :
  let bfm_no := Py.strip (completion_bfm_var form) in
  let pm_due_date := Py.strip (pm_due_date_var form) in
  let completion_date :=
    if Py.truthy pm_due_date then pm_due_date
    else PyDate.strftime_ymd (today env) in
  let sub := submit_pm_completion env form s in
  let offset := annual_offset (str_hash env) bfm_no in
  committed (result sub) = true ->
  pm_type_var form = "Annual" ->
  Py.strip (next_annual_pm_var form) = "" ->
  DateStandardizer.is_iso_shape completion_date = true ->
  PyDate.strptime completion_date "%Y-%m-%d" = Ok d ->
  PyDate.toordinal d + 395 <= PyDate.MAXORDINAL ->
  exists row e in_record in_equipment,
    pm_completions (store sub) = pm_completions s ++ [row]
    /\ pc_next_annual_pm_date row = PyDate.strftime_ymd in_record
    /\ PyDate.toordinal in_record = PyDate.toordinal d + 365 + offset
    /\ equipment_with bfm_no (store sub) = [e]
    /\ next_annual_pm e = Some (PyDate.strftime_ymd in_equipment)
    /\ PyDate.toordinal in_equipment = PyDate.toordinal d + 365
    /\ -30 <= offset <= 30
    /\ (Py.findall_digits bfm_no <> [] ->
        forall hash, annual_offset hash bfm_no = offset).
Proof.
  cbv zeta. intros Hc Hpm Hblank Hiso Hd Hmax.
  assert (Hn : is_normal_pm (pm_type_var form) = true) by (rewrite Hpm; reflexivity).
  destruct (committed_normal_equipment env form s Hc Hn)
    as (e0 & next_annual & d' & row & _ & Hauto & Hd' & He & Hpc & Hrow & _).
  rewrite Hpm, Hblank, (auto_next_annual_of_annual _ _ _ _ Hd Hmax) in Hauto.
  injection Hauto as <-.
  pose proof (strptime_toordinal _ _ _ Hd) as Hmin.
  pose proof (annual_offset_range (str_hash env)
                (Py.strip (completion_bfm_var form))) as Hoff.
  destruct (ord2ymd_spec
              (PyDate.toordinal d + 365
               + annual_offset (str_hash env) (Py.strip (completion_bfm_var form)))
              ltac:(lia)) as [_ Hord1].
  destruct (ord2ymd_spec (PyDate.toordinal d + 365) ltac:(lia)) as [_ Hord2].
  cbv zeta in Hord1, Hord2.
  exists row. eexists. eexists.
  exists (PyDate.ord2ymd (PyDate.toordinal d + 365)).
  split; [exact Hpc|]. split; [exact Hrow|]. split; [exact Hord1|].
  split; [exact He|]. split.
  { rewrite Hpm. cbn [normal_update].
    change (String.eqb "Annual" "Monthly") with false.
    change (String.eqb "Annual" "Six Month") with false.
    change (String.eqb "Annual" "Annual") with true.
    cbn [set_annual next_annual_pm].
    apply (date_add_iso _ _ _ Hiso Hd). lia. }
  split; [exact Hord2|]. split; [exact Hoff|].
  intros Hdigits hash. exact (annual_offset_of_digits _ _ _ Hdigits).
Qed.

Lemma annual_completion_spreads_only_the_record_witness :
  let s :=
    mk_db
      [ mk_equipment "E-0100" "Press" "Bay 1" true false true
          None None None None None None "Active" ]
      [] [] [] [] in
  let env := mk_env (PyDate.mkdate 2025 2 7) true (fun _ => 0) 0 no_faults in
  let form := mk_form "E-0100" "Annual" "Jon Hymel" 4 0 "2025-02-01" "" "ok" "" in
  let sub := submit_pm_completion env form s in
  annual_offset (fun _ => 0) "E-0100" = 9
  /\ map pc_next_annual_pm_date (pm_completions (store sub)) = ["2026-02-10"]
  /\ map next_annual_pm (equipment (store sub)) = [Some "2026-02-01"].
Proof.
  intros s env form sub.
  destruct (annual_completion_spreads_only_the_record env form s
              (PyDate.mkdate 2025 2 1) ltac:(vm_compute; reflexivity) eq_refl
              eq_refl eq_refl eq_refl ltac:(vm_compute; discriminate))
    as (row & e & d1 & d2 & Hpc & _).
  split; [vm_compute; reflexivity|].
  split; vm_compute; reflexivity.
Defined.

Section AfterMonthly.

Lemma is_pm_overdue_iso today c d frequency_days :
  DateStandardizer.is_iso_shape c = true ->
  PyDate.strptime c "%Y-%m-%d" = Ok d ->
  is_pm_overdue today (Some c) frequency_days
  = (4 * frequency_days <=? 5 * PyDate.days_between today d).
Proof.
  intros Hiso Hd. unfold is_pm_overdue.
  rewrite (truthy_iso_shape _ Hiso), (parse_date_flexible_iso _ _ Hiso Hd).
  cbn [negb mbind res_bind except_Exception Py.truthy_opt default from_option id].
  rewrite (truthy_iso_shape _ Hiso), Hd. reflexivity.
Qed.

Lemma In_equipment_with bfm_no s e :
  In e (equipment s) -> bfm_equipment_no e = bfm_no ->
  In e (equipment_with bfm_no s).
Proof.
  intros Hin Hb. apply filter_In. split; [exact Hin|].
  apply String.eqb_eq. exact Hb.
Qed.

End AfterMonthly.

(** X25: once a Monthly completion is committed the equipment is not
    selected for Monthly again before day 24. *)
Theorem monthly_completion_leaves_the_scheduler env form s :
  let bfm_no := Py.strip (completion_bfm_var form) in
  let pm_due_date := Py.strip (pm_due_date_var form) in
  let completion_date :=
    if Py.truthy pm_due_date then pm_due_date
    else PyDate.strftime_ymd (today env) in
  let sub := submit_pm_completion env form s in
  committed (result sub) = true ->
  pm_type_var form = "Monthly" ->
  DateStandardizer.is_iso_shape completion_date = true ->
  exists e d,
    equipment_with bfm_no (store sub) = [e]
    /\ PyDate.strptime completion_date "%Y-%m-%d" = Ok d
    /\ (forall today,
          assigned_pm today e = Some "Monthly"
          <-> monthly_pm e = true /\ 24 <= PyDate.days_between today d)
    /\ (forall flt today roster target week_start_var total_pms s3 week_start r,
          PyDate.days_between today d < 24 ->
          generate_weekly_assignments flt today roster target week_start_var
            (store sub)
          = Generated total_pms s3 ->
          PyDate.strptime week_start_var "%Y-%m-%d" = Ok week_start ->
          In r (week_entries (PyDate.strftime_ymd week_start) s3) ->
          ws_bfm_equipment_no r = bfm_no ->
          ws_pm_type r <> "Monthly").
Proof.
  cbv zeta. intros Hc Hpm Hiso.
  assert (Hn : is_normal_pm (pm_type_var form) = true) by (rewrite Hpm; reflexivity).
  destruct (committed_normal_equipment env form s Hc Hn)
    as (e0 & next_annual & d & row & _ & _ & Hd & He & _).
  eexists. exists d. split; [exact He|]. split; [exact Hd|].
  assert (Hlast :
    last_monthly_pm
      (normal_update (pm_type_var form)
         (if Py.truthy (Py.strip (pm_due_date_var form))
          then Py.strip (pm_due_date_var form)
          else PyDate.strftime_ymd (today env)) next_annual e0)
    = Some (if Py.truthy (Py.strip (pm_due_date_var form))
            then Py.strip (pm_due_date_var form)
            else PyDate.strftime_ymd (today env))).
  { pose proof (last_pm_field_normal_update (pm_type_var form)
                  (if Py.truthy (Py.strip (pm_due_date_var form))
                   then Py.strip (pm_due_date_var form)
                   else PyDate.strftime_ymd (today env)) next_annual e0 Hn) as H.
    unfold last_pm_field in H. rewrite Hpm in H. rewrite Hpm. exact H. }
  assert (Hassigned : forall day,
    assigned_pm day
      (normal_update (pm_type_var form)
         (if Py.truthy (Py.strip (pm_due_date_var form))
          then Py.strip (pm_due_date_var form)
          else PyDate.strftime_ymd (today env)) next_annual e0)
    = Some "Monthly"
    <-> monthly_pm
          (normal_update (pm_type_var form)
             (if Py.truthy (Py.strip (pm_due_date_var form))
              then Py.strip (pm_due_date_var form)
              else PyDate.strftime_ymd (today env)) next_annual e0) = true
        /\ 24 <= PyDate.days_between day d).
  { intros day. rewrite assigned_pm_cascade, Hlast.
    rewrite (is_pm_overdue_iso _ _ _ _ Hiso Hd).
    destruct (monthly_pm _); cbn [andb].
    - destruct (Z.leb_spec (4 * 30) (5 * PyDate.days_between day d)).
      + split; [intros _; split; [reflexivity|lia]|reflexivity].
      + split; [|intros [_ ?]; lia].
        destruct (annual_pm _ && _); discriminate.
    - split; [|intros [? _]; discriminate].
      destruct (annual_pm _ && _); discriminate. }
  split; [exact Hassigned|].
  intros flt today roster target wsv T s3 ws r Hdays Hgen Hparse Hin Hb Hty.
  destruct (generated_entries_active _ _ _ _ _ _ _ _ _ _ Hgen Hparse Hin)
    as (e & Hine & _ & Hbe & Hpm').
  rewrite Hb in Hbe.
  pose proof (In_equipment_with _ _ _ Hine Hbe) as Hw.
  rewrite He in Hw. destruct Hw as [<-|[]].
  rewrite Hty in Hpm'. apply Hassigned in Hpm'. lia.
Qed.

Lemma monthly_completion_leaves_the_scheduler_witness :
  let s :=
    mk_db
      [ mk_equipment "E-0100" "Press" "Bay 1" true false true
          None None None None None None "Active" ]
      [] [] [] [] in
  let env := mk_env (PyDate.mkdate 2025 2 7) true (fun _ => 0) 0 no_faults in
  let form := mk_form "E-0100" "Monthly" "Jon Hymel" 1 30 "2025-02-06" "" "ok" "" in
  let s1 := store (submit_pm_completion env form s) in
  exists e,
    equipment s1 = [e]
    /\ assigned_pm (PyDate.mkdate 2025 3 1) e <> Some "Monthly"
    /\ assigned_pm (PyDate.mkdate 2025 3 2) e = Some "Monthly".
Proof.
  intros s env form s1.
  destruct (monthly_completion_leaves_the_scheduler env form s
              ltac:(vm_compute; reflexivity) eq_refl eq_refl)
    as (e & d & He & Hd & Hiff & _).
  vm_compute in Hd. injection Hd as <-.
  exists e. split; [rewrite <- He; vm_compute; reflexivity|]. split.
  - intros H. apply Hiff in H as [_ H]. vm_compute in H. apply H. reflexivity.
  - apply Hiff. split; [|vm_compute; discriminate].
    assert (Hall : equipment s1 = [e]) by (rewrite <- He; vm_compute; reflexivity).
    vm_compute in Hall. injection Hall as <-. reflexivity.
Defined.

Section TwoDigitYears.

Lemma two_digits_range c1 c2 :
  Py.is_digit c1 = true -> Py.is_digit c2 = true ->
  0 <= PyDate.two_digits c1 c2 <= 99.
Proof.
  intros H1 H2. destruct (digit_cases _ H1) as [_ R1].
  destruct (digit_cases _ H2) as [_ R2]. unfold PyDate.two_digits. lia.
Qed.

Lemma re_y_range s v r : In (v, r) (PyDate.re_y s) -> 0 <= v <= 99.
Proof.
  unfold PyDate.re_y, PyDate.alt2.
  destruct s as [|c1 [|c2 s]]; try (intros []).
  destruct (Py.is_digit c1) eqn:H1; [|intros []].
  destruct (Py.is_digit c2) eqn:H2; [|intros []].
  cbn [andb]. intros [[= <- _]|[]]. exact (two_digits_range _ _ H1 H2).
Qed.

(** The years ['%y'] gives: 1969 to 2068. *)
Local Abbreviation in_window := (fun acc : Z * Z * Z => 1969 <= acc.1.1 <= 2068).

Lemma match_format_keeps_window f : forall s acc r,
  ~ In PyDate.D_Y f -> in_window acc ->
  In r (PyDate.match_format f s acc) -> in_window r.1.
Proof.
  induction f as [|dir f IH]; intros s acc r HY Hacc Hin.
  - destruct Hin as [<-|[]]. exact Hacc.
  - assert (HY' : ~ In PyDate.D_Y f) by (intros H; apply HY; right; exact H).
    destruct dir; cbn [PyDate.match_format] in Hin.
    + apply in_flat_map in Hin as ([v r'] & _ & Hin).
      refine (IH _ _ _ HY' _ Hin). exact Hacc.
    + apply in_flat_map in Hin as ([v r'] & _ & Hin).
      refine (IH _ _ _ HY' _ Hin). exact Hacc.
    + apply in_flat_map in Hin as ([v r'] & Hv & Hin).
      apply re_y_range in Hv.
      refine (IH _ _ _ HY' _ Hin). cbn [fst].
      destruct (Z.leb_spec v 68); lia.
    + exfalso. apply HY. left. reflexivity.
    + destruct s as [|c' s]; [destruct Hin|].
      destruct (Ascii.eqb c c'); [|destruct Hin].
      exact (IH _ _ _ HY' Hacc Hin).
Qed.

Lemma match_format_sets_window f : forall s acc r,
  ~ In PyDate.D_Y f -> In PyDate.D_y f ->
  In r (PyDate.match_format f s acc) -> in_window r.1.
Proof.
  induction f as [|dir f IH]; intros s acc r HY Hy Hin.
  - destruct Hy.
  - assert (HY' : ~ In PyDate.D_Y f) by (intros H; apply HY; right; exact H).
    destruct dir; cbn [PyDate.match_format] in Hin.
    + destruct Hy as [Hy|Hy]; [discriminate|].
      apply in_flat_map in Hin as ([v r'] & _ & Hin).
      exact (IH _ _ _ HY' Hy Hin).
    + destruct Hy as [Hy|Hy]; [discriminate|].
      apply in_flat_map in Hin as ([v r'] & _ & Hin).
      exact (IH _ _ _ HY' Hy Hin).
    + apply in_flat_map in Hin as ([v r'] & Hv & Hin).
      apply re_y_range in Hv.
      refine (match_format_keeps_window _ _ _ _ HY' _ Hin). cbn [fst].
      destruct (Z.leb_spec v 68); lia.
    + exfalso. apply HY. left. reflexivity.
    + destruct Hy as [Hy|Hy]; [discriminate|].
      destruct s as [|c' s]; [destruct Hin|].
      destruct (Ascii.eqb c c'); [|destruct Hin].
      exact (IH _ _ _ HY' Hy Hin).
Qed.

Lemma strptime_two_digit_year data p :
  PyDate.strptime data "%m/%d/%y" = Ok p -> 1969 <= PyDate.year p <= 2068.
Proof.
  unfold PyDate.strptime.
  change (PyDate.compile_format (String.list_ascii_of_string "%m/%d/%y"))
    with (Some [PyDate.D_m; PyDate.D_lit "/"; PyDate.D_d; PyDate.D_lit "/";
                PyDate.D_y]).
  cbv beta iota.
  destruct (PyDate.match_format
              [PyDate.D_m; PyDate.D_lit "/"; PyDate.D_d; PyDate.D_lit "/";
               PyDate.D_y]
              (String.list_ascii_of_string data) (1900, 1, 1))
    as [|[[[y m] d] rest] more] eqn:Hm;
    [discriminate|].
  destruct rest; [|discriminate].
  intros Hmk. destruct (make_date_bounds _ _ _ _ Hmk) as (-> & _).
  cbn [PyDate.year].
  assert (Hin : In ((y, m, d), [])
                  (PyDate.match_format
                     [PyDate.D_m; PyDate.D_lit "/"; PyDate.D_d; PyDate.D_lit "/";
                      PyDate.D_y]
                     (String.list_ascii_of_string data) (1900, 1, 1)))
    by (rewrite Hm; left; reflexivity).
  apply match_format_sets_window in Hin.
  - exact Hin.
  - intros [H|[H|[H|[H|[H|[]]]]]]; discriminate.
  - right; right; right; right; left; reflexivity.
Qed.

Lemma match_format_D_m f s acc :
  PyDate.match_format (PyDate.D_m :: f) s acc
  = flat_map (fun '(v, r) => PyDate.match_format f r (acc.1.1, v, acc.2))
      (PyDate.re_m s).
Proof. reflexivity. Qed.

Lemma slash_not_digit c : Py.is_digit c = true -> Ascii.eqb "/" c = false.
Proof.
  intros H. destruct (Ascii.eqb_spec "/" c) as [<-|]; [|reflexivity].
  vm_compute in H. discriminate.
Qed.

Lemma iso_shape_has_no_slash s :
  DateStandardizer.is_iso_shape s = true ->
  PyDate.strptime s "%m/%d/%y" = Raise ValueError.
Proof.
  unfold DateStandardizer.is_iso_shape, PyDate.strptime.
  change (PyDate.compile_format (String.list_ascii_of_string "%m/%d/%y"))
    with (Some [PyDate.D_m; PyDate.D_lit "/"; PyDate.D_d; PyDate.D_lit "/";
                PyDate.D_y]).
  cbv beta iota.
  destruct (String.list_ascii_of_string s)
    as [|y1 [|y2 [|y3 [|y4 [|s1 [|m1 [|m2 [|s2 [|d1 [|d2 [|x l]]]]]]]]]]];
    try discriminate.
  cbn [forallb]. intros H. rewrite !andb_true_iff in H.
  destruct H as (((Hy1 & Hy2 & Hy3 & _) & _) & _).
  destruct (digit_cases _ Hy1) as [E1 R1]. destruct (digit_cases _ Hy2) as [E2 R2].
  set (a := Py.digit_val y1) in *. set (b := Py.digit_val y2) in *.
  clearbody a b. subst y1 y2.
  rewrite match_format_D_m.
  rewrite re_m_digits by assumption.
  rewrite flat_map_app.
  destruct ((1 <=? 10 * a + b) && (10 * a + b <=? 12));
    destruct (1 <=? a);
    cbn [flat_map PyDate.match_format app];
    rewrite ?(slash_not_digit _ Hy2), ?(slash_not_digit _ Hy3); reflexivity.
Qed.

End TwoDigitYears.

(** X26: a text read by the first format, ['%m/%d/%y'], gets a year
    between 1969 and 2068. *)
Theorem two_digit_years_land_in_1969_2068 date_str p :
  PyDate.strptime (Py.strip date_str) "%m/%d/%y" = Ok p ->
  DateStandardizer.parse_date_flexible date_str
  = Ok (Some (PyDate.strftime_ymd p))
  /\ 1969 <= PyDate.year p <= 2068.
Proof.
  intros Hp. pose proof (strptime_two_digit_year _ _ Hp) as Hy.
  split; [|exact Hy].
  unfold DateStandardizer.parse_date_flexible.
  assert (Hne : Py.strip date_str <> "").
  { intros E. rewrite E in Hp. vm_compute in Hp. discriminate. }
  assert (Ht : Py.truthy date_str = true).
  { destruct date_str; [|reflexivity]. exfalso. apply Hne. reflexivity. }
  rewrite Ht. cbn [negb orb].
  destruct (String.eqb_spec (Py.strip date_str) "") as [E|_]; [contradiction|].
  cbv zeta.
  destruct (DateStandardizer.is_iso_shape (Py.strip date_str)) eqn:Hiso.
  { rewrite (iso_shape_has_no_slash _ Hiso) in Hp. discriminate. }
  cbn [mbind res_bind].
  unfold DateStandardizer.date_formats.
  cbn [DateStandardizer.try_formats]. unfold DateStandardizer.try_format at 1.
  rewrite Hp. cbn [mbind res_bind].
  destruct (Z.ltb_spec (PyDate.year p) 1950); [lia|].
  reflexivity.
Qed.

Lemma two_digit_years_land_in_1969_2068_witness :
  DateStandardizer.parse_date_flexible "3/5/68" = Ok (Some "2068-03-05")
  /\ DateStandardizer.parse_date_flexible "03/05/69" = Ok (Some "1969-03-05").
Proof.
  split.
  - exact (proj1 (two_digit_years_land_in_1969_2068 "3/5/68"
                    (PyDate.mkdate 2068 3 5) ltac:(vm_compute; reflexivity))).
  - exact (proj1 (two_digit_years_land_in_1969_2068 "03/05/69"
                    (PyDate.mkdate 1969 3 5) ltac:(vm_compute; reflexivity))).
Defined.

Section TextOrder.

Lemma ascii_compare_trans_lt c1 c2 c3 :
  Ascii.compare c1 c2 = Lt -> Ascii.compare c2 c3 = Lt -> Ascii.compare c1 c3 = Lt.
Proof.
  unfold Ascii.compare. rewrite !N.compare_lt_iff. apply N.lt_trans.
Qed.

Lemma string_compare_not_gt_trans a : forall b c,
  String.compare a b <> Gt -> String.compare b c <> Gt ->
  String.compare a c <> Gt.
Proof.
  induction a as [|c1 a IH]; intros [|c2 b] [|c3 c]; cbn [String.compare];
    try congruence.
  destruct (Ascii.compare c1 c2) eqn:E12; try congruence;
    destruct (Ascii.compare c2 c3) eqn:E23; try congruence.
  - apply Ascii.compare_eq_iff in E12, E23. subst.
    replace (Ascii.compare c3 c3) with Eq
      by (symmetry; unfold Ascii.compare; apply N.compare_refl).
    apply IH.
  - apply Ascii.compare_eq_iff in E12. subst. rewrite E23. congruence.
  - apply Ascii.compare_eq_iff in E23. subst. rewrite E12. congruence.
  - rewrite (ascii_compare_trans_lt _ _ _ E12 E23). congruence.
Qed.

Lemma string_leb_iff a b : String.leb a b = true <-> String.compare a b <> Gt.
Proof. unfold String.leb. destruct (String.compare a b); split; congruence. Qed.

Lemma string_leb_trans a b c :
  String.leb a b = true -> String.leb b c = true -> String.leb a c = true.
Proof. rewrite !string_leb_iff. apply string_compare_not_gt_trans. Qed.

Lemma string_ltb_leb a b : String.ltb a b = true -> String.leb a b = true.
Proof. unfold String.ltb, String.leb. destruct (String.compare a b); congruence. Qed.

Lemma string_not_ltb_leb a b : String.ltb a b = false -> String.leb b a = true.
Proof.
  unfold String.ltb, String.leb. rewrite (String.compare_antisym a b).
  destruct (String.compare b a); cbn; congruence.
Qed.

End TextOrder.

Section CandidateOrder.

Local Abbreviation by_number :=
  (fun e1 e2 : equipment_row =>
     String.leb (bfm_equipment_no e1) (bfm_equipment_no e2) = true).

Lemma insert_by_bfm_ascending e l :
  ascending (map bfm_equipment_no l) ->
  ascending (map bfm_equipment_no (insert_by_bfm e l)).
Proof.
  induction l as [|x l IH]; cbn [insert_by_bfm map ascending].
  - intros _. split; [constructor|exact I].
  - intros [Hx Hl].
    destruct (String.ltb (bfm_equipment_no e) (bfm_equipment_no x)) eqn:Hlt;
      cbn [map ascending].
    + split; [|split; assumption].
      pose proof (string_ltb_leb _ _ Hlt) as Hle.
      constructor; [exact Hle|].
      eapply List.Forall_impl; [|exact Hx].
      intros y Hy. exact (string_leb_trans _ _ _ Hle Hy).
    + split; [|exact (IH Hl)].
      rewrite (Permutation_map bfm_equipment_no (insert_by_bfm_perm e l)).
      cbn [map]. constructor; [exact (string_not_ltb_leb _ _ Hlt)|exact Hx].
Qed.

Lemma order_by_bfm_ascending l : ascending (map bfm_equipment_no (order_by_bfm l)).
Proof.
  unfold order_by_bfm.
  assert (H : forall acc,
             ascending (map bfm_equipment_no acc) ->
             ascending
               (map bfm_equipment_no
                  (fold_left (fun acc e => insert_by_bfm e acc) l acc))).
  { induction l as [|e l IH]; intros acc Hacc; [exact Hacc|].
    cbn [fold_left]. apply IH, insert_by_bfm_ascending, Hacc. }
  apply H. exact I.
Qed.

Lemma collect_assignments_ascending today l : forall (X : gset string),
  ascending (map bfm_equipment_no l) ->
  ascending
    (map (fun a : string * string * string => a.1.1)
       (collect_assignments today l X)).
Proof.
  induction l as [|e l IH]; intros X; cbn [collect_assignments map ascending];
    [auto|].
  intros [He Hl].
  destruct (bool_decide (bfm_equipment_no e ∈ X)); [exact (IH _ Hl)|].
  destruct (assigned_pm today e) as [pm|]; [|exact (IH _ Hl)].
  cbn [map ascending fst]. split; [|exact (IH _ Hl)].
  apply List.Forall_forall. intros y Hy.
  apply in_map_iff in Hy as (a & <- & Ha).
  destruct (collect_assignments_sound _ _ _ _ Ha) as (e' & He' & Hae & _).
  rewrite Hae. cbn [fst].
  rewrite List.Forall_forall in He. apply He. apply in_map. exact He'.
Qed.

Lemma ascending_lookup l : forall i j a b,
  ascending l -> (i < j)%nat -> l !! i = Some a -> l !! j = Some b ->
  String.leb a b = true.
Proof.
  induction l as [|x l IH]; intros i j a b Hl Hij Hi Hj; [discriminate|].
  destruct Hl as [Hx Hl].
  destruct j as [|j]; [lia|]. cbn in Hj.
  destruct i as [|i].
  - injection Hi as <-. rewrite List.Forall_forall in Hx. apply Hx.
    apply list_elem_of_In. exact (list_elem_of_lookup_2 _ _ _ Hj).
  - cbn in Hi. exact (IH i j a b Hl ltac:(lia) Hi Hj).
Qed.

End CandidateOrder.

(** X27: the week is filled in ascending order of equipment number. *)
Theorem generated_week_is_in_equipment_number_order flt today roster target
    week_start_var s total_pms s' :
  generate_weekly_assignments flt today roster target week_start_var s
  = Generated total_pms s' ->
  exists week_start,
    PyDate.strptime week_start_var "%Y-%m-%d" = Ok week_start
    /\ let week := week_entries (PyDate.strftime_ymd week_start) s' in
       let cands := pm_candidates today s in
       ascending (map (fun a : string * string * string => a.1.1) cands)
       /\ (forall i j r1 r2,
             (i < j)%nat -> week !! i = Some r1 -> week !! j = Some r2 ->
             String.leb (ws_bfm_equipment_no r1) (ws_bfm_equipment_no r2) = true)
       /\ (forall i k r a,
             week !! i = Some r -> (length week <= k)%nat ->
             cands !! k = Some a ->
             String.leb (ws_bfm_equipment_no r) a.1.1 = true).
Proof.
  intros H.
  destruct (generated_database _ _ _ _ _ _ _ _ H)
    as (week_start & Hws & Hmax & Hroster & HT & _ & Hweek & Hlen).
  exists week_start. split; [exact Hws|]. cbv zeta.
  assert (Hasc : ascending
                   (map (fun a : string * string * string => a.1.1)
                      (pm_candidates today s))).
  { apply collect_assignments_ascending. apply order_by_bfm_ascending. }
  assert (Hfit :
    (0 + planned_count (total_pms / Z.of_nat (length roster))
           (total_pms mod Z.of_nat (length roster)) (length roster) 0
     <= length (pm_candidates today s))%nat).
  { rewrite HT. exact (planned_fits today roster target s Hroster). }
  assert (Hpos : forall i r,
             week_entries (PyDate.strftime_ymd week_start) s' !! i = Some r ->
             map (fun a : string * string * string => a.1.1)
               (pm_candidates today s) !! i = Some (ws_bfm_equipment_no r)).
  { intros i r Hr. rewrite Hweek in Hr.
    destruct (planned_rows_lookup _ _ _ _ _ _ _ _ _ Hfit Hr)
      as (a & tech & Ha & _ & ->).
    cbn [Nat.add] in Ha. rewrite list_lookup_fmap, Ha. reflexivity. }
  split; [exact Hasc|]. split.
  - intros i j r1 r2 Hij H1 H2.
    exact (ascending_lookup _ _ _ _ _ Hasc Hij (Hpos _ _ H1) (Hpos _ _ H2)).
  - intros i k r a Hr Hk Ha.
    assert (Hi : (i < length (week_entries (PyDate.strftime_ymd week_start) s'))%nat)
      by (apply lookup_lt_is_Some; eauto).
    refine (ascending_lookup _ i k _ _ Hasc ltac:(lia) (Hpos _ _ Hr) _).
    rewrite list_lookup_fmap, Ha. reflexivity.
Qed.

Lemma generated_week_is_in_equipment_number_order_witness :
  let s :=
    mk_db
      [ mk_equipment "E-9" "Crane" "Bay 3" false false true
          None None None None None None "Active";
        mk_equipment "E-10" "Press" "Bay 1" true false true
          None None None None None None "Active";
        mk_equipment "E-100" "Lathe" "Bay 2" true false false
          None None None None None None "Active" ]
      [] [] [] [] in
  exists s',
    generate_weekly_assignments no_faults (PyDate.mkdate 2025 2 3) technicians 2
      "2025-02-03" s
    = Generated 2 s'
    /\ map ws_bfm_equipment_no (week_entries "2025-02-03" s') = ["E-10"; "E-100"]
    /\ ascending (map (fun a : string * string * string => a.1.1)
                    (pm_candidates (PyDate.mkdate 2025 2 3) s)).
Proof.
  intros s.
  destruct (generate_weekly_assignments no_faults (PyDate.mkdate 2025 2 3)
              technicians 2 "2025-02-03" s)
    as [total_pms s'|e] eqn:Hgen; [|vm_compute in Hgen; discriminate].
  assert (HT : total_pms = 2) by (vm_compute in Hgen; congruence).
  subst total_pms. exists s'. split; [reflexivity|].
  destruct (generated_week_is_in_equipment_number_order no_faults
              (PyDate.mkdate 2025 2 3) technicians 2 "2025-02-03" s 2 s' Hgen)
    as (w & _ & Hasc & _).
  split; [|exact Hasc].
  vm_compute in Hgen. injection Hgen as <-. vm_compute. reflexivity.
Defined.
